(** * Serverless inventory pipeline: a shallow embedding of the scripts
      under [infra/] and of the three Lambda handlers under [lambdas/].

    The Python sources talk to the cloud provider (boto3), to the local
    file system and to the operator's terminal.  Every such interaction is
    modelled as a _call_ answered by an environment, which may return a value
    or raise an exception; a program is a function from the environment and
    the history of interactions so far to an outcome and the interactions it
    performed.  [try]/[except] blocks, early [return]s, [sys.exit] and unbound
    local variables are modelled as Python has them.

    The first part of the file holds the model, one module per source file;
    the second part holds the facts: general lemmas about programs, then the
    properties of each source file. *)

From Stdlib Require Import String Ascii List ZArith Lia Bool Arith PeanoNat.
From Stdlib Require Import DecimalString.
Import ListNotations.
Local Open Scope string_scope.
Local Open Scope list_scope.

Set Implicit Arguments.

(* ====================================================================== *)
(** * Python primitives used by the sources *)
(* ====================================================================== *)

Module Py.

(** The newline character, used to spell multi-line literals. *)
Definition nl : string := String (ascii_of_nat 10) EmptyString.

(** ASCII white space as [str.strip] and [int] see it (the Unicode white
    space outside ASCII is not modelled: strings are byte strings here). *)
Definition is_space (c : ascii) : bool :=
  let n := nat_of_ascii c in
  (Nat.eqb n 32 || (Nat.leb 9 n && Nat.leb n 13)
   || (Nat.leb 28 n && Nat.leb n 31))%bool.

Fixpoint lstrip (s : string) : string :=
  match s with
  | EmptyString => EmptyString
  | String c r => if is_space c then lstrip r else s
  end.

Fixpoint rev_string_onto (s acc : string) : string :=
  match s with
  | EmptyString => acc
  | String c r => rev_string_onto r (String c acc)
  end.

Definition rev_string (s : string) : string := rev_string_onto s EmptyString.

(** [s.strip()] *)
Definition strip (s : string) : string :=
  rev_string (lstrip (rev_string (lstrip s))).

(** [needle in hay] on strings. *)
Fixpoint contains (needle hay : string) : bool :=
  prefix needle hay ||
  match hay with
  | EmptyString => false
  | String _ r => contains needle r
  end.

(** [s.split(sep)] for a one-character separator. *)
Fixpoint split_onto (sep : ascii) (s : string) (cur : string) : list string :=
  match s with
  | EmptyString => [rev_string cur]
  | String c r =>
      if Ascii.eqb c sep then rev_string cur :: split_onto sep r EmptyString
      else split_onto sep r (String c cur)
  end.

Definition split (sep : ascii) (s : string) : list string :=
  split_onto sep s EmptyString.

(** [str(n)] for an integer. *)
Definition str_of_Z (z : Z) : string := NilZero.string_of_int (Z.to_int z).
Definition str_of_nat (n : nat) : string := str_of_Z (Z.of_nat n).

Definition is_digit (c : ascii) : bool :=
  let n := nat_of_ascii c in (Nat.leb 48 n && Nat.leb n 57)%bool.

Definition digit_value (c : ascii) : Z := Z.of_nat (nat_of_ascii c) - 48.

(** The digits of a base-10 [int] literal: a digit first, single underscores
    only between digits. *)
Fixpoint digits_value (acc : Z) (after_digit : bool) (s : string) : option Z :=
  match s with
  | EmptyString => if after_digit then Some acc else None
  | String c r =>
      if is_digit c then digits_value (acc * 10 + digit_value c) true r
      else if Ascii.eqb c "_"
           then (if after_digit then digits_value acc false r else None)
           else None
  end.

(** [int(s)] for a string [s] of ASCII characters: surrounding white space
    is dropped, one sign is allowed; [None] stands for the [ValueError]
    Python raises.  (The decimal digits of other scripts, which [int] also
    reads, are not modelled.) *)
Definition int_of_str (s : string) : option Z :=
  match strip s with
  | String "+" r => digits_value 0 false r
  | String "-" r => option_map Z.opp (digits_value 0 false r)
  | t => digits_value 0 false t
  end.

(** [s.replace(old, new)] for a non-empty [old]: [skip] counts the
    characters of a match still to be dropped. *)
Fixpoint replace_from (skip : nat) (old new s : string) : string :=
  match s with
  | EmptyString => EmptyString
  | String c r =>
      match skip with
      | S n => replace_from n old new r
      | 0 =>
          if prefix old s
          then (new ++ replace_from (String.length old - 1) old new r)%string
          else String c (replace_from 0 old new r)
      end
  end.

Definition replace (old new s : string) : string := replace_from 0 old new s.

(** [Path(p).suffix]: the last extension of the last component. *)
Fixpoint until_dot (rev_name : string) (acc : string) : option (string * string) :=
  match rev_name with
  | EmptyString => None
  | String c r =>
      if Ascii.eqb c "." then Some (acc, r) else until_dot r (String c acc)
  end.

Definition path_suffix (p : string) : string :=
  let name := last (split "/" p) "" in
  match until_dot (rev_string name) EmptyString with
  | Some (String c ext, String d stem) => String "." (String c ext)
  | _ => EmptyString
  end.

(** [d.get(k)] on a dictionary kept as an association list. *)
Fixpoint dict_get {V : Type} (d : list (string * V)) (k : string) : option V :=
  match d with
  | [] => None
  | (k', v) :: r => if String.eqb k' k then Some v else dict_get r k
  end.

End Py.

(* ====================================================================== *)
(** * Exceptions, environments and programs *)
(* ====================================================================== *)

(** The exception classes the sources meet, all of them subclasses of
    [Exception].  [ClientError] is botocore's error for an error response of
    the provider; botocore's waiters raise [WaiterError], which is not a
    [ClientError]. *)
Inductive Exn : Type :=
| ClientError (code operation message : string)
| WaiterError (message : string)
| KeyError (key : string)
| UnboundLocalError (message : string)
| ValueError (message : string)
| TypeError (message : string)
| AttributeError (message : string)
| OSError (message : string)
| OtherException (message : string).

(** [str(e)] *)
Definition str_of_exn (e : Exn) : string :=
  match e with
  | ClientError code op msg =>
      ("An error occurred (" ++ code ++ ") when calling the " ++ op
         ++ " operation: " ++ msg)%string
  | WaiterError m => m
  | KeyError k => ("'" ++ k ++ "'")%string
  | UnboundLocalError m => m
  | ValueError m => m
  | TypeError m => m
  | AttributeError m => m
  | OSError m => m
  | OtherException m => m
  end.

(** [e.response["Error"]["Code"]] of a [ClientError]. *)
Definition error_code (e : Exn) : string :=
  match e with ClientError code _ _ => code | _ => "" end.

(** The three [except] clauses of the sources. *)
Definition except_ClientError (e : Exn) : bool :=
  match e with ClientError _ _ _ => true | _ => false end.

(** [except Exception] *)
Definition except_Exception (e : Exn) : bool := true.

(** A bare [except:].  It would also catch [SystemExit], but no [try] block
    of the sources contains a call of [sys.exit]. *)
Definition except_any (e : Exn) : bool := true.

(** What the environment answers to a call. *)
Inductive Reply (R : Type) : Type :=
| Ret (r : R)
| Err (e : Exn).
Arguments Ret {R} r.
Arguments Err {R} e.

(** How a program ends: with a value, with an exception, by [sys.exit], or
    not at all (a loop that the environment keeps alive for ever). *)
Inductive Outcome (A : Type) : Type :=
| Ok (a : A)
| Raise (e : Exn)
| Exit (code : Z)
| Diverge.
Arguments Ok {A} a.
Arguments Raise {A} e.
Arguments Exit {A} code.
Arguments Diverge {A}.

(** The exit status of the process for the outcome of a script. *)
Definition exit_code {A : Type} (o : Outcome A) : option Z :=
  match o with
  | Ok _ => Some 0%Z
  | Raise _ => Some 1%Z      (* an uncaught exception: traceback, status 1 *)
  | Exit c => Some c
  | Diverge => None
  end.

Section Effects.

Variable Call : Type -> Type.

(** One interaction: a call with its answer, or a line written by
    [print]. *)
Inductive Event : Type :=
| Ev (R : Type) (c : Call R) (r : Reply R)
| Log (line : string).

Definition Trace : Type := list Event.

(** The environment answers a call knowing everything that happened
    before it. *)
Definition Env : Type := forall R : Type, Trace -> Call R -> Reply R.

(** A program: given the environment and the history, an outcome and
    the events performed. *)
Definition M (A : Type) : Type := Env -> Trace -> Outcome A * Trace.

Definition ret {A} (a : A) : M A := fun _ _ => (Ok a, []).

Definition raise {A} (e : Exn) : M A := fun _ _ => (Raise e, []).

(** [sys.exit(code)] *)
Definition sys_exit {A} (code : Z) : M A := fun _ _ => (Exit code, []).

Definition bind {A B} (m : M A) (k : A -> M B) : M B :=
  fun env h =>
    match m env h with
    | (Ok a, d) =>
        let (o, d') := k a env (h ++ d) in (o, d ++ d')
    | (Raise e, d) => (Raise e, d)
    | (Exit c, d) => (Exit c, d)
    | (Diverge, d) => (Diverge, d)
    end.

(** A loop that ran out of the fuel the model gives it. *)
Definition diverge {A} : M A := fun _ _ => (Diverge, []).

(** Perform a call. *)
Definition call {R} (c : Call R) : M R :=
  fun env h =>
    match env R h c with
    | Ret r => (Ok r, [Ev c (Ret r)])
    | Err e => (Raise e, [Ev c (Err e)])
    end.

(** [print(line)] *)
Definition print (line : string) : M unit := fun _ _ => (Ok tt, [Log line]).

(** [try: m  except <catches> as e: handler e] *)
Definition try_except {A} (m : M A) (catches : Exn -> bool)
           (handler : Exn -> M A) : M A :=
  fun env h =>
    match m env h with
    | (Raise e, d) =>
        if catches e
        then let (o, d') := handler e env (h ++ d) in (o, d ++ d')
        else (Raise e, d)
    | r => r
    end.

(** [for x in l: body x] *)
Fixpoint for_each {A} (l : list A) (body : A -> M unit) : M unit :=
  match l with
  | [] => ret tt
  | x :: r => bind (body x) (fun _ => for_each r body)
  end.

(** A [for] loop that updates local variables kept in [s]. *)
Fixpoint for_fold {A S} (l : list A) (body : A -> S -> M S) (s : S) : M S :=
  match l with
  | [] => ret s
  | x :: r => bind (body x s) (fun s' => for_fold r body s')
  end.

Definition run {A} (m : M A) (env : Env) : Outcome A * Trace := m env [].

End Effects.

Arguments Ev {Call R} c r.
Arguments Log {Call} line.
Arguments ret {Call A} a.
Arguments raise {Call A} e.
Arguments sys_exit {Call A} code.
Arguments diverge {Call A}.
Arguments bind {Call A B} m k.
Arguments call {Call R} c.
Arguments print {Call} line.
Arguments try_except {Call A} m catches handler.
Arguments for_each {Call A} l body.
Arguments for_fold {Call A S} l body s.
Arguments run {Call A} m env.

Declare Scope prog_scope.
Delimit Scope prog_scope with prog.
Notation "x <- m ;; k" := (bind m (fun x => k))
  (at level 61, m at next level, right associativity) : prog_scope.
Notation "m ;; k" := (bind m (fun _ => k))
  (at level 61, right associativity) : prog_scope.
Local Open Scope prog_scope.

(** ** Properties of programs *)

(** Every event [m] performs satisfies [P], in every environment. *)
Definition emits (Call : Type -> Type) (A : Type) (P : Event Call -> Prop)
           (m : M Call A) : Prop :=
  forall env h, Forall P (snd (m env h)).

(** [m] performs no event that passes the filter [f]. *)
Definition silent (Call : Type -> Type) (f : Event Call -> bool) (A : Type)
           (m : M Call A) : Prop :=
  emits (fun e => f e = false) m.

(** In the environment [env], [m] returns or raises an exception in [P];
    it neither exits nor loops. *)
Definition raises_only (Call : Type -> Type) (env : Env Call) (A : Type)
           (P : Exn -> Prop) (m : M Call A) : Prop :=
  forall h, match fst (m env h) with
            | Ok _ => True
            | Raise e => P e
            | Exit _ => False
            | Diverge => False
            end.

(** JSON values, for the bodies the handlers pass to [json.dumps] and for
    the deployment record.  A response body is kept as the value that is
    serialised, not as its text. *)
#[local] Unset Elimination Schemes.
Inductive Json : Type :=
| JNull
| JInt (z : Z)
| JFloat (z : Z)        (* [float(Decimal(z))], an integral float *)
| JStr (s : string)
| JArr (l : list Json)
| JObj (fields : list (string * Json)).
#[local] Set Elimination Schemes.

(** The dictionary the Lambda handlers return. *)
Record Response : Type := mkResponse { statusCode : Z; body : Json }.

(* ====================================================================== *)
(** * lambdas/notify_low_stock/lambda_function.py *)
(* ====================================================================== *)

Module Notify.

(** A DynamoDB attribute value in the stream's JSON: [{"S": ...}] or
    [{"N": ...}]; a number is carried as a string. *)
Record AttributeValue : Type :=
  mkAttr { attr_S : option string; attr_N : option string }.

Definition Image : Type := list (string * AttributeValue).

Record StreamData : Type := mkStreamData { NewImage : option Image }.

(** A change-stream record; DynamoDB Streams always sets [eventName]. *)
Record StreamRecord : Type :=
  mkStreamRecord { eventName : string; dynamodb : option StreamData }.

Record StreamEvent : Type := mkEvent { Records : option (list StreamRecord) }.

(** The one call of the handler: [sns.publish]. *)
Inductive Call : Type -> Type :=
| Publish (TopicArn Subject Message : string) : Call unit.

Definition LOW_STOCK_THRESHOLD : Z := 50.

(** [record.get("dynamodb", {}).get("NewImage", {})] *)
Definition new_image_of (record : StreamRecord) : Image :=
  match dynamodb record with
  | Some d => match NewImage d with Some i => i | None => [] end
  | None => []
  end.

(** [new_image.get(k, {}).get("S", "Unknown")] *)
Definition string_attr (new_image : Image) (k : string) : string :=
  match Py.dict_get new_image k with
  | Some a => match attr_S a with Some s => s | None => "Unknown" end
  | None => "Unknown"
  end.

(** [int(new_image.get("Count", {}).get("N", 0))]: the default [0] is an
    integer, a present ["N"] is a string and goes through [int]. *)
Definition parse_count (new_image : Image) : Z + Exn :=
  match Py.dict_get new_image "Count" with
  | Some a =>
      match attr_N a with
      | Some n =>
          match Py.int_of_str n with
          | Some z => inl z
          | None =>
              inr (ValueError
                     ("invalid literal for int() with base 10: '" ++ n ++ "'")%string)
          end
      | None => inl 0%Z
      end
  | None => inl 0%Z
  end.

Definition alert_message (store item : string) (count : Z) : string :=
  (Py.nl ++ "⚠️ ALERTA DE STOCK BAJO" ++ Py.nl
   ++ Py.nl
   ++ "Tienda: " ++ store ++ Py.nl
   ++ "Artículo: " ++ item ++ Py.nl
   ++ "Stock actual: " ++ Py.str_of_Z count ++ Py.nl
   ++ "Umbral: " ++ Py.str_of_Z LOW_STOCK_THRESHOLD ++ Py.nl
   ++ Py.nl
   ++ "Por favor, reabastecer inmediatamente." ++ Py.nl
   ++ "                    ")%string.

Definition alert_subject (store item : string) : string :=
  ("[ALERTA] Stock bajo: " ++ item ++ " en " ++ store)%string.

Definition is_insert_or_modify (event_name : string) : bool :=
  String.eqb event_name "INSERT" || String.eqb event_name "MODIFY".

Section Handler.

(** [os.environ["TOPIC_ARN"]] *)
Variable TOPIC_ARN : string.

(** The body of the loop over the records; [notified_count] is the
    local counter.  The handler's [print]s go to the function's log and
    are left out. *)
Definition process_record (record : StreamRecord) (notified_count : nat)
  : M Call nat :=
  let event_name := eventName record in
  if is_insert_or_modify event_name then
    let new_image := new_image_of record in
    let store := string_attr new_image "Store" in
    let item := string_attr new_image "Item" in
    match parse_count new_image with
    | inr e => raise e
    | inl count =>
        if (count <? LOW_STOCK_THRESHOLD)%Z then
          try_except
            (call (Publish TOPIC_ARN (alert_subject store item)
                           (alert_message store item count)) ;;
             ret (notified_count + 1))
            except_Exception
            (fun _ => ret notified_count)
        else ret notified_count
    end
  else (* REMOVE and unknown event types: a log line only *)
    ret notified_count.

Definition summary (notified_count : nat) : Json :=
  JObj [("message",
         JStr ("Eventos procesados, " ++ Py.str_of_nat notified_count
               ++ " notificaciones enviadas")%string)].

Definition lambda_handler (event : StreamEvent) : M Call Response :=
  try_except
    (let records := match Records event with Some l => l | None => [] end in
     notified_count <- for_fold records process_record 0 ;;
     ret (mkResponse 200 (summary notified_count)))
    except_Exception
    (fun e => ret (mkResponse 500 (JObj [("error", JStr (str_of_exn e))]))).

End Handler.

(** ** What a run published *)

Definition publish_of (e : Event Call) : list (string * string * string) :=
  match e with
  | Ev c _ => match c with Publish a s m => [(a, s, m)] end
  | Log _ => []
  end.

(** The [sns.publish] calls of a trace, in order. *)
Definition publish_calls (t : Trace Call) : list (string * string * string) :=
  flat_map publish_of t.

Definition delivered_of (e : Event Call) : nat :=
  match e with
  | Ev c (Ret _) => match c with Publish _ _ _ => 1 end
  | _ => 0
  end.

(** The number of [sns.publish] calls that returned without raising. *)
Definition delivered (t : Trace Call) : nat :=
  list_sum (map delivered_of t).

(** The count the handler reads off a record, when [int] accepts it. *)
Definition new_count (record : StreamRecord) : option Z :=
  match parse_count (new_image_of record) with
  | inl z => Some z
  | inr _ => None
  end.

(** An INSERT or MODIFY record whose new Count is below the threshold. *)
Definition low_stock (record : StreamRecord) : bool :=
  is_insert_or_modify (eventName record) &&
  match new_count record with
  | Some z => (z <? LOW_STOCK_THRESHOLD)%Z
  | None => false
  end.

(** The Count of the record, when there is one, is an integer literal. *)
Definition count_integral (record : StreamRecord) : bool :=
  match new_count record with Some _ => true | None => false end.

(** A record the handler gets through: it is no INSERT or MODIFY, or its
    Count, when there is one, is an integer literal. *)
Definition readable (record : StreamRecord) : bool :=
  negb (is_insert_or_modify (eventName record)) || count_integral record.

(** The message the handler publishes for a record. *)
Definition alert_for (TOPIC_ARN : string) (record : StreamRecord)
  : string * string * string :=
  let new_image := new_image_of record in
  let store := string_attr new_image "Store" in
  let item := string_attr new_image "Item" in
  (TOPIC_ARN, alert_subject store item,
   alert_message store item
     (match new_count record with Some z => z | None => 0%Z end)).

Definition records_of (event : StreamEvent) : list StreamRecord :=
  match Records event with Some l => l | None => [] end.

(** The stream gate as the specification words it: one message per
    INSERT or MODIFY record with a new Count below 50, none for the rest. *)
Definition stream_gate (TOPIC_ARN : string) (env : Env Call)
           (event : StreamEvent) : Prop :=
  publish_calls (snd (run (lambda_handler TOPIC_ARN event) env))
  = map (alert_for TOPIC_ARN) (filter low_stock (records_of event)).

(** ** Sample inputs *)

(** A topic that accepts every message. *)
Definition sns_up : Env Call :=
  fun R _ c => match c in Call R return Reply R with
               | Publish _ _ _ => Ret tt
               end.

(** A topic that refuses every message. *)
Definition sns_down : Env Call :=
  fun R _ c => match c in Call R return Reply R with
               | Publish _ _ _ =>
                   Err (ClientError "AuthorizationError" "Publish" "denied")
               end.

Definition change (event_name store item : string) (count : option string)
  : StreamRecord :=
  mkStreamRecord event_name
    (Some (mkStreamData
       (Some ([("Store", mkAttr (Some store) None);
               ("Item", mkAttr (Some item) None)]
              ++ match count with
                 | Some n => [("Count", mkAttr None (Some n))]
                 | None => []
                 end)))).

(** A MODIFY from 80 to 30, a MODIFY from 30 to 10, a REMOVE, and an INSERT
    at the threshold. *)
Definition sample_batch : StreamEvent :=
  mkEvent (Some [change "MODIFY" "Berlin" "Widget-001" (Some "30");
                 change "MODIFY" "Berlin" "Widget-001" (Some "10");
                 mkStreamRecord "REMOVE" (Some (mkStreamData None));
                 change "INSERT" "Madrid" "Widget-002" (Some "50")]).

(** A record whose Count is a number but not an integer, followed by a
    record with Count 10. *)
Definition fractional_batch : StreamEvent :=
  mkEvent (Some [change "INSERT" "Berlin" "Widget-001" (Some "60.5");
                 change "INSERT" "Berlin" "Widget-002" (Some "10")]).

End Notify.

(* ====================================================================== *)
(** * lambdas/load_inventory/lambda_function.py *)
(* ====================================================================== *)

Module Load.

(** An entry of the S3 notification: [record["s3"]["bucket"]["name"]] and
    [record["s3"]["object"]["key"]]. *)
Record S3Record : Type := mkS3Record { bucket_name : string; object_key : string }.

Record S3Event : Type := mkEvent { Records : option (list S3Record) }.

(** A row as [csv.DictReader] yields it: a dictionary from the column names
    of the header to the fields of the line, [None] for a field the line
    does not have. *)
Definition Row : Type := list (string * option string).

(** [s3.get_object(...)["Body"].read().decode("utf-8")] and
    [table.put_item(Item={"Store":..., "Item":..., "Count":...})]. *)
Inductive Call : Type -> Type :=
| GetObject (Bucket Key : string) : Call string
| PutItem (Store Item : string) (Count : Z) : Call unit.

(** What iterating over a [csv.DictReader] gives: the rows it yields, in
    order, and then either the end of the text ([None]) or the [csv.Error]
    it raises at the line it cannot parse. *)
Record Reading : Type :=
  mkReading { yielded : list Row; stopped : option Exn }.

(** ** A reader for CSV text without quote characters *)

Definition cr : ascii := ascii_of_nat 13.

(** A line up to its first carriage return, and what follows it. *)
Fixpoint until_cr (line : string) : string * string :=
  match line with
  | EmptyString => (EmptyString, EmptyString)
  | String c r =>
      if Ascii.eqb c cr then (EmptyString, r)
      else let (body, tail) := until_cr r in (String c body, tail)
  end.

Fixpoint only_cr (s : string) : bool :=
  match s with
  | EmptyString => true
  | String c r => Ascii.eqb c cr && only_cr r
  end.

Definition csv_fields (line : string) : list string :=
  match line with
  | EmptyString => []
  | _ => Py.split "," line
  end.

(** The parser ends a record at a carriage return and refuses any other
    character after it on the same line. *)
Definition csv_error : Exn :=
  OtherException
    "new-line character seen in unquoted field - do you need to open the file with newline=''?".

(** The records of the lines of the text, up to the first line the parser
    refuses. *)
Fixpoint csv_records (lines : list string) : list (list string) * option Exn :=
  match lines with
  | [] => ([], None)
  | line :: rest =>
      let (body, tail) := until_cr line in
      if only_cr tail
      then let (records, failure) := csv_records rest in
           (csv_fields body :: records, failure)
      else ([], Some csv_error)
  end.

(** [d[k] = v] *)
Fixpoint dict_set {V : Type} (d : list (string * V)) (k : string) (v : V)
  : list (string * V) :=
  match d with
  | [] => [(k, v)]
  | (k', v') :: r =>
      if String.eqb k' k then (k', v) :: r else (k', v') :: dict_set r k v
  end.

(** The dictionary of a line: the fields by column name, [None] for the
    columns the line is too short for; fields beyond the header are kept by
    [DictReader] under the key [None], which the handler never reads. *)
Fixpoint zip_row (header fields : list string) (d : Row) : Row :=
  match header with
  | [] => d
  | k :: hs =>
      match fields with
      | [] => zip_row hs [] (dict_set d k None)
      | f :: fs => zip_row hs fs (dict_set d k (Some f))
      end
  end.

Definition nonempty {A : Type} (l : list A) : bool :=
  match l with [] => false | _ => true end.

(** [csv.DictReader(io.StringIO(content))] on text without quote
    characters: the lines end at a line feed, the first line names the
    columns, lines without any field are skipped, and the rows of the lines
    before the one the parser refuses are yielded before the error. *)
Definition simple_DictReader (content : string) : Reading :=
  let (records, failure) := csv_records (Py.split (ascii_of_nat 10) content) in
  match records with
  | [] => mkReading [] failure
  | header :: lines =>
      mkReading (map (fun l => zip_row header l []) (filter nonempty lines))
                failure
  end.

Section Handler.

(** [csv.DictReader] on the decoded text of the object, iterated. *)
Variable DictReader : string -> Reading.

(** [str.strip] and [int] on a string ([None] for the [ValueError]).  Both
    know the white space, and [int] the decimal digits, of every script;
    [Py.strip] and [Py.int_of_str] are the two on ASCII text. *)
Variable strip : string -> string.
Variable int : string -> option Z.

(** [row[k].strip()] *)
Definition stripped_field (row : Row) (k : string) : M Call string :=
  match Py.dict_get row k with
  | None => raise (KeyError k)
  | Some None =>
      raise (AttributeError "'NoneType' object has no attribute 'strip'")
  | Some (Some s) => ret (strip s)
  end.

(** [int(row["Count"])] *)
Definition count_field (row : Row) : M Call Z :=
  match Py.dict_get row "Count" with
  | None => raise (KeyError "Count")
  | Some None =>
      raise (TypeError
        "int() argument must be a string, a bytes-like object or a real number, not 'NoneType'")
  | Some (Some c) =>
      match int c with
      | Some z => ret z
      | None =>
          raise (ValueError
                   ("invalid literal for int() with base 10: '" ++ c ++ "'")%string)
      end
  end.

(** The body of the loop over the rows: any exception skips the row. *)
Definition process_row (row : Row) (items_inserted : nat) : M Call nat :=
  try_except
    (store <- stripped_field row "Store" ;;
     item <- stripped_field row "Item" ;;
     count <- count_field row ;;
     call (PutItem store item count) ;;
     ret (items_inserted + 1))
    except_Exception
    (fun _ => ret items_inserted).

(** The body of the loop over the records.  The local [items_inserted]
    is bound here, to 0, for each object anew; before the first pass it
    is unbound ([None]).  The reader is iterated by the [for] itself, outside
    the [try] of the rows: its error leaves the loop over the records. *)
Definition process_object (record : S3Record) (items_inserted : option nat)
  : M Call (option nat) :=
  let bucket := bucket_name record in
  let key := object_key record in
  csv_content <- call (GetObject bucket key) ;;
  let csv_reader := DictReader csv_content in
  n <- for_fold (yielded csv_reader) process_row 0 ;;
  match stopped csv_reader with
  | Some e => raise e
  | None => ret (Some n)
  end.

Definition success (items_inserted : nat) : Json :=
  JObj [("message", JStr "CSV procesado exitosamente");
        ("items_inserted", JInt (Z.of_nat items_inserted))].

Definition unbound_items_inserted : Exn :=
  UnboundLocalError
    "cannot access local variable 'items_inserted' where it is not associated with a value".

Definition lambda_handler (event : S3Event) : M Call Response :=
  try_except
    (let records := match Records event with Some l => l | None => [] end in
     items_inserted <- for_fold records process_object None ;;
     match items_inserted with
     | Some n => ret (mkResponse 200 (success n))
     | None => raise unbound_items_inserted
     end)
    except_Exception
    (fun e => ret (mkResponse 500 (JObj [("error", JStr (str_of_exn e))]))).

End Handler.

(** ** Rows the handler can insert *)

Definition present (row : Row) (k : string) : bool :=
  match Py.dict_get row k with Some (Some _) => true | _ => false end.

(** A row with the three fields and a Count that [int] accepts. *)
Definition row_valid (int : string -> option Z) (row : Row) : bool :=
  present row "Store" && present row "Item" &&
  match Py.dict_get row "Count" with
  | Some (Some c) => match int c with Some _ => true | None => false end
  | _ => false
  end.

Definition field_or_empty (row : Row) (k : string) : string :=
  match Py.dict_get row k with Some (Some s) => s | _ => "" end.

(** The [put_item] call for a valid row. *)
Definition put_of (strip : string -> string) (int : string -> option Z)
           (row : Row) : Call unit :=
  PutItem (strip (field_or_empty row "Store"))
          (strip (field_or_empty row "Item"))
          (match int (field_or_empty row "Count") with
           | Some z => z
           | None => 0%Z
           end).

(** The table takes every item. *)
Definition put_item_ok (env : Env Call) : Prop :=
  forall h store item count, env unit h (PutItem store item count) = Ret tt.

(** ** Sample inputs *)

(** Three valid rows and one whose Count is not a number. *)
Definition sample_csv : string :=
  ("Store,Item,Count" ++ Py.nl
   ++ "Berlin,Widget-001,100" ++ Py.nl
   ++ "Berlin,Widget-002,abc" ++ Py.nl
   ++ "Madrid,Widget-001,25" ++ Py.nl
   ++ "Paris , Widget-003 , 7" ++ Py.nl)%string.

(** A row that lacks its Count among three valid ones. *)
Definition short_row_csv : string :=
  ("Store,Item,Count" ++ Py.nl
   ++ "Berlin,Widget-001,100" ++ Py.nl
   ++ "Berlin,Widget-002" ++ Py.nl
   ++ "Madrid,Widget-001,25" ++ Py.nl
   ++ "Paris,Widget-003,7" ++ Py.nl)%string.

(** A line with a carriage return in the middle of a field, after one
    valid row and before another. *)
Definition stray_cr_csv : string :=
  ("Store,Item,Count" ++ Py.nl
   ++ "Berlin,Widget-001,100" ++ Py.nl
   ++ "Ber" ++ String cr "lin,Widget-002,50" ++ Py.nl
   ++ "Madrid,Widget-001,25" ++ Py.nl)%string.

(** A bucket that serves [content] for every key and a table that takes
    every item. *)
Definition serving (content : string) : Env Call :=
  fun R _ c => match c in Call R return Reply R with
               | GetObject _ _ => Ret content
               | PutItem _ _ _ => Ret tt
               end.

Definition upload : S3Record := mkS3Record "inventory-uploads-inventory-main" "stock.csv".

End Load.

(* ====================================================================== *)
(** * lambdas/get_inventory_api/lambda_function.py *)
(* ====================================================================== *)

Module Api.

(** A record of the Inventory table. *)
Record InventoryItem : Type :=
  mkItem { Store : string; Item : string; Count : Z }.

(** The resume token of a paginated scan, opaque to the handler. *)
Definition Key : Type := nat.

Record ScanResponse : Type :=
  mkScan { Items : option (list InventoryItem); LastEvaluatedKey : option Key }.

Record QueryResponse : Type :=
  mkQuery { QItems : option (list InventoryItem);
            QLastEvaluatedKey : option Key }.

(** [table.scan(...)] and [table.query(...)] with the key condition
    [Store = store]. *)
Inductive Call : Type -> Type :=
| Scan (ExclusiveStartKey : option Key) : Call ScanResponse
| Query (store : string) : Call QueryResponse.

(** The request as API Gateway (payload version 2.0) hands it over. *)
Record HttpEvent : Type :=
  mkEvent { rawPath : option string;
            routeKey : option string;
            pathParameters : option (list (string * string)) }.

(** [json.dumps(item, default=decimal_default)]: a [Decimal] becomes a
    float. *)
Definition json_of_item (i : InventoryItem) : Json :=
  JObj [("Store", JStr (Store i)); ("Item", JStr (Item i));
        ("Count", JFloat (Count i))].

Definition error_body (e : Exn) : Json := JObj [("error", JStr (str_of_exn e))].

Definition items_of (l : option (list InventoryItem)) : list InventoryItem :=
  match l with Some l => l | None => [] end.

(** [while "LastEvaluatedKey" in response: ...]; [fuel] bounds the number
    of further pages the model follows. *)
Fixpoint scan_more (fuel : nat) (response : ScanResponse)
         (items : list InventoryItem) : M Call (list InventoryItem) :=
  match LastEvaluatedKey response with
  | None => ret items
  | Some k =>
      match fuel with
      | 0 => diverge
      | S fuel' =>
          response' <- call (Scan (Some k)) ;;
          scan_more fuel' response' (items ++ items_of (Items response'))
      end
  end.

Definition get_all_items (fuel : nat) : M Call Response :=
  try_except
    (response <- call (Scan None) ;;
     let items := items_of (Items response) in
     items <- scan_more fuel response items ;;
     ret (mkResponse 200
            (JObj [("items", JArr (map json_of_item items));
                   ("count", JInt (Z.of_nat (length items)))])))
    except_Exception
    (fun e => ret (mkResponse 500 (error_body e))).

Definition get_items_by_store (store : string) : M Call Response :=
  try_except
    (response <- call (Query store) ;;
     let items := items_of (QItems response) in
     ret (mkResponse 200
            (JObj [("store", JStr store);
                   ("items", JArr (map json_of_item items));
                   ("count", JInt (Z.of_nat (length items)))])))
    except_Exception
    (fun e => ret (mkResponse 500 (error_body e))).

(** Python's truth value of [store]: [None] and the empty string are
    false. *)
Definition truthy (store : option string) : bool :=
  match store with
  | Some EmptyString => false
  | Some _ => true
  | None => false
  end.

(** The two attempts of the handler to find the [store] parameter: first
    [pathParameters], then the last segment of [rawPath]. *)
Definition store_of (event : HttpEvent) : option string :=
  let path := match rawPath event with Some p => p | None => "" end in
  let path_params := match pathParameters event with Some d => d | None => [] end in
  let store :=
    match path_params with
    | [] => None
    | _ => match Py.dict_get path_params "store" with
           | Some s => Some s
           | None => None
           end
    end in
  if negb (truthy store) && Py.contains "/items/" path then
    let parts := Py.split "/" path in
    if Nat.leb 3 (length parts) then Some (last parts "") else store
  else store.

Definition not_found (path : string) : Response :=
  mkResponse 404 (JObj [("error", JStr ("Ruta no encontrada: " ++ path)%string)]).

Definition lambda_handler (fuel : nat) (event : HttpEvent) : M Call Response :=
  let path := match rawPath event with Some p => p | None => "" end in
  let route_key := match routeKey event with Some p => p | None => "" end in
  let store := store_of event in
  if truthy store then
    get_items_by_store (match store with Some s => s | None => "" end)
  else if Py.contains "/items" route_key || Py.contains "/items" path then
    get_all_items fuel
  else
    ret (not_found path).

(** ** The table behind the handler *)

(** A table holding [rows], in the order the provider returns them, that
    answers with at most [page] records at a time (the provider cuts a
    response at 1 MB) and resumes a scan at the offset it handed out. *)
Definition table (rows : list InventoryItem) (page : nat) : Env Call :=
  fun R _ c =>
    match c in Call R return Reply R with
    | Scan start =>
        let off := match start with Some k => k | None => 0 end in
        Ret (mkScan (Some (firstn page (skipn off rows)))
                    (if Nat.ltb (off + page) (length rows) then Some (off + page)
                     else None))
    | Query store =>
        let matching := filter (fun i => String.eqb (Store i) store) rows in
        Ret (mkQuery (Some (firstn page matching))
                     (if Nat.ltb page (length matching) then Some page else None))
    end.

(** The answer of the table to a scan resumed at offset [off]. *)
Definition scan_page (rows : list InventoryItem) (page off : nat)
  : ScanResponse :=
  mkScan (Some (firstn page (skipn off rows)))
         (if Nat.ltb (off + page) (length rows) then Some (off + page)
          else None).

Definition path_of (event : HttpEvent) : string :=
  match rawPath event with Some p => p | None => "" end.

Definition route_key_of (event : HttpEvent) : string :=
  match routeKey event with Some p => p | None => "" end.

Definition in_store (store : string) (i : InventoryItem) : bool :=
  String.eqb (Store i) store.

(** The [store] entry of the path parameters of a request, when it has
    one: [event["pathParameters"]["store"]]. *)
Definition store_param (event : HttpEvent) : option string :=
  match pathParameters event with
  | Some d => Py.dict_get d "store"
  | None => None
  end.

(** The answer that carries all of [items]. *)
Definition all_items_response (items : list InventoryItem) : Response :=
  mkResponse 200
    (JObj [("items", JArr (map json_of_item items));
           ("count", JInt (Z.of_nat (length items)))]).

(** The answer that carries the [items] of one store. *)
Definition store_items_response (store : string) (items : list InventoryItem)
  : Response :=
  mkResponse 200
    (JObj [("store", JStr store);
           ("items", JArr (map json_of_item items));
           ("count", JInt (Z.of_nat (length items)))]).

(** The routes of the API: [/items] and [/items/{store}] with one
    non-empty segment for the store. *)
Definition matches_routes (path : string) : bool :=
  match Py.split "/" path with
  | ["" ; "items"] => true
  | ["" ; "items" ; store] => negb (String.eqb store "")
  | _ => false
  end.

(** The routing as the specification words it: a 404 body for every path
    that matches neither route. *)
Definition unrouted_is_404 (env : Env Call) (fuel : nat) (event : HttpEvent)
  : Prop :=
  matches_routes (match rawPath event with Some p => p | None => "" end) = false ->
  exists r, fst (run (lambda_handler fuel event) env) = Ok r
            /\ statusCode r = 404%Z.

(** ** Sample inputs *)

Definition stock : list InventoryItem :=
  [mkItem "Berlin" "Widget-001" 100; mkItem "Madrid" "Widget-001" 25;
   mkItem "Berlin" "Widget-002" 40; mkItem "Paris" "Widget-003" 7;
   mkItem "Berlin" "Widget-003" 55].

Definition get (path route : string) (params : option (list (string * string)))
  : HttpEvent :=
  mkEvent (Some path) (Some route) params.

End Api.

(* ====================================================================== *)
(** * The deployment record, infra/deployment.json *)
(* ====================================================================== *)

Record Deployment : Type := mkDeployment {
  deployment_time : string;
  region : string;
  suffix : string;
  bucket_uploads : string;
  bucket_web : string;
  table_name : string;
  lambda_load : string;
  lambda_api : string;
  lambda_notify : string;
  api_id : string;
  api_endpoint : string;
  web_url : option string;
  sns_topic_arn : string;
  iam_role : string
}.

(** [range(start, stop, step)] for a positive [step]. *)
Fixpoint range_from (fuel start stop step : nat) : list nat :=
  match fuel with
  | 0 => []
  | S fuel' =>
      if Nat.ltb start stop
      then start :: range_from fuel' (start + step) stop step
      else []
  end.

Definition py_range (start stop step : nat) : list nat :=
  range_from stop start stop step.

(** [l[i:j]] *)
Definition slice {A : Type} (l : list A) (i j : nat) : list A :=
  firstn (j - i) (skipn i l).

(** The slices the loop [for i in range(0, len(l), 1000)] takes of [l]. *)
Definition batches {A : Type} (l : list A) : list (list A) :=
  map (fun i => slice l i (i + 1000)) (py_range 0 (length l) 1000).

(* ====================================================================== *)
(** * infra/destroy.py *)
(* ====================================================================== *)

Module Destroy.

(** An entry of a [delete_objects] request. *)
Record ObjectId : Type := mkObjectId { Key : string; VersionId : string }.

(** A page of [list_object_versions]. *)
Record Page : Type :=
  mkPage { Versions : option (list ObjectId);
           DeleteMarkers : option (list ObjectId) }.

(** The interactions of the script.  [Confirm] is
    [input(prompt).strip().lower()]; [ListObjectVersions] stands for the
    whole iteration over the paginator, which the script finishes before it
    deletes anything; the listing calls answer with the identifiers the
    script reads off the response, [None] when the response lacks the
    list. *)
Inductive Call : Type -> Type :=
| FileExists : Call bool
| ReadRecord : Call Deployment
| Confirm (prompt : string) : Call string
| Unlink : Call unit
| PutBucketVersioning (Bucket Status : string) : Call unit
| ListObjectVersions (Bucket : string) : Call (list Page)
| DeleteObjects (Bucket : string) (Objects : list ObjectId) : Call unit
| DeleteBucket (Bucket : string) : Call unit
| ListEventSourceMappings (FunctionName : string) : Call (option (list string))
| DeleteEventSourceMapping (UUID : string) : Call unit
| DeleteFunction (FunctionName : string) : Call unit
| DeleteApi (ApiId : string) : Call unit
| DeleteTable (TableName : string) : Call unit
| WaitTableNotExists (TableName : string) : Call unit
| ListRolePolicies (RoleName : string) : Call (option (list string))
| DeleteRolePolicy (RoleName PolicyName : string) : Call unit
| DeleteRole (RoleName : string) : Call unit
| ListTopics : Call (option (list string))
| ListSubscriptionsByTopic (TopicArn : string) : Call (option (list string))
| Unsubscribe (SubscriptionArn : string) : Call unit
| DeleteTopic (TopicArn : string) : Call unit.

Definition or_empty {A : Type} (l : option (list A)) : list A :=
  match l with Some l => l | None => [] end.

Definition str_of_len {A : Type} (l : list A) : string := Py.str_of_nat (length l).

Definition empty_s3_bucket (bucket_name : string) : M Call unit :=
  print (Py.nl ++ "[*] Vaciando bucket S3: " ++ bucket_name ++ "...")%string ;;
  try_except
    (try_except
       (call (PutBucketVersioning bucket_name "Suspended") ;;
        print ("    ✓ Versionado suspendido en " ++ bucket_name)%string)
       except_any
       (fun _ => ret tt) ;;
     pages <- call (ListObjectVersions bucket_name) ;;
     let objects_to_delete := flat_map (fun page => or_empty (Versions page)) pages in
     let delete_markers := flat_map (fun page => or_empty (DeleteMarkers page)) pages in
     let all_deletes := objects_to_delete ++ delete_markers in
     for_each (py_range 0 (length all_deletes) 1000)
       (fun i =>
          let batch := slice all_deletes i (i + 1000) in
          match batch with
          | [] => ret tt
          | _ => call (DeleteObjects bucket_name batch)
          end) ;;
     print ("    ✓ Bucket " ++ bucket_name ++ " vaciado ("
            ++ str_of_len all_deletes ++ " objetos eliminados)")%string)
    except_Exception
    (fun e =>
       if except_ClientError e && String.eqb (error_code e) "NoSuchBucket"
       then print ("    ℹ Bucket " ++ bucket_name ++ " no existe")%string
       else print ("    ⚠ Error vaciando bucket (intentando continuar): "
                   ++ str_of_exn e)%string).

Definition delete_s3_bucket (bucket_name : string) : M Call unit :=
  print (Py.nl ++ "[*] Eliminando bucket S3: " ++ bucket_name ++ "...")%string ;;
  try_except
    (call (DeleteBucket bucket_name) ;;
     print ("    ✓ Bucket " ++ bucket_name ++ " eliminado")%string)
    except_ClientError
    (fun e =>
       if String.eqb (error_code e) "NoSuchBucket"
       then print ("    ℹ Bucket " ++ bucket_name ++ " no existe")%string
       else print ("    ⚠ Error eliminando bucket (continuando...): "
                   ++ str_of_exn e)%string).

Definition delete_lambda (function_name : string) : M Call unit :=
  print (Py.nl ++ "[*] Eliminando Lambda: " ++ function_name ++ "...")%string ;;
  try_except
    (try_except
       (response <- call (ListEventSourceMappings function_name) ;;
        for_each (or_empty response)
          (fun uuid =>
             call (DeleteEventSourceMapping uuid) ;;
             print "    ✓ Event source mapping eliminado"))
       except_any
       (fun _ => ret tt) ;;
     call (DeleteFunction function_name) ;;
     print ("    ✓ Lambda " ++ function_name ++ " eliminada")%string)
    except_ClientError
    (fun e =>
       if String.eqb (error_code e) "ResourceNotFoundException"
       then print ("    ℹ Lambda " ++ function_name ++ " no existe")%string
       else print ("    ✗ Error: " ++ str_of_exn e)%string).

Definition delete_api_gateway (api_id : string) : M Call unit :=
  print (Py.nl ++ "[*] Eliminando API Gateway: " ++ api_id ++ "...")%string ;;
  try_except
    (call (DeleteApi api_id) ;;
     print ("    ✓ API Gateway " ++ api_id ++ " eliminada")%string)
    except_ClientError
    (fun e =>
       if String.eqb (error_code e) "NotFoundException"
       then print ("    ℹ API Gateway " ++ api_id ++ " no existe")%string
       else print ("    ✗ Error: " ++ str_of_exn e)%string).

Definition delete_dynamodb_table (table_name : string) : M Call unit :=
  print (Py.nl ++ "[*] Eliminando tabla DynamoDB: " ++ table_name ++ "...")%string ;;
  try_except
    (call (DeleteTable table_name) ;;
     print ("    ✓ Tabla " ++ table_name ++ " marcada para eliminación")%string ;;
     call (WaitTableNotExists table_name) ;;
     print ("    ✓ Tabla " ++ table_name ++ " eliminada")%string)
    except_ClientError
    (fun e =>
       if String.eqb (error_code e) "ResourceNotFoundException"
       then print ("    ℹ Tabla " ++ table_name ++ " no existe")%string
       else print ("    ✗ Error: " ++ str_of_exn e)%string).

Definition delete_iam_role (role_name : string) : M Call unit :=
  print (Py.nl ++ "[*] Eliminando rol IAM: " ++ role_name ++ "...")%string ;;
  try_except
    (try_except
       (policies <- call (ListRolePolicies role_name) ;;
        for_each (or_empty policies)
          (fun policy_name =>
             call (DeleteRolePolicy role_name policy_name) ;;
             print ("    ✓ Política " ++ policy_name ++ " eliminada")%string))
       except_any
       (fun _ => ret tt) ;;
     call (DeleteRole role_name) ;;
     print ("    ✓ Rol " ++ role_name ++ " eliminado")%string)
    except_ClientError
    (fun e =>
       if String.eqb (error_code e) "NoSuchEntity"
       then print ("    ℹ Rol " ++ role_name ++ " no existe")%string
       else print ("    ✗ Error: " ++ str_of_exn e)%string).

Definition delete_all_low_stock_topics : M Call unit :=
  print (Py.nl ++ "[*] Eliminando todos los topics SNS 'low-stock'...")%string ;;
  response <- call ListTopics ;;
  for_each (or_empty response)
    (fun arn =>
       if Py.contains "low-stock" arn then
         try_except
           (subs <- call (ListSubscriptionsByTopic arn) ;;
            for_each (or_empty subs)
              (fun sub =>
                 try_except
                   (call (Unsubscribe sub) ;;
                    print ("    ✓ Suscripción eliminada: " ++ sub)%string)
                   except_ClientError
                   (fun _ => ret tt)) ;;
            call (DeleteTopic arn) ;;
            print ("    ✓ Topic eliminado: " ++ arn)%string)
           except_ClientError
           (fun e => print ("    ⚠ Error eliminando " ++ arn ++ ": "
                            ++ str_of_exn e)%string)
       else ret tt).

Definition rule : string :=
  "============================================================".

Definition prompt : string :=
  (Py.nl ++ "¿Estás seguro? Escribe 'sí' para confirmar: ")%string.

Section Script.

(** [os.getenv("AWS_REGION", "us-east-1")] and the path of the record. *)
Variable REGION : string.
Variable config_file : string.

Definition main (config : Deployment) : M Call unit :=
  print (Py.nl ++ rule)%string ;;
  print "DESTRUCCIÓN DE RECURSOS SERVERLESS AWS" ;;
  print rule ;;
  print (Py.nl ++ "Estos recursos serán eliminados:")%string ;;
  print ("  - Buckets S3: " ++ bucket_uploads config ++ ", " ++ bucket_web config)%string ;;
  print ("  - Tabla DynamoDB: " ++ table_name config)%string ;;
  print ("  - Lambdas: " ++ lambda_load config ++ ", " ++ lambda_api config
         ++ ", " ++ lambda_notify config)%string ;;
  print ("  - API Gateway: " ++ api_id config)%string ;;
  print ("  - Rol IAM: " ++ iam_role config)%string ;;
  print ("  - Tema SNS: " ++ sns_topic_arn config)%string ;;
  print ("  - Archivo de configuración: " ++ config_file)%string ;;
  response <- call (Confirm prompt) ;;
  if negb (String.eqb response "sí") then
    print "Operación cancelada."
  else
    try_except
      (print (Py.nl ++ "[*] Eliminando archivo de configuración...")%string ;;
       try_except
         (call Unlink ;;
          print "    ✓ Archivo de configuración eliminado")
         except_any
         (fun _ => ret tt) ;;
       delete_lambda (lambda_load config) ;;
       delete_lambda (lambda_api config) ;;
       delete_lambda (lambda_notify config) ;;
       delete_api_gateway (api_id config) ;;
       delete_dynamodb_table (table_name config) ;;
       empty_s3_bucket (bucket_uploads config) ;;
       delete_s3_bucket (bucket_uploads config) ;;
       empty_s3_bucket (bucket_web config) ;;
       delete_s3_bucket (bucket_web config) ;;
       delete_iam_role (iam_role config) ;;
       delete_all_low_stock_topics ;;
       print (Py.nl ++ rule)%string ;;
       print "✓ DESTRUCCIÓN COMPLETADA" ;;
       print rule ;;
       print (Py.nl ++ "Todos los recursos han sido eliminados exitosamente.")%string)
      except_Exception
      (fun e =>
         print (Py.nl ++ "✗ ERROR: " ++ str_of_exn e)%string ;;
         (* traceback.print_exc() writes to stderr *)
         sys_exit 1%Z).

(** The statements at module level, then [main()]. *)
Definition script : M Call unit :=
  print ("[*] Región: " ++ REGION)%string ;;
  found <- call FileExists ;;
  if negb found then
    print "✗ Archivo deployment.json no encontrado. ¿Se ejecutó deploy.py primero?" ;;
    sys_exit 1%Z
  else
    config <- call ReadRecord ;;
    main config.

End Script.

(** ** Which events are what *)

(** The calls that go to the cloud provider. *)
Definition is_cloud_call {R : Type} (c : Call R) : bool :=
  match c with
  | FileExists | ReadRecord | Confirm _ | Unlink => false
  | _ => true
  end.

Definition is_cloud_event (e : Event Call) : bool :=
  match e with
  | Ev c _ => is_cloud_call c
  | Log _ => false
  end.

(** The S3 calls made on a bucket. *)
Definition about_bucket (bucket : string) (e : Event Call) : bool :=
  match e with
  | Ev c _ =>
      match c with
      | PutBucketVersioning b _ | ListObjectVersions b
      | DeleteObjects b _ | DeleteBucket b => String.eqb b bucket
      | _ => false
      end
  | Log _ => false
  end.

(** ** The order of a run *)

Definition local_event (e : Event Call) : Prop := is_cloud_event e = false.

(** Nothing but local events, or local events up to the removal of the
    record file. *)
Definition unlink_first (t : Trace Call) : Prop :=
  Forall local_event t
  \/ exists pre r post, t = pre ++ Ev Unlink r :: post /\ Forall local_event pre.

(** What the script does before it removes the record, when the record
    is there and the operator confirms. *)
Definition preamble (REGION config_file : string) (config : Deployment)
  : Trace Call :=
  [Log ("[*] Región: " ++ REGION)%string;
   Ev FileExists (Ret true);
   Ev ReadRecord (Ret config);
   Log (Py.nl ++ rule)%string;
   Log "DESTRUCCIÓN DE RECURSOS SERVERLESS AWS";
   Log rule;
   Log (Py.nl ++ "Estos recursos serán eliminados:")%string;
   Log ("  - Buckets S3: " ++ bucket_uploads config ++ ", "
        ++ bucket_web config)%string;
   Log ("  - Tabla DynamoDB: " ++ table_name config)%string;
   Log ("  - Lambdas: " ++ lambda_load config ++ ", " ++ lambda_api config
        ++ ", " ++ lambda_notify config)%string;
   Log ("  - API Gateway: " ++ api_id config)%string;
   Log ("  - Rol IAM: " ++ iam_role config)%string;
   Log ("  - Tema SNS: " ++ sns_topic_arn config)%string;
   Log ("  - Archivo de configuración: " ++ config_file)%string;
   Ev (Confirm prompt) (Ret "sí");
   Log (Py.nl ++ "[*] Eliminando archivo de configuración...")%string].

(** Everything the listing shows: the object versions of all pages, then
    the delete markers of all pages. *)
Definition all_deletes (pages : list Page) : list ObjectId :=
  flat_map (fun page => or_empty (Versions page)) pages
  ++ flat_map (fun page => or_empty (DeleteMarkers page)) pages.

Definition delete_event (bucket : string) (batch : list ObjectId) : Event Call :=
  Ev (DeleteObjects bucket batch) (Ret tt).

(** The S3 calls of the emptying of [bucket], when the first answer is
    [r]. *)
Definition emptying (bucket : string) (pages : list Page) (r : Reply unit)
  : Trace Call :=
  Ev (PutBucketVersioning bucket "Suspended") r
  :: Ev (ListObjectVersions bucket) (Ret pages)
  :: map (delete_event bucket) (batches (all_deletes pages)).

(** The program makes no S3 call on [bucket]. *)
Definition quiet (bucket : string) (A : Type) (m : M Call A) : Prop :=
  silent (about_bucket bucket) m.

(** The emptying of the bucket followed by its deletion. *)
Definition emptied_and_deleted (bucket : string) (pages : list Page)
           (t : Trace Call) : Prop :=
  exists r r', t = emptying bucket pages r ++ [Ev (DeleteBucket bucket) r'].

(** Nothing about the bucket, or its emptying followed by its deletion. *)
Definition emptied_then_deleted (bucket : string) (pages : list Page)
           (t : Trace Call) : Prop :=
  t = []
  \/ exists r r', t = emptying bucket pages r ++ [Ev (DeleteBucket bucket) r'].

(** ** Sample inputs *)

Definition sample : Deployment :=
  mkDeployment "2025-01-15T10:30:00" "us-east-1" "inventory-main"
    "inventory-uploads-inventory-main" "inventory-web-inventory-main"
    "Inventory" "load_inventory" "get_inventory_api" "notify_low_stock"
    "a1b2c3" "https://a1b2c3.execute-api.us-east-1.amazonaws.com/prod"
    (Some "http://inventory-web-inventory-main.s3-website-us-east-1.amazonaws.com")
    "arn:aws:sns:us-east-1:123456789012:low-stock-inventory-main"
    "lambda-inventory-role-inventory-main".

Definition objects (prefix : string) (n : nat) : list ObjectId :=
  map (fun i => mkObjectId (prefix ++ Py.str_of_nat i)%string "v1") (seq 0 n).

(** 1200 object versions and 300 delete markers, listed on two pages. *)
Definition listing_1500 : list Page :=
  [mkPage (Some (objects "a" 1000)) None;
   mkPage (Some (objects "b" 200)) (Some (objects "m" 300))].

(** A provider in which every resource of [sample] exists, the operator
    answers [answer], the upload bucket lists [listing], and the table
    waiter and the topic listing answer as given. *)
Definition cloud (answer : string) (listing : list Page)
           (waiter : Reply unit) (topics : Reply (option (list string)))
  : Env Call :=
  fun R _ c =>
    match c in Call R return Reply R with
    | FileExists => Ret true
    | ReadRecord => Ret sample
    | Confirm _ => Ret answer
    | Unlink => Ret tt
    | PutBucketVersioning _ _ => Ret tt
    | ListObjectVersions b =>
        Ret (if String.eqb b (bucket_uploads sample) then listing else [])
    | DeleteObjects _ _ => Ret tt
    | DeleteBucket _ => Ret tt
    | ListEventSourceMappings f =>
        Ret (if String.eqb f "notify_low_stock" then Some ["uuid-1"] else Some [])
    | DeleteEventSourceMapping _ => Ret tt
    | DeleteFunction _ => Ret tt
    | DeleteApi _ => Ret tt
    | DeleteTable _ => Ret tt
    | WaitTableNotExists _ => waiter
    | ListRolePolicies _ => Ret (Some [])
    | DeleteRolePolicy _ _ => Ret tt
    | DeleteRole _ =>
        Err (ClientError "NoSuchEntity" "DeleteRole" "The role cannot be found.")
    | ListTopics => topics
    | ListSubscriptionsByTopic _ => Ret (Some ["sub-1"])
    | Unsubscribe _ => Ret tt
    | DeleteTopic _ => Ret tt
    end.

Definition all_topics : Reply (option (list string)) :=
  Ret (Some [sns_topic_arn sample; "arn:aws:sns:us-east-1:123456789012:billing"]).

Definition healthy : Env Call := cloud "sí" listing_1500 (Ret tt) all_topics.

(** The table is still there when the waiter gives up. *)
Definition waiter_gives_up : Env Call :=
  cloud "sí" listing_1500
        (Err (WaiterError "Waiter TableNotExists failed: Max attempts exceeded"))
        all_topics.

(** The provider refuses to list the topics. *)
Definition topics_refused : Env Call :=
  cloud "sí" listing_1500 (Ret tt)
        (Err (ClientError "AuthorizationError" "ListTopics" "not authorized")).

(** The line printed after the removal of the record: none when the
    removal failed, as the bare [except] passes over the failure. *)
Definition record_notice (r : Reply unit) : Trace Call :=
  match r with
  | Ret _ => [Log "    ✓ Archivo de configuración eliminado"]
  | Err _ => []
  end.

(** The removal of the record file, carried out. *)
Definition is_record_removal (e : Event Call) : bool :=
  match e with
  | Ev c (Ret _) => match c with Unlink => true | _ => false end
  | _ => false
  end.

(** The order as the specification has it: by the time of any call to the
    provider the record file has been removed. *)
Definition record_removed_first (t : Trace Call) : Prop :=
  forall pre e post,
    t = pre ++ e :: post -> is_cloud_event e = true ->
    In (Ev Unlink (Ret tt)) pre.

(** The record file cannot be removed: it sits in a directory the operator
    may not write to.  Everything else is as in [cloud], with empty
    buckets. *)
Definition record_locked : Env Call :=
  fun R h c =>
    match c in Call R return Reply R with
    | Unlink =>
        Err (OSError "[Errno 13] Permission denied: 'deployment_config.json'")
    | c' => cloud "sí" [] (Ret tt) all_topics h c'
    end.

(** The calls of a trace, without their answers and without the log. *)
Definition call_name {R : Type} (c : Call R) : string :=
  match c with
  | FileExists => "exists"
  | ReadRecord => "json.load"
  | Confirm _ => "input"
  | Unlink => "unlink"
  | PutBucketVersioning b _ => "put_bucket_versioning " ++ b
  | ListObjectVersions b => "list_object_versions " ++ b
  | DeleteObjects b l => "delete_objects " ++ b ++ " " ++ str_of_len l
  | DeleteBucket b => "delete_bucket " ++ b
  | ListEventSourceMappings f => "list_event_source_mappings " ++ f
  | DeleteEventSourceMapping u => "delete_event_source_mapping " ++ u
  | DeleteFunction f => "delete_function " ++ f
  | DeleteApi a => "delete_api " ++ a
  | DeleteTable t => "delete_table " ++ t
  | WaitTableNotExists t => "wait table_not_exists " ++ t
  | ListRolePolicies r => "list_role_policies " ++ r
  | DeleteRolePolicy r p => "delete_role_policy " ++ r ++ " " ++ p
  | DeleteRole r => "delete_role " ++ r
  | ListTopics => "list_topics"
  | ListSubscriptionsByTopic t => "list_subscriptions_by_topic " ++ t
  | Unsubscribe s => "unsubscribe " ++ s
  | DeleteTopic t => "delete_topic " ++ t
  end%string.

Definition calls_of (t : Trace Call) : list string :=
  flat_map (fun e => match e with Ev c _ => [call_name c] | Log _ => [] end) t.

End Destroy.

(* ====================================================================== *)
(** * infra/validate.py *)
(* ====================================================================== *)

(** The [print]s of this script are left out: they report what the checks
    found and cannot fail.  What is kept of each check is its calls, in
    order, and the exceptions each [try] lets through. *)

Module Validate.

Record TableDescription : Type :=
  mkTable { TableStatus : string; ItemCount : Z;
            StreamSpecification : option (option string) }.

Record FunctionConfiguration : Type :=
  mkFunction { Runtime : string; MemorySize : Z; Timeout : Z }.

Record ApiDescription : Type := mkApi { Name : string; ProtocolType : string }.

Record Subscription : Type :=
  mkSubscription { SubscriptionArn : option string; Endpoint : option string }.

(** [GetBucketNotificationConfiguration] answers whether the response has
    ["LambdaFunctionConfigurations"]; [UrlOpen] is
    [json.loads(urlopen(req, timeout=10).read().decode())]. *)
Inductive Call : Type -> Type :=
| FileExists : Call bool
| ReadRecord : Call Deployment
| HeadBucket (Bucket : string) : Call unit
| GetBucketNotificationConfiguration (Bucket : string) : Call bool
| DescribeTable (TableName : string) : Call TableDescription
| GetFunction (FunctionName : string) : Call FunctionConfiguration
| GetApi (ApiId : string) : Call ApiDescription
| GetRoutes (ApiId : string) : Call (option (list string))
| GetTopicAttributes (TopicArn : string) : Call unit
| ListSubscriptionsByTopic (TopicArn : string) : Call (option (list Subscription))
| GetRole (RoleName : string) : Call unit
| ListRolePolicies (RoleName : string) : Call (option (list string))
| UrlOpen (url : string) : Call Json.

(** The calls made through boto3. *)
Definition is_boto {R : Type} (c : Call R) : bool :=
  match c with
  | FileExists | ReadRecord | UrlOpen _ => false
  | _ => true
  end.

(** Every failure of a call made through boto3 is a [ClientError]. *)
Definition client_errors_only (env : Env Call) : Prop :=
  forall R h (c : Call R) e,
    is_boto c = true -> env R h c = Err e -> except_ClientError e = true.

Definition is_client_error (e : Exn) : Prop := except_ClientError e = true.

(** [None] when the record file is not there. *)
Definition load_config : M Call (option Deployment) :=
  found <- call FileExists ;;
  if negb found then ret None
  else (config <- call ReadRecord ;; ret (Some config)).

Definition check_s3_buckets (config : Deployment) : M Call unit :=
  let buckets := [bucket_uploads config; bucket_web config] in
  for_each buckets
    (fun bucket =>
       try_except
         (call (HeadBucket bucket) ;;
          if Py.contains "uploads" bucket then
            try_except
              (_ <- call (GetBucketNotificationConfiguration bucket) ;; ret tt)
              except_any
              (fun _ => ret tt)
          else ret tt)
         except_ClientError
         (fun _ => ret tt)).

Definition check_dynamodb (config : Deployment) : M Call unit :=
  try_except
    (_ <- call (DescribeTable (table_name config)) ;; ret tt)
    except_ClientError
    (fun _ => ret tt).

Definition check_lambdas (config : Deployment) : M Call unit :=
  let lambdas := [lambda_load config; lambda_api config; lambda_notify config] in
  for_each lambdas
    (fun func =>
       try_except
         (_ <- call (GetFunction func) ;; ret tt)
         except_ClientError
         (fun _ => ret tt)).

Definition check_api_gateway (config : Deployment) : M Call unit :=
  try_except
    (_ <- call (GetApi (api_id config)) ;;
     _ <- call (GetRoutes (api_id config)) ;;
     ret tt)
    except_ClientError
    (fun _ => ret tt).

Definition check_sns (config : Deployment) : M Call unit :=
  try_except
    (call (GetTopicAttributes (sns_topic_arn config)) ;;
     _ <- call (ListSubscriptionsByTopic (sns_topic_arn config)) ;;
     ret tt)
    except_ClientError
    (fun _ => ret tt).

Definition check_iam (config : Deployment) : M Call unit :=
  try_except
    (call (GetRole (iam_role config)) ;;
     _ <- call (ListRolePolicies (iam_role config)) ;;
     ret tt)
    except_ClientError
    (fun _ => ret tt).

(** [data.get('count', 0)], then [data['items'][0]] when [data.get('items')]
    is true: what of it can raise on the decoded body. *)
Definition read_probe (data : Json) : M Call unit :=
  match data with
  | JObj fields =>
      match Py.dict_get fields "items" with
      | Some (JObj (_ :: _)) => raise (KeyError "0")
      | Some (JInt z) =>
          if (z =? 0)%Z then ret tt
          else raise (TypeError "'int' object is not subscriptable")
      | Some (JFloat z) =>
          if (z =? 0)%Z then ret tt
          else raise (TypeError "'float' object is not subscriptable")
      | _ => ret tt
      end
  | _ => raise (AttributeError "object has no attribute 'get'")
  end.

Definition test_api_endpoint (config : Deployment) : M Call unit :=
  try_except
    (let url := (api_endpoint config ++ "/items")%string in
     data <- call (UrlOpen url) ;;
     read_probe data)
    except_Exception
    (fun _ => ret tt).

Definition main : M Call unit :=
  config <- load_config ;;
  match config with
  | None => sys_exit 1%Z
  | Some config =>
      check_s3_buckets config ;;
      check_dynamodb config ;;
      check_lambdas config ;;
      check_api_gateway config ;;
      check_sns config ;;
      check_iam config ;;
      test_api_endpoint config
  end.

(** ** Sample inputs *)

Definition no_such (op : string) : Exn :=
  ClientError "ResourceNotFoundException" op "not found".

(** The record is there but nothing it names is, and the API does not
    answer. *)
Definition all_gone : Env Call :=
  fun R _ c =>
    match c in Call R return Reply R with
    | FileExists => Ret true
    | ReadRecord => Ret Destroy.sample
    | HeadBucket _ => Err (ClientError "404" "HeadBucket" "Not Found")
    | GetBucketNotificationConfiguration _ =>
        Err (no_such "GetBucketNotificationConfiguration")
    | DescribeTable _ => Err (no_such "DescribeTable")
    | GetFunction _ => Err (no_such "GetFunction")
    | GetApi _ => Err (ClientError "NotFoundException" "GetApi" "not found")
    | GetRoutes _ => Err (ClientError "NotFoundException" "GetRoutes" "not found")
    | GetTopicAttributes _ => Err (ClientError "NotFound" "GetTopicAttributes" "gone")
    | ListSubscriptionsByTopic _ =>
        Err (ClientError "NotFound" "ListSubscriptionsByTopic" "gone")
    | GetRole _ => Err (ClientError "NoSuchEntity" "GetRole" "gone")
    | ListRolePolicies _ => Err (ClientError "NoSuchEntity" "ListRolePolicies" "gone")
    | UrlOpen _ => Err (OtherException "<urlopen error timed out>")
    end.

(** The exit status as the specification has it: 0 whenever the record is
    there, whatever the checks meet. *)
Definition status_0_with_record (env : Env Call) : Prop :=
  forall config,
    env bool [] FileExists = Ret true ->
    env Deployment [Ev FileExists (Ret true)] ReadRecord = Ret config ->
    exit_code (fst (run main env)) = Some 0%Z.

(** The record is there but the machine has no credentials for the
    provider: boto3 raises [NoCredentialsError], which is not a
    [ClientError], when the first request is signed. *)
Definition no_credentials : Env Call :=
  fun R h c =>
    match c in Call R return Reply R with
    | FileExists => Ret true
    | ReadRecord => Ret Destroy.sample
    | UrlOpen u => all_gone h (UrlOpen u)
    | _ => Err (OtherException "Unable to locate credentials")
    end.

(** No record file. *)
Definition no_record : Env Call :=
  fun R h c =>
    match c in Call R return Reply R with
    | FileExists => Ret false
    | c' => all_gone h c'
    end.

End Validate.

(* ====================================================================== *)
(** * infra/deploy.py *)
(* ====================================================================== *)

(** The [print]s and the [time.sleep]s of this script are left out. *)

Module Deploy.

(** What the script reads off [describe_table]: [StreamEnabled] is false
    when the stream specification is missing; the response has no
    ["LatestStreamArn"] for a table that never had a stream. *)
Record TableInfo : Type :=
  mkTableInfo { TableArn : string; StreamEnabled : bool;
                LatestStreamArn : option string }.

Record FunctionInfo : Type := mkFunctionInfo { State : string; FunctionArn : string }.

Record ApiInfo : Type := mkApiInfo { Name : string; ApiId : string }.

(** A file under [website/]: its bytes, and whether they decode as
    UTF-8. *)
Record FileData : Type := mkFileData { data : string; utf8 : bool }.

(** The settings of a function. *)
Record FunctionSettings : Type :=
  mkSettings { Handler : string; Timeout : Z; MemorySize : Z;
               Environment : list (string * string) }.

(** [PackageLambda] is [zip_lambda] and the reading of the archive;
    [ListWebFiles] is the walk over [website/], giving the relative path of
    each file; [WriteRecord] is [open(config_file, "w")] with
    [json.dump]. *)
Inductive Call : Type -> Type :=
| FileExists : Call bool
| ReadRecord : Call Deployment
| GetCallerIdentity : Call string
| HeadBucket (Bucket : string) : Call unit
| CreateBucket (Bucket : string) (LocationConstraint : option string) : Call unit
| PutBucketVersioning (Bucket Status : string) : Call unit
| CreateTable (TableName : string) : Call string
| WaitTableExists (TableName : string) : Call unit
| DescribeTable (TableName : string) : Call TableInfo
| UpdateTable (TableName : string) : Call unit
| GetRole (RoleName : string) : Call string
| CreateRole (RoleName : string) : Call string
| AttachRolePolicy (RoleName PolicyArn : string) : Call unit
| ListTopics : Call (list string)
| CreateTopic (Name : string) : Call string
| PackageLambda (name source_dir : string) : Call string
| CreateFunction (FunctionName Role : string) (settings : FunctionSettings)
                 (ZipFile : string) : Call string
| GetFunction (FunctionName : string) : Call FunctionInfo
| UpdateFunctionCode (FunctionName ZipFile : string) : Call unit
| UpdateFunctionConfiguration (FunctionName : string)
                              (settings : FunctionSettings) : Call unit
| AddPermission (FunctionName StatementId Principal SourceArn : string) : Call unit
| PutBucketNotificationConfiguration (Bucket LambdaFunctionArn : string) : Call unit
| ListEventSourceMappings (FunctionName EventSourceArn : string)
  : Call (option (list string))
| DeleteEventSourceMapping (UUID : string) : Call unit
| CreateEventSourceMapping (EventSourceArn FunctionName : string) : Call string
| GetApis : Call (option (list ApiInfo))
| DeleteApi (ApiId : string) : Call unit
| CreateApi (Name : string) : Call string
| CreateIntegration (ApiId IntegrationUri : string) : Call string
| CreateRoute (ApiId RouteKey Target : string) : Call unit
| CreateStage (ApiId StageName : string) : Call unit
| WebDirExists : Call bool
| ListWebFiles : Call (list string)
| ReadFile (path : string) : Call FileData
| PutObject (Bucket Key Body ContentType : string) : Call unit
| PutBucketWebsite (Bucket : string) : Call unit
| PutPublicAccessBlock (Bucket : string) : Call unit
| PutBucketPolicy (Bucket : string) (Policy : Json) : Call unit
| Now : Call string
| WriteRecord (config : Deployment) : Call unit.

Definition or_empty {A : Type} (l : option (list A)) : list A :=
  match l with Some l => l | None => [] end.

Definition TABLE_NAME : string := "Inventory".
Definition LAMBDA_LOAD_NAME : string := "load_inventory".
Definition LAMBDA_API_NAME : string := "get_inventory_api".
Definition LAMBDA_NOTIFY_NAME : string := "notify_low_stock".
Definition SNS_TOPIC_NAME : string := "low-stock-inventory-main".

Section Script.

(** [os.getenv("AWS_REGION", "us-east-1")]; the suffix and the account are
    set at module level, see [script]. *)
Variable REGION : string.
Variable SUFFIX : string.
Variable ACCOUNT_ID : string.

Definition BUCKET_UPLOADS : string := ("inventory-uploads-" ++ SUFFIX)%string.
Definition BUCKET_WEB : string := ("inventory-web-" ++ SUFFIX)%string.
Definition IAM_ROLE_LAMBDA : string := ("lambda-inventory-role-" ++ SUFFIX)%string.

(** The body of the loop of [create_s3_buckets]. *)
Definition ensure_bucket (bucket_name : string) : M Call unit :=
  bucket_exists <-
    try_except
      (call (HeadBucket bucket_name) ;; ret true)
      except_ClientError
      (fun _ => ret false) ;;
  (if negb bucket_exists then
     try_except
       (call (CreateBucket bucket_name
                (if String.eqb REGION "us-east-1" then None else Some REGION)))
       except_ClientError
       (fun e =>
          if String.eqb (error_code e) "BucketAlreadyOwnedByYou"
          then ret tt
          else raise e)
   else ret tt) ;;
  if String.eqb bucket_name BUCKET_UPLOADS then
    try_except
      (call (PutBucketVersioning bucket_name "Enabled"))
      except_any
      (fun _ => ret tt)
  else ret tt.

Definition create_s3_buckets : M Call unit :=
  for_each [BUCKET_UPLOADS; BUCKET_WEB] ensure_bucket.

Definition create_dynamodb_table : M Call string :=
  try_except
    (arn <- call (CreateTable TABLE_NAME) ;;
     call (WaitTableExists TABLE_NAME) ;;
     ret arn)
    except_ClientError
    (fun e =>
       if String.eqb (error_code e) "ResourceInUseException" then
         response <- call (DescribeTable TABLE_NAME) ;;
         response <-
           (if negb (StreamEnabled response) then
              call (UpdateTable TABLE_NAME) ;;
              call (WaitTableExists TABLE_NAME) ;;
              call (DescribeTable TABLE_NAME)
            else ret response) ;;
         ret (TableArn response)
       else raise e).

Definition create_iam_role : M Call string :=
  try_except
    (call (GetRole "LabRole"))
    except_ClientError
    (fun _ =>
       try_except
         (role_arn <- call (CreateRole IAM_ROLE_LAMBDA) ;;
          call (AttachRolePolicy IAM_ROLE_LAMBDA
                  "arn:aws:iam::aws:policy/service-role/AWSLambdaBasicExecutionRole") ;;
          ret role_arn)
         except_ClientError
         (fun create_error => raise create_error)).

(** [for attempt in range(12)], left at the first ["Active"]. *)
Fixpoint wait_until_active (name : string) (attempts : nat) : M Call unit :=
  match attempts with
  | 0 => ret tt
  | S attempts' =>
      active <-
        try_except
          (response <- call (GetFunction name) ;;
           ret (String.eqb (State response) "Active"))
          except_any
          (fun _ => ret false) ;;
      if active then ret tt else wait_until_active name attempts'
  end.

Definition create_lambda (name source_dir role_arn : string)
           (settings : FunctionSettings) : M Call string :=
  zip_content <- call (PackageLambda name source_dir) ;;
  try_except
    (call (CreateFunction name role_arn settings zip_content))
    except_ClientError
    (fun e =>
       if String.eqb (error_code e) "ResourceConflictException" then
         wait_until_active name 12 ;;
         try_except
           (call (UpdateFunctionCode name zip_content) ;;
            call (UpdateFunctionConfiguration name settings))
           except_ClientError
           (fun update_error =>
              if Py.contains "ResourceConflictException" (str_of_exn update_error)
              then ret tt
              else raise update_error) ;;
         response <- call (GetFunction name) ;;
         ret (FunctionArn response)
       else raise e).

Definition create_sns_topic : M Call string :=
  let fixed_topic_name := "low-stock-inventory-main" in
  found <-
    try_except
      (topics <- call ListTopics ;;
       ret (find (fun arn => Py.contains fixed_topic_name arn) topics))
      except_ClientError
      (fun _ => ret None) ;;
  match found with
  | Some arn => ret arn
  | None =>
      try_except
        (call (CreateTopic fixed_topic_name))
        except_ClientError
        (fun e => raise e)
  end.

Definition tolerate_conflict (e : Exn) : M Call unit :=
  if negb (Py.contains "ResourceConflictException" (str_of_exn e))
  then raise e
  else ret tt.

Definition create_api_gateway (lambda_api_arn : string)
  : M Call (string * string) :=
  let api_name := ("inventory-api-" ++ SUFFIX)%string in
  try_except
    (existing_apis <- call GetApis ;;
     for_each (or_empty existing_apis)
       (fun api =>
          if String.eqb (Name api) api_name
          then call (DeleteApi (ApiId api))
          else ret tt))
    except_any
    (fun _ => ret tt) ;;
  api_id <- call (CreateApi api_name) ;;
  integration_id <- call (CreateIntegration api_id lambda_api_arn) ;;
  let routes := ["GET /items"; "GET /items/{store}"] in
  for_each routes
    (fun route_key =>
       call (CreateRoute api_id route_key
               ("integrations/" ++ integration_id)%string)) ;;
  try_except
    (call (AddPermission LAMBDA_API_NAME
             ("AllowApiGateway-" ++ api_id)%string
             "apigateway.amazonaws.com"
             ("arn:aws:execute-api:" ++ REGION ++ ":" ++ ACCOUNT_ID ++ ":"
              ++ api_id ++ "/*/*")%string))
    except_ClientError
    tolerate_conflict ;;
  call (CreateStage api_id "prod") ;;
  let api_endpoint :=
    ("https://" ++ api_id ++ ".execute-api." ++ REGION
     ++ ".amazonaws.com/prod")%string in
  ret (api_id, api_endpoint).

Definition add_s3_trigger_to_lambda (lambda_name : string) : M Call unit :=
  try_except
    (call (AddPermission lambda_name
             ("AllowS3-" ++ BUCKET_UPLOADS)%string
             "s3.amazonaws.com"
             ("arn:aws:s3:::" ++ BUCKET_UPLOADS)%string))
    except_ClientError
    tolerate_conflict ;;
  response <- call (GetFunction lambda_name) ;;
  let lambda_arn := FunctionArn response in
  try_except
    (call (PutBucketNotificationConfiguration BUCKET_UPLOADS lambda_arn))
    except_ClientError
    (fun _ => ret tt).

Definition add_stream_trigger_to_lambda (lambda_name : string) : M Call unit :=
  table_response <- call (DescribeTable TABLE_NAME) ;;
  match LatestStreamArn table_response with
  | None => raise (KeyError "LatestStreamArn")
  | Some EmptyString => ret tt
  | Some stream_arn =>
      try_except
        (existing_mappings <-
           call (ListEventSourceMappings lambda_name stream_arn) ;;
         for_each (or_empty existing_mappings)
           (fun uuid => call (DeleteEventSourceMapping uuid)))
        except_ClientError
        (fun _ => ret tt) ;;
      try_except
        (_ <- call (CreateEventSourceMapping stream_arn lambda_name) ;; ret tt)
        except_ClientError
        (fun _ => ret tt)
  end.

Definition content_type_of (suffix : string) : string :=
  if String.eqb suffix ".html" then "text/html"
  else if String.eqb suffix ".css" then "text/css"
  else if String.eqb suffix ".js" then "application/javascript"
  else if String.eqb suffix ".jpg" || String.eqb suffix ".jpeg" then "image/jpeg"
  else if String.eqb suffix ".png" then "image/png"
  else if String.eqb suffix ".gif" then "image/gif"
  else if String.eqb suffix ".svg" then "image/svg+xml"
  else "application/octet-stream".

Definition backslash : string := String (ascii_of_nat 92) EmptyString.

Definition bucket_policy : Json :=
  JObj [("Version", JStr "2012-10-17");
        ("Statement",
         JArr [JObj [("Effect", JStr "Allow");
                     ("Principal", JStr "*");
                     ("Action", JStr "s3:GetObject");
                     ("Resource",
                      JStr ("arn:aws:s3:::" ++ BUCKET_WEB ++ "/*")%string)]])].

Definition upload_web_content (api_endpoint : string)
  : M Call (option string) :=
  found <- call WebDirExists ;;
  if negb found then ret None
  else
    files <- call ListWebFiles ;;
    for_each files
      (fun relative_path =>
         let s3_key := Py.replace backslash "/" relative_path in
         file <- call (ReadFile relative_path) ;;
         let suffix := Py.path_suffix relative_path in
         let content :=
           if String.eqb suffix ".html" && utf8 file
           then Py.replace "REPLACE_WITH_API_ENDPOINT" api_endpoint (data file)
           else data file in
         call (PutObject BUCKET_WEB s3_key content (content_type_of suffix))) ;;
    call (PutBucketWebsite BUCKET_WEB) ;;
    let web_url :=
      ("http://" ++ BUCKET_WEB ++ ".s3-website-" ++ REGION
       ++ ".amazonaws.com")%string in
    try_except
      (call (PutPublicAccessBlock BUCKET_WEB))
      except_ClientError
      (fun _ => ret tt) ;;
    try_except
      (call (PutBucketPolicy BUCKET_WEB bucket_policy))
      except_ClientError
      (fun e =>
         if Py.contains "BlockPublicPolicy" (str_of_exn e)
            || Py.contains "AccessDenied" (str_of_exn e)
         then ret tt
         else raise e) ;;
    ret (Some web_url).

(** What steps 1 to 8 of [main] hand to the record. *)
Record Created : Type :=
  mkCreated { created_topic : string; created_api : string;
              created_endpoint : string; created_web_url : option string }.

Definition load_settings : FunctionSettings :=
  mkSettings "lambda_function.lambda_handler" 60 512
             [("TABLE_NAME", TABLE_NAME); ("REGION", REGION)].

Definition api_settings : FunctionSettings :=
  mkSettings "lambda_function.lambda_handler" 30 256
             [("TABLE_NAME", TABLE_NAME); ("REGION", REGION)].

Definition notify_settings (topic_arn : string) : FunctionSettings :=
  mkSettings "lambda_function.lambda_handler" 60 256
             [("TABLE_NAME", TABLE_NAME); ("TOPIC_ARN", topic_arn);
              ("REGION", REGION)].

(** Steps 1 to 8 of the [try] block of [main]. *)
Definition create_all : M Call Created :=
  create_s3_buckets ;;
  table_arn <- create_dynamodb_table ;;
  role_arn <- create_iam_role ;;
  topic_arn <- create_sns_topic ;;
  lambda_load_arn <-
    create_lambda LAMBDA_LOAD_NAME "lambdas/load_inventory" role_arn
                  load_settings ;;
  lambda_api_arn <-
    create_lambda LAMBDA_API_NAME "lambdas/get_inventory_api" role_arn
                  api_settings ;;
  lambda_notify_arn <-
    create_lambda LAMBDA_NOTIFY_NAME "lambdas/notify_low_stock" role_arn
                  (notify_settings topic_arn) ;;
  add_s3_trigger_to_lambda LAMBDA_LOAD_NAME ;;
  add_stream_trigger_to_lambda LAMBDA_NOTIFY_NAME ;;
  api <- create_api_gateway lambda_api_arn ;;
  web_url <- upload_web_content (snd api) ;;
  ret (mkCreated topic_arn (fst api) (snd api) web_url).

(** Step 9: the record. *)
Definition record_of (c : Created) (now : string) : Deployment :=
  mkDeployment now REGION SUFFIX BUCKET_UPLOADS BUCKET_WEB TABLE_NAME
               LAMBDA_LOAD_NAME LAMBDA_API_NAME LAMBDA_NOTIFY_NAME
               (created_api c) (created_endpoint c) (created_web_url c)
               (created_topic c) IAM_ROLE_LAMBDA.

Definition main : M Call unit :=
  try_except
    (c <- create_all ;;
     now <- call Now ;;
     call (WriteRecord (record_of c now)))
    except_Exception
    (fun e => sys_exit 1%Z).

End Script.

(** The statements at module level, then [main()]. *)
Definition script (REGION : string) : M Call unit :=
  found <- call FileExists ;;
  SUFFIX <-
    (if (found : bool) then (existing_config <- call ReadRecord ;;
                    ret (suffix existing_config))
     else ret "inventory-main") ;;
  ACCOUNT_ID <- call GetCallerIdentity ;;
  main REGION SUFFIX ACCOUNT_ID.

(** ** What a run shows about a resource *)

Definition is_ret {R : Type} (r : Reply R) : bool :=
  match r with Ret _ => true | Err _ => false end.

Definition failed_with {R : Type} (code : string) (r : Reply R) : bool :=
  match r with
  | Err (ClientError c _ _) => String.eqb c code
  | _ => false
  end.

(** The bucket was found, created, or reported as already owned. *)
Definition shows_bucket (name : string) (e : Event Call) : bool :=
  match e with
  | Ev c r =>
      match c with
      | HeadBucket b => String.eqb b name && is_ret r
      | CreateBucket b _ =>
          String.eqb b name
          && (is_ret r || failed_with "BucketAlreadyOwnedByYou" r)
      | _ => false
      end
  | Log _ => false
  end.

(** The table was created or described. *)
Definition shows_table (name : string) (e : Event Call) : bool :=
  match e with
  | Ev c r =>
      match c with
      | CreateTable t | DescribeTable t => String.eqb t name && is_ret r
      | _ => false
      end
  | Log _ => false
  end.

(** The function was created or found. *)
Definition shows_function (name : string) (e : Event Call) : bool :=
  match e with
  | Ev c r =>
      match c with
      | CreateFunction f _ _ _ | GetFunction f => String.eqb f name && is_ret r
      | _ => false
      end
  | Log _ => false
  end.

Definition returned_string {R : Type} (c : Call R) (r : Reply R) : option string :=
  match c in Call R return Reply R -> option string with
  | CreateApi _ | CreateTopic _ =>
      fun r => match r with Ret s => Some s | Err _ => None end
  | _ => fun _ => None
  end r.

Definition listed_strings {R : Type} (c : Call R) (r : Reply R) : list string :=
  match c in Call R return Reply R -> list string with
  | ListTopics => fun r => match r with Ret l => l | Err _ => [] end
  | _ => fun _ => []
  end r.

(** The API was created under this identifier. *)
Definition shows_api (id : string) (e : Event Call) : bool :=
  match e with
  | Ev c r =>
      match c with
      | CreateApi _ =>
          match returned_string c r with
          | Some s => String.eqb s id
          | None => false
          end
      | _ => false
      end
  | Log _ => false
  end.

(** The topic was listed or created under this identifier. *)
Definition shows_topic (arn : string) (e : Event Call) : bool :=
  match e with
  | Ev c r =>
      match c with
      | CreateTopic _ =>
          match returned_string c r with
          | Some s => String.eqb s arn
          | None => false
          end
      | ListTopics => existsb (String.eqb arn) (listed_strings c r)
      | _ => false
      end
  | Log _ => false
  end.

(** The role was found or created. *)
Definition shows_role (name : string) (e : Event Call) : bool :=
  match e with
  | Ev c r =>
      match c with
      | GetRole n | CreateRole n => String.eqb n name && is_ret r
      | _ => false
      end
  | Log _ => false
  end.

Definition is_write (e : Event Call) : bool :=
  match e with
  | Ev c _ => match c with WriteRecord _ => true | _ => false end
  | Log _ => false
  end.

Definition no_write (e : Event Call) : Prop := is_write e = false.

(** The records a run wrote. *)
Definition written (t : Trace Call) : list Deployment :=
  flat_map (fun e => match e with
                     | Ev c _ => match c with WriteRecord d => [d] | _ => [] end
                     | Log _ => []
                     end) t.

(** The identifiers of the record other than the role are each backed by
    an event of the run. *)
Definition backed (t : Trace Call) (d : Deployment) : bool :=
  existsb (shows_bucket (bucket_uploads d)) t
  && existsb (shows_bucket (bucket_web d)) t
  && existsb (shows_table (table_name d)) t
  && existsb (shows_function (lambda_load d)) t
  && existsb (shows_function (lambda_api d)) t
  && existsb (shows_function (lambda_notify d)) t
  && existsb (shows_api (api_id d)) t
  && existsb (shows_topic (sns_topic_arn d)) t.

(** The invariant as the specification words it: every identifier of a
    written record, the role included, names a resource the run created or
    confirmed. *)
Definition record_backed (env : Env Call) (REGION : string) : Prop :=
  let t := snd (run (script REGION) env) in
  forall d, In d (written t) ->
            backed t d = true /\ existsb (shows_role (iam_role d)) t = true.

(** ** Sample inputs *)

(** A fresh account of the kind the script is written for: the role
    [LabRole] is there, nothing else is, and every creation succeeds. *)
Definition academy : Env Call :=
  fun R _ c =>
    match c in Call R return Reply R with
    | FileExists => Ret false
    | ReadRecord => Err (OSError "No such file or directory")
    | GetCallerIdentity => Ret "123456789012"
    | HeadBucket _ => Err (ClientError "404" "HeadBucket" "Not Found")
    | CreateBucket _ _ => Ret tt
    | PutBucketVersioning _ _ => Ret tt
    | CreateTable _ => Ret "arn:aws:dynamodb:us-east-1:123456789012:table/Inventory"
    | WaitTableExists _ => Ret tt
    | DescribeTable _ =>
        Ret (mkTableInfo "arn:aws:dynamodb:us-east-1:123456789012:table/Inventory"
               true
               (Some "arn:aws:dynamodb:us-east-1:123456789012:table/Inventory/stream/1"))
    | UpdateTable _ => Ret tt
    | GetRole n =>
        if String.eqb n "LabRole"
        then Ret "arn:aws:iam::123456789012:role/LabRole"
        else Err (ClientError "NoSuchEntity" "GetRole" "not found")
    | CreateRole _ =>
        Err (ClientError "AccessDenied" "CreateRole" "not authorized")
    | AttachRolePolicy _ _ => Ret tt
    | ListTopics => Ret []
    | CreateTopic n => Ret ("arn:aws:sns:us-east-1:123456789012:" ++ n)%string
    | PackageLambda _ _ => Ret "PK"
    | CreateFunction n _ _ _ =>
        Ret ("arn:aws:lambda:us-east-1:123456789012:function:" ++ n)%string
    | GetFunction n =>
        Ret (mkFunctionInfo "Active"
               ("arn:aws:lambda:us-east-1:123456789012:function:" ++ n)%string)
    | UpdateFunctionCode _ _ => Ret tt
    | UpdateFunctionConfiguration _ _ => Ret tt
    | AddPermission _ _ _ _ => Ret tt
    | PutBucketNotificationConfiguration _ _ => Ret tt
    | ListEventSourceMappings _ _ => Ret (Some [])
    | DeleteEventSourceMapping _ => Ret tt
    | CreateEventSourceMapping _ _ => Ret "uuid-1"
    | GetApis => Ret (Some [])
    | DeleteApi _ => Ret tt
    | CreateApi _ => Ret "a1b2c3"
    | CreateIntegration _ _ => Ret "int-1"
    | CreateRoute _ _ _ => Ret tt
    | CreateStage _ _ => Ret tt
    | WebDirExists => Ret true
    | ListWebFiles => Ret ["index.html"; "css/style.css"]
    | ReadFile p =>
        Ret (mkFileData
               (if String.eqb p "index.html"
                then "<script>const API = 'REPLACE_WITH_API_ENDPOINT';</script>"
                else "body { margin: 0 }")
               true)
    | PutObject _ _ _ _ => Ret tt
    | PutBucketWebsite _ => Ret tt
    | PutPublicAccessBlock _ => Ret tt
    | PutBucketPolicy _ _ => Ret tt
    | Now => Ret "2025-01-15T10:30:00"
    | WriteRecord _ => Ret tt
    end.

(** The same account when the provider refuses to create the table. *)
Definition table_refused : Env Call :=
  fun R h c =>
    match c in Call R return Reply R with
    | CreateTable _ =>
        Err (ClientError "AccessDeniedException" "CreateTable" "not authorized")
    | c' => academy h c'
    end.

End Deploy.

(* ====================================================================== *)
(** * infra/subscribe_sns.py *)
(* ====================================================================== *)

Module Subscribe.

(** [Input] is [input(prompt)], the line as the operator typed it;
    [SnsSubscribe] answers with the ["SubscriptionArn"] of the response. *)
Inductive Call : Type -> Type :=
| FileExists : Call bool
| ReadRecord : Call Deployment
| Input (prompt : string) : Call string
| SnsSubscribe (TopicArn Protocol Endpoint : string) : Call string.

Definition rule : string :=
  "============================================================".

Definition prompt : string :=
  (Py.nl ++ "Ingresa tu dirección de email para recibir alertas: ")%string.

Section Script.

(** [config["sns_topic_arn"]] *)
Variable TOPIC_ARN : string.

Definition main : M Call unit :=
  print (Py.nl ++ rule)%string ;;
  print "SUSCRIPCIÓN A NOTIFICACIONES SNS" ;;
  print rule ;;
  print (Py.nl ++ "Tema SNS: " ++ TOPIC_ARN)%string ;;
  line <- call (Input prompt) ;;
  let email := Py.strip line in
  if String.eqb email "" || negb (Py.contains "@" email) then
    print "✗ Email inválido" ;;
    sys_exit 1%Z
  else
    try_except
      (subscription_arn <- call (SnsSubscribe TOPIC_ARN "email" email) ;;
       print (Py.nl ++ rule)%string ;;
       print "✓ SUSCRIPCIÓN INICIADA" ;;
       print rule ;;
       print (Py.nl ++ "ID de suscripción: " ++ subscription_arn)%string ;;
       print (Py.nl ++ "📧 Se ha enviado un email de confirmación a "
              ++ email)%string ;;
       print "Por favor, confirma tu suscripción haciendo clic en el enlace del email." ;;
       print (Py.nl ++ "Una vez confirmado, recibirás alertas cuando el stock sea bajo (<50).")%string)
      except_ClientError
      (fun e =>
         print (Py.nl ++ "✗ Error: " ++ str_of_exn e)%string ;;
         sys_exit 1%Z).

End Script.

(** The statements at module level, then [main()]. *)
Definition script : M Call unit :=
  found <- call FileExists ;;
  if negb found then
    print "✗ Archivo deployment.json no encontrado." ;;
    sys_exit 1%Z
  else
    config <- call ReadRecord ;;
    main (sns_topic_arn config).

(** The [subscribe] requests of a trace: topic, protocol and endpoint. *)
Definition subscribed_of (e : Event Call) : list (string * string * string) :=
  match e with
  | Ev c _ =>
      match c with
      | SnsSubscribe t p a => [(t, p, a)]
      | _ => []
      end
  | Log _ => []
  end.

Definition subscriptions (t : Trace Call) : list (string * string * string) :=
  flat_map subscribed_of t.

(** What the operator is asked, in a trace. *)
Definition is_input (e : Event Call) : bool :=
  match e with
  | Ev c _ => match c with Input _ => true | _ => false end
  | Log _ => false
  end.

(** The outcome of the script after a [subscribe] request answered by
    [r]. *)
Definition after_subscribe (r : Reply string) : Outcome unit :=
  match r with
  | Ret _ => Ok tt
  | Err e => if except_ClientError e then Exit 1%Z else Raise e
  end.

(** A terminal at which the operator types [line], a record naming
    [topic], and a topic that answers [r]. *)
Definition desk (line topic : string) (r : Reply string) : Env Call :=
  fun R _ c =>
    match c in Call R return Reply R with
    | FileExists => Ret true
    | ReadRecord =>
        Ret (mkDeployment "" "" "" "" "" "" "" "" "" "" "" None topic "")
    | Input _ => Ret line
    | SnsSubscribe _ _ _ => r
    end.

End Subscribe.

(* ====================================================================== *)
(** * What the runs of the three functions show *)
(* ====================================================================== *)

(** The records of a batch up to the first one the notification handler
    cannot read. *)
Fixpoint readable_prefix (records : list Notify.StreamRecord)
  : list Notify.StreamRecord :=
  match records with
  | [] => []
  | r :: rest => if Notify.readable r then r :: readable_prefix rest else []
  end.

(** The [put_item] requests of a trace of the ingestion handler, in
    order. *)
Definition put_call_of (e : Event Load.Call) : list (Load.Call unit) :=
  match e with
  | Ev c _ =>
      match c with
      | Load.PutItem s i n => [Load.PutItem s i n]
      | Load.GetObject _ _ => []
      end
  | Log _ => []
  end.

Definition put_calls (t : Trace Load.Call) : list (Load.Call unit) :=
  flat_map put_call_of t.

(** The objects a trace of the ingestion handler asked for. *)
Definition get_call_of (e : Event Load.Call) : list (string * string) :=
  match e with
  | Ev c _ =>
      match c with
      | Load.GetObject b k => [(b, k)]
      | Load.PutItem _ _ _ => []
      end
  | Log _ => []
  end.

Definition get_calls (t : Trace Load.Call) : list (string * string) :=
  flat_map get_call_of t.

Definition accepted_of (e : Event Load.Call) : nat :=
  match e with
  | Ev c (Ret _) =>
      match c with Load.PutItem _ _ _ => 1 | Load.GetObject _ _ => 0 end
  | _ => 0
  end.

(** The number of [put_item] requests the table accepted. *)
Definition accepted (t : Trace Load.Call) : nat := list_sum (map accepted_of t).

(** The [put_item] requests for the valid rows the reader yields from a
    text. *)
Definition valid_puts (DictReader : string -> Load.Reading)
           (strip : string -> string) (int : string -> option Z)
           (content : string)
  : list (Load.Call unit) :=
  map (Load.put_of strip int)
      (filter (Load.row_valid int) (Load.yielded (DictReader content))).

(** The answer of the ingestion handler to an exception. *)
Definition load_error (e : Exn) : Response :=
  mkResponse 500 (JObj [("error", JStr (str_of_exn e))]).

(** A bucket holding [store bucket key] under each key and a table that
    refuses every item of the shop [closed], when there is one. *)
Definition shelf (store : string -> string -> string) (closed : option string)
  : Env Load.Call :=
  fun R _ c =>
    match c in Load.Call R return Reply R with
    | Load.GetObject b k => Ret (store b k)
    | Load.PutItem s _ _ =>
        match closed with
        | Some shop =>
            if String.eqb s shop
            then Err (ClientError "ValidationException" "PutItem" "refused")
            else Ret tt
        | None => Ret tt
        end
    end.

(** Two uploads: [stock.csv] with the sample text and [late.csv] with one
    row. *)
Definition two_files (bucket key : string) : string :=
  if String.eqb key "late.csv"
  then ("Store,Item,Count" ++ Py.nl ++ "Madrid,Widget-009,3" ++ Py.nl)%string
  else Load.sample_csv.

(** As [two_files], with the text with the stray carriage return under
    [torn.csv]. *)
Definition torn_file (bucket key : string) : string :=
  if String.eqb key "torn.csv" then Load.stray_cr_csv else two_files bucket key.

(** A bucket in which the object [missing] is not there. *)
Definition shelf_without (missing : string) : Env Load.Call :=
  fun R _ c =>
    match c in Load.Call R return Reply R with
    | Load.GetObject b k =>
        if String.eqb k missing
        then Err (ClientError "NoSuchKey" "GetObject"
                              "The specified key does not exist.")
        else Ret (two_files b k)
    | Load.PutItem _ _ _ => Ret tt
    end.

(** The status of the response a run of a handler ended with. *)
Definition statusCode_of_run (Call : Type -> Type)
           (r : Outcome Response * Trace Call) : option Z :=
  match fst r with
  | Ok response => Some (statusCode response)
  | _ => None
  end.

(** The exceptions the environment answered with in a trace, in order. *)
Definition failure_of (Call : Type -> Type) (e : Event Call) : list Exn :=
  match e with
  | Ev _ (Err x) => [x]
  | _ => []
  end.

Definition failures (Call : Type -> Type) (t : Trace Call) : list Exn :=
  flat_map (@failure_of Call) t.

(** How a run of the query handler can end: with a response, or, in the
    model, with the pagination still going on when the fuel is used up. *)
Definition api_outcome (path : string) (r : Outcome Response * Trace Api.Call)
  : Prop :=
  match fst r with
  | Ok response =>
      (failures (snd r) = []
       /\ (statusCode response = 200%Z \/ response = Api.not_found path))
      \/ exists e,
           failures (snd r) = [e]
           /\ response = mkResponse 500 (Api.error_body e)
  | Diverge => failures (snd r) = []
  | Raise _ => False
  | Exit _ => False
  end.

(** A request as the HTTP API sends it when it fills in no path
    parameters. *)
Definition raw_request (path : string) : Api.HttpEvent :=
  Api.mkEvent (Some path) None None.

(* ====================================================================== *)
(** * What the runs of the teardown show *)
(* ====================================================================== *)

Definition is_log (Call : Type -> Type) (e : Event Call) : bool :=
  match e with
  | Log _ => true
  | Ev _ _ => false
  end.

(** An event that changes something: a call to the provider or the removal
    of the record file. *)
Definition changes_something (e : Event Destroy.Call) : bool :=
  Destroy.is_cloud_event e
  || match e with
     | Ev c _ => match c with Destroy.Unlink => true | _ => false end
     | Log _ => false
     end.

(** What [delete_lambda] does before it deletes the function: log lines
    and calls about the event source mappings. *)
Definition mapping_step (e : Event Destroy.Call) : bool :=
  match e with
  | Ev c _ =>
      match c with
      | Destroy.ListEventSourceMappings _
      | Destroy.DeleteEventSourceMapping _ => true
      | _ => false
      end
  | Log _ => true
  end.

(** The outcome of a delete step whose last call was answered by [r]: an
    error response of the provider is passed over. *)
Definition after_delete (r : Reply unit) : Outcome unit :=
  match r with
  | Ret _ => Ok tt
  | Err e => if except_ClientError e then Ok tt else Raise e
  end.

(** The calls [delete_all_low_stock_topics] may make: on a topic, only
    when its ARN contains "low-stock". *)
Definition topic_step (e : Event Destroy.Call) : bool :=
  match e with
  | Ev c _ =>
      match c with
      | Destroy.ListTopics => true
      | Destroy.ListSubscriptionsByTopic arn => Py.contains "low-stock" arn
      | Destroy.Unsubscribe _ => true
      | Destroy.DeleteTopic arn => Py.contains "low-stock" arn
      | _ => false
      end
  | Log _ => true
  end.

(** The topics whose subscriptions a trace asked for, those for which it
    got them, and those it asked to delete. *)
Definition listed_topic_of (e : Event Destroy.Call) : list string :=
  match e with
  | Ev c _ =>
      match c with Destroy.ListSubscriptionsByTopic arn => [arn] | _ => [] end
  | Log _ => []
  end.

Definition opened_topic_of (e : Event Destroy.Call) : list string :=
  match e with
  | Ev c (Ret _) =>
      match c with Destroy.ListSubscriptionsByTopic arn => [arn] | _ => [] end
  | _ => []
  end.

Definition deleted_topic_of (e : Event Destroy.Call) : list string :=
  match e with
  | Ev c _ => match c with Destroy.DeleteTopic arn => [arn] | _ => [] end
  | Log _ => []
  end.

Definition listed_topics (t : Trace Destroy.Call) : list string :=
  flat_map listed_topic_of t.
Definition opened_topics (t : Trace Destroy.Call) : list string :=
  flat_map opened_topic_of t.
Definition deleted_topics (t : Trace Destroy.Call) : list string :=
  flat_map deleted_topic_of t.

(** Every failure of a call to the provider is a [ClientError]. *)
Definition provider_errors (env : Env Destroy.Call) : Prop :=
  forall R h (c : Destroy.Call R) e,
    Destroy.is_cloud_call c = true -> env R h c = Err e ->
    except_ClientError e = true.

(** The [delete_objects] requests made on a bucket: the batch, and whether
    the provider accepted it. *)
Definition delete_attempt_of (bucket : string) (e : Event Destroy.Call)
  : list (list Destroy.ObjectId * bool) :=
  match e with
  | Ev c r =>
      let accepted := match r with Ret _ => true | Err _ => false end in
      match c with
      | Destroy.DeleteObjects b batch =>
          if String.eqb b bucket then [(batch, accepted)] else []
      | _ => []
      end
  | Log _ => []
  end.

Definition delete_attempts (bucket : string) (t : Trace Destroy.Call)
  : list (list Destroy.ObjectId * bool) :=
  flat_map (delete_attempt_of bucket) t.

(** The attempts of an emptying that got through the batches [done] and, if
    [rest] is not empty, failed on the first batch of [rest]. *)
Definition attempts_until_failure (done rest : list (list Destroy.ObjectId))
  : list (list Destroy.ObjectId * bool) :=
  map (fun b => (b, true)) done
  ++ match rest with
     | [] => []
     | b :: _ => [(b, false)]
     end.

(** The provider of [Destroy.healthy], except that it refuses the
    [delete_objects] request made on a bucket after [n] earlier ones. *)
Definition refusing_batch (n : nat) : Env Destroy.Call :=
  fun R h c =>
    match c in Destroy.Call R return Reply R with
    | Destroy.DeleteObjects b _ =>
        if Nat.eqb (length (delete_attempts b h)) n
        then Err (ClientError "SlowDown" "DeleteObjects" "Please reduce your request rate.")
        else Ret tt
    | c' => Destroy.healthy h c'
    end.

(** The requests of a trace that remove a resource of the record: a
    function, the API, the table, a bucket, the role. *)
Definition removal_of (e : Event Destroy.Call) : list string :=
  match e with
  | Ev c _ =>
      match c with
      | Destroy.DeleteFunction _ | Destroy.DeleteApi _ | Destroy.DeleteTable _
      | Destroy.DeleteBucket _ | Destroy.DeleteRole _ => [Destroy.call_name c]
      | _ => []
      end
  | Log _ => []
  end.

Definition removals (t : Trace Destroy.Call) : list string :=
  flat_map removal_of t.

(** In the environment [env], the step [m] returns and the removals it
    asks for are [names]. *)
Definition step_removes (env : Env Destroy.Call) (m : M Destroy.Call unit)
           (names : list string) : Prop :=
  forall h, fst (m env h) = Ok tt /\ removals (snd (m env h)) = names.

(** The removals of a complete teardown, in order. *)
Definition all_removals (config : Deployment) : list string :=
  [("delete_function " ++ lambda_load config)%string;
   ("delete_function " ++ lambda_api config)%string;
   ("delete_function " ++ lambda_notify config)%string;
   ("delete_api " ++ api_id config)%string;
   ("delete_table " ++ table_name config)%string;
   ("delete_bucket " ++ bucket_uploads config)%string;
   ("delete_bucket " ++ bucket_web config)%string;
   ("delete_role " ++ iam_role config)%string].

(** A provider in which nothing of the record is left: every call about
    a resource is answered with an error response. *)
Definition nothing_left : Env Destroy.Call :=
  fun R h c =>
    match c in Destroy.Call R return Reply R with
    | Destroy.FileExists => Ret true
    | Destroy.ReadRecord => Ret Destroy.sample
    | Destroy.Confirm _ => Ret "sí"
    | Destroy.Unlink => Ret tt
    | Destroy.ListTopics => Ret (Some [])
    | Destroy.PutBucketVersioning _ _ =>
        Err (ClientError "NoSuchBucket" "PutBucketVersioning" "gone")
    | Destroy.ListObjectVersions _ =>
        Err (ClientError "NoSuchBucket" "ListObjectVersions" "gone")
    | Destroy.DeleteObjects _ _ =>
        Err (ClientError "NoSuchBucket" "DeleteObjects" "gone")
    | Destroy.DeleteBucket _ =>
        Err (ClientError "NoSuchBucket" "DeleteBucket" "gone")
    | Destroy.ListEventSourceMappings _ =>
        Err (ClientError "ResourceNotFoundException" "ListEventSourceMappings" "gone")
    | Destroy.DeleteEventSourceMapping _ =>
        Err (ClientError "ResourceNotFoundException" "DeleteEventSourceMapping" "gone")
    | Destroy.DeleteFunction _ =>
        Err (ClientError "ResourceNotFoundException" "DeleteFunction" "gone")
    | Destroy.DeleteApi _ =>
        Err (ClientError "NotFoundException" "DeleteApi" "gone")
    | Destroy.DeleteTable _ =>
        Err (ClientError "ResourceNotFoundException" "DeleteTable" "gone")
    | Destroy.WaitTableNotExists _ => Ret tt
    | Destroy.ListRolePolicies _ =>
        Err (ClientError "NoSuchEntity" "ListRolePolicies" "gone")
    | Destroy.DeleteRolePolicy _ _ =>
        Err (ClientError "NoSuchEntity" "DeleteRolePolicy" "gone")
    | Destroy.DeleteRole _ =>
        Err (ClientError "NoSuchEntity" "DeleteRole" "gone")
    | Destroy.ListSubscriptionsByTopic _ =>
        Err (ClientError "NotFound" "ListSubscriptionsByTopic" "gone")
    | Destroy.Unsubscribe _ =>
        Err (ClientError "NotFound" "Unsubscribe" "gone")
    | Destroy.DeleteTopic _ =>
        Err (ClientError "NotFound" "DeleteTopic" "gone")
    end.

(* ====================================================================== *)
(** * What the runs of the deployment show *)
(* ====================================================================== *)

(** The buckets a trace asked to create, and those it set the versioning
    of. *)
Definition created_bucket_of (e : Event Deploy.Call) : list string :=
  match e with
  | Ev c _ => match c with Deploy.CreateBucket b _ => [b] | _ => [] end
  | Log _ => []
  end.

Definition created_buckets (t : Trace Deploy.Call) : list string :=
  flat_map created_bucket_of t.

Definition versioned_bucket_of (e : Event Deploy.Call)
  : list (string * string) :=
  match e with
  | Ev c _ =>
      match c with Deploy.PutBucketVersioning b s => [(b, s)] | _ => [] end
  | Log _ => []
  end.

Definition versioned_buckets (t : Trace Deploy.Call) : list (string * string) :=
  flat_map versioned_bucket_of t.

(** The two ways [create_iam_role] returns a role: [LabRole] was found, or
    it was not and a role was created and given the basic execution
    policy. *)
Definition role_found_or_made (role arn : string) (t : Trace Deploy.Call)
  : Prop :=
  t = [Ev (Deploy.GetRole "LabRole") (Ret arn)]
  \/ exists e,
       except_ClientError e = true
       /\ t = [Ev (Deploy.GetRole "LabRole") (Err e);
               Ev (Deploy.CreateRole role) (Ret arn);
               Ev (Deploy.AttachRolePolicy role
                     "arn:aws:iam::aws:policy/service-role/AWSLambdaBasicExecutionRole")
                  (Ret tt)].

(** The topics a trace asked to create. *)
Definition created_topic_of (e : Event Deploy.Call) : list string :=
  match e with
  | Ev c _ => match c with Deploy.CreateTopic n => [n] | _ => [] end
  | Log _ => []
  end.

Definition created_topics (t : Trace Deploy.Call) : list string :=
  flat_map created_topic_of t.

(** An event that shows the table has its stream: the table was created
    (the request asks for the stream), it was described with the stream
    enabled, or the update that enables the stream was accepted. *)
Definition stream_ensured_by (e : Event Deploy.Call) : bool :=
  match e with
  | Ev c r =>
      match c in Deploy.Call R return Reply R -> bool with
      | Deploy.CreateTable _ => fun r => Deploy.is_ret r
      | Deploy.UpdateTable _ => fun r => Deploy.is_ret r
      | Deploy.DescribeTable _ =>
          fun r => match r with
                   | Ret info => Deploy.StreamEnabled info
                   | Err _ => false
                   end
      | _ => fun _ => false
      end r
  | Log _ => false
  end.

(** A poll of the state of the function [name], and a poll that found it
    active. *)
Definition poll_of (name : string) (e : Event Deploy.Call) : bool :=
  match e with
  | Ev c _ =>
      match c with Deploy.GetFunction f => String.eqb f name | _ => false end
  | Log _ => false
  end.

Definition saw_active (e : Event Deploy.Call) : bool :=
  match e with
  | Ev c r =>
      match c in Deploy.Call R return Reply R -> bool with
      | Deploy.GetFunction _ =>
          fun r => match r with
                   | Ret info => String.eqb (Deploy.State info) "Active"
                   | Err _ => false
                   end
      | _ => fun _ => false
      end r
  | Log _ => false
  end.

(** An account in which everything the script creates is there already:
    the buckets, the table with its stream, the role, the topic. *)
Definition second_run : Env Deploy.Call :=
  fun R h c =>
    match c in Deploy.Call R return Reply R with
    | Deploy.FileExists => Ret true
    | Deploy.ReadRecord => Ret Destroy.sample
    | Deploy.HeadBucket _ => Ret tt
    | Deploy.CreateTable _ =>
        Err (ClientError "ResourceInUseException" "CreateTable"
                         "Table already exists: Inventory")
    | Deploy.ListTopics => Ret [sns_topic_arn Destroy.sample]
    | Deploy.CreateFunction n _ _ _ =>
        Err (ClientError "ResourceConflictException" "CreateFunction"
                         "Function already exist")
    | c' => Deploy.academy h c'
    end.

(** Every failure of a call of the deployment is a [ClientError]. *)
Definition deploy_errors (env : Env Deploy.Call) : Prop :=
  forall R h (c : Deploy.Call R) e,
    env R h c = Err e -> except_ClientError e = true.

(** What [add_stream_trigger_to_lambda] does on the event source mappings
    before it creates the new one: it lists the old ones and deletes
    them. *)
Definition old_mapping_step (e : Event Deploy.Call) : bool :=
  match e with
  | Ev c _ =>
      match c with
      | Deploy.ListEventSourceMappings _ _
      | Deploy.DeleteEventSourceMapping _ => true
      | _ => false
      end
  | Log _ => false
  end.

(** A table that never had a stream: [describe_table] answers without
    ["LatestStreamArn"]. *)
Definition no_stream : Env Deploy.Call :=
  fun R h c =>
    match c in Deploy.Call R return Reply R with
    | Deploy.DescribeTable _ =>
        Ret (Deploy.mkTableInfo
               "arn:aws:dynamodb:us-east-1:123456789012:table/Inventory"
               false None)
    | c' => Deploy.academy h c'
    end.

(** The routes a trace asked to create: API, route key and target. *)
Definition route_of (e : Event Deploy.Call) : list (string * string * string) :=
  match e with
  | Ev c _ =>
      match c with Deploy.CreateRoute a k t => [(a, k, t)] | _ => [] end
  | Log _ => []
  end.

Definition routes_created (t : Trace Deploy.Call)
  : list (string * string * string) :=
  flat_map route_of t.

(** The APIs a trace asked to delete. *)
Definition deleted_api_of (e : Event Deploy.Call) : list string :=
  match e with
  | Ev c _ => match c with Deploy.DeleteApi a => [a] | _ => [] end
  | Log _ => []
  end.

Definition deleted_apis (t : Trace Deploy.Call) : list string :=
  flat_map deleted_api_of t.

(** The first block of [create_api_gateway], which deletes the APIs that
    carry the name of the one to create. *)
Definition stale_block (SUFFIX : string) : M Deploy.Call unit :=
  try_except
    (existing_apis <- call Deploy.GetApis ;;
     for_each (Deploy.or_empty existing_apis)
       (fun api =>
          if String.eqb (Deploy.Name api) ("inventory-api-" ++ SUFFIX)%string
          then call (Deploy.DeleteApi (Deploy.ApiId api))
          else ret tt))
    except_any
    (fun _ => ret tt).

(** The listed APIs that carry the name of the one to create. *)
Definition stale_apis (name : string) (apis : option (list Deploy.ApiInfo))
  : list string :=
  map Deploy.ApiId
      (filter (fun api => String.eqb (Deploy.Name api) name)
              (Deploy.or_empty apis)).

(** The [put_object] requests of a trace: bucket, key, body and content
    type. *)
Definition upload_call_of (e : Event Deploy.Call)
  : list (string * string * string * string) :=
  match e with
  | Ev c _ =>
      match c with Deploy.PutObject b k body ct => [(b, k, body, ct)] | _ => [] end
  | Log _ => []
  end.

Definition uploads (t : Trace Deploy.Call)
  : list (string * string * string * string) :=
  flat_map upload_call_of t.

(** What is uploaded for the file at [path] holding [file]: HTML that
    decodes gets the endpoint filled in, everything else goes as it is. *)
Definition upload_of (bucket api_endpoint : string) (path : string)
           (file : Deploy.FileData) : string * string * string * string :=
  let suffix := Py.path_suffix path in
  (bucket,
   Py.replace Deploy.backslash "/" path,
   (if String.eqb suffix ".html" && Deploy.utf8 file
    then Py.replace "REPLACE_WITH_API_ENDPOINT" api_endpoint (Deploy.data file)
    else Deploy.data file),
   Deploy.content_type_of suffix).

(** The refusals of [put_bucket_policy] that [upload_web_content] passes
    over. *)
Definition policy_refusal_tolerated (e : Exn) : bool :=
  except_ClientError e
  && (Py.contains "BlockPublicPolicy" (str_of_exn e)
      || Py.contains "AccessDenied" (str_of_exn e)).

Definition after_policy (web_url : string) (answer : Reply unit)
  : Outcome (option string) :=
  match answer with
  | Ret _ => Ok (Some web_url)
  | Err e => if policy_refusal_tolerated e then Ok (Some web_url) else Raise e
  end.

(** The suffix the script settles on at module level: that of the record
    when there is one, ["inventory-main"] otherwise. *)
Definition chosen_suffix (env : Env Deploy.Call) : string :=
  match env bool [] Deploy.FileExists with
  | Ret true =>
      match env Deployment [Ev Deploy.FileExists (Ret true)] Deploy.ReadRecord with
      | Ret existing => suffix existing
      | Err _ => "inventory-main"
      end
  | _ => "inventory-main"
  end.

(** The learner account, where the bucket policy is refused. *)
Definition policy_denied : Env Deploy.Call :=
  fun R h c =>
    match c in Deploy.Call R return Reply R with
    | Deploy.PutBucketPolicy _ _ =>
        Err (ClientError "AccessDenied" "PutBucketPolicy" "Access Denied")
    | c' => Deploy.academy h c'
    end.

(** An account with two APIs of the name to create and one other. *)
Definition stale_account : Env Deploy.Call :=
  fun R h c =>
    match c in Deploy.Call R return Reply R with
    | Deploy.GetApis =>
        Ret (Some [Deploy.mkApiInfo "inventory-api-inventory-main" "old1";
                   Deploy.mkApiInfo "billing-api" "keep";
                   Deploy.mkApiInfo "inventory-api-inventory-main" "old2"])
    | c' => Deploy.academy h c'
    end.

(* ====================================================================== *)
(** * What the runs of the validation show *)
(* ====================================================================== *)

(** How a run of the validation can end once the record is read: with
    status 0, or with an exception that is no [ClientError]. *)
Definition ends_well_or_unexpectedly (o : Outcome unit) : Prop :=
  match o with
  | Ok _ => True
  | Raise e => except_ClientError e = false
  | Exit _ => False
  | Diverge => False
  end.

(** The record is there, but the provider cannot be reached: every call
    made through boto3 fails before it gets an answer. *)
Definition offline : Env Validate.Call :=
  fun R h c =>
    match c in Validate.Call R return Reply R with
    | Validate.FileExists => Ret true
    | Validate.ReadRecord => Ret Destroy.sample
    | Validate.HeadBucket _ =>
        Err (OtherException "Could not connect to the endpoint URL")
    | c' => Validate.all_gone h c'
    end.

(** An answer to [add_permission] after which the script goes on: the
    permission was granted, or it was there already. *)
Definition permission_settled (p : Reply unit) : bool :=
  match p with
  | Ret _ => true
  | Err e =>
      except_ClientError e
      && Py.contains "ResourceConflictException" (str_of_exn e)
  end.

(* ********************************************************************** *)
(** * Properties *)
(* ********************************************************************** *)

(* ====================================================================== *)
(** * Facts about programs *)
(* ====================================================================== *)

Section EffectFacts.

Variable Call : Type -> Type.

Lemma bind_ok_inv (A B : Type) (m : M Call A) (k : A -> M Call B)
      (env : Env Call) (h : Trace Call) (b : B) (d : Trace Call) :
  bind m k env h = (Ok b, d) ->
  exists a d1 d2,
    m env h = (Ok a, d1) /\ k a env (h ++ d1) = (Ok b, d2) /\ d = d1 ++ d2.
Proof.
  unfold bind. destruct (m env h) as [[a | e | c |] d1]; try discriminate.
  destruct (k a env (h ++ d1)) as [o d2] eqn:K. intros [= -> <-].
  now exists a, d1, d2.
Qed.

Lemma bind_run (A B : Type) (m : M Call A) (k : A -> M Call B)
      (env : Env Call) (h : Trace Call) (a : A) (d1 : Trace Call) :
  m env h = (Ok a, d1) ->
  bind m k env h = (fst (k a env (h ++ d1)), d1 ++ snd (k a env (h ++ d1))).
Proof.
  unfold bind. intros ->. now destruct (k a env (h ++ d1)).
Qed.

Lemma for_fold_app (A S : Type) (body : A -> S -> M Call S)
      (l1 l2 : list A) (s : S) (env : Env Call) (h : Trace Call) :
  for_fold (l1 ++ l2) body s env h
  = bind (for_fold l1 body s) (fun s' => for_fold l2 body s') env h.
Proof.
  revert s h. induction l1 as [| x l1 IH]; intros s h; simpl.
  - unfold bind, ret. rewrite app_nil_r.
    now destruct (for_fold l2 body s env h).
  - unfold bind. destruct (body x s env h) as [[s1 | e | c |] d1]; auto.
    rewrite IH. unfold bind.
    destruct (for_fold l1 body s1 env (h ++ d1)) as [[s2 | e | c |] d2]; auto.
    rewrite <- !app_assoc.
    destruct (for_fold l2 body s2 env (h ++ d1 ++ d2)) as [o d3].
    now rewrite app_assoc.
Qed.



(** The events and the outcome of a sequence, a call and a guarded block,
    without taking the pair apart. *)

Lemma snd_bind (A B : Type) (m : M Call A) (k : A -> M Call B)
      (env : Env Call) (h : Trace Call) :
  snd (bind m k env h)
  = snd (m env h)
      ++ match fst (m env h) with
         | Ok a => snd (k a env (h ++ snd (m env h)))
         | _ => []
         end.
Proof.
  unfold bind. destruct (m env h) as [[a | e | c |] d]; simpl;
    try now rewrite app_nil_r.
  now destruct (k a env (h ++ d)).
Qed.

Lemma fst_bind (A B : Type) (m : M Call A) (k : A -> M Call B)
      (env : Env Call) (h : Trace Call) :
  fst (bind m k env h)
  = match fst (m env h) with
    | Ok a => fst (k a env (h ++ snd (m env h)))
    | Raise e => Raise e
    | Exit c => Exit c
    | Diverge => Diverge
    end.
Proof.
  unfold bind. destruct (m env h) as [[a | e | c |] d]; simpl; auto.
  now destruct (k a env (h ++ d)).
Qed.

Lemma snd_try_except (A : Type) (m : M Call A) (catches : Exn -> bool)
      (handler : Exn -> M Call A) (env : Env Call) (h : Trace Call) :
  snd (try_except m catches handler env h)
  = snd (m env h)
      ++ match fst (m env h) with
         | Raise e => if catches e
                      then snd (handler e env (h ++ snd (m env h)))
                      else []
         | _ => []
         end.
Proof.
  unfold try_except. destruct (m env h) as [[a | e | c |] d]; simpl;
    try now rewrite app_nil_r.
  destruct (catches e); [| now rewrite app_nil_r].
  now destruct (handler e env (h ++ d)).
Qed.

Lemma fst_try_except (A : Type) (m : M Call A) (catches : Exn -> bool)
      (handler : Exn -> M Call A) (env : Env Call) (h : Trace Call) :
  fst (try_except m catches handler env h)
  = match fst (m env h) with
    | Raise e => if catches e
                 then fst (handler e env (h ++ snd (m env h)))
                 else Raise e
    | o => o
    end.
Proof.
  unfold try_except. destruct (m env h) as [[a | e | c |] d]; simpl; auto.
  destruct (catches e); [| reflexivity].
  now destruct (handler e env (h ++ d)).
Qed.

Lemma snd_call (R : Type) (c : Call R) (env : Env Call) (h : Trace Call) :
  snd (call c env h) = [Ev c (env R h c)].
Proof. unfold call. now destruct (env R h c). Qed.

Lemma fst_call (R : Type) (c : Call R) (env : Env Call) (h : Trace Call) :
  fst (call c env h)
  = match env R h c with Ret r => Ok r | Err e => Raise e end.
Proof. unfold call. now destruct (env R h c). Qed.

Lemma emits_ret (A : Type) (P : Event Call -> Prop) (a : A) :
  emits P (ret a).
Proof. intros env h. constructor. Qed.

Lemma emits_raise (A : Type) (P : Event Call -> Prop) (e : Exn) :
  emits P (raise (A := A) e).
Proof. intros env h. constructor. Qed.

Lemma emits_sys_exit (A : Type) (P : Event Call -> Prop) (c : Z) :
  emits P (sys_exit (A := A) c).
Proof. intros env h. constructor. Qed.

Lemma emits_print (P : Event Call -> Prop) (line : string) :
  P (Log line) -> emits P (print line).
Proof. intros H env h. now repeat constructor. Qed.

Lemma emits_call (R : Type) (P : Event Call -> Prop) (c : Call R) :
  (forall r, P (Ev c r)) -> emits P (call c).
Proof. intros H env h. rewrite snd_call. now repeat constructor. Qed.

Lemma emits_bind (A B : Type) (P : Event Call -> Prop) (m : M Call A)
      (k : A -> M Call B) :
  emits P m -> (forall a, emits P (k a)) -> emits P (bind m k).
Proof.
  intros Hm Hk env h. rewrite snd_bind. apply Forall_app. split; [apply Hm |].
  destruct (fst (m env h)); try constructor. apply Hk.
Qed.

Lemma emits_try_except (A : Type) (P : Event Call -> Prop) (m : M Call A)
      (catches : Exn -> bool) (handler : Exn -> M Call A) :
  emits P m -> (forall e, emits P (handler e)) ->
  emits P (try_except m catches handler).
Proof.
  intros Hm Hh env h. rewrite snd_try_except. apply Forall_app.
  split; [apply Hm |].
  destruct (fst (m env h)); try constructor.
  destruct (catches e); [apply Hh | constructor].
Qed.

Lemma emits_for_each (A : Type) (P : Event Call -> Prop) (l : list A)
      (body : A -> M Call unit) :
  (forall x, emits P (body x)) -> emits P (for_each l body).
Proof.
  intros Hb. induction l as [| x l IH]; simpl.
  - apply emits_ret.
  - apply emits_bind; auto.
Qed.

End EffectFacts.

(** Decompose a goal [emits P m] along the structure of [m]. *)
Ltac emits_step :=
  match goal with
  | |- emits _ (bind _ _) => apply emits_bind; [| intros]
  | |- emits _ (try_except _ _ _) => apply emits_try_except; [| intros]
  | |- emits _ (for_each _ _) => apply emits_for_each; intros
  | |- emits _ (ret _) => apply emits_ret
  | |- emits _ (raise _) => apply emits_raise
  | |- emits _ (sys_exit _) => apply emits_sys_exit
  | |- emits _ (print _) => apply emits_print; reflexivity
  | |- emits _ (call _) =>
      apply emits_call; intros; simpl; first [reflexivity | assumption]
  | |- emits _ (if ?b then _ else _) => destruct b
  | |- emits _ (match ?x with _ => _ end) => destruct x
  end.
Ltac emits_auto := repeat emits_step.

(* ====================================================================== *)
(** * The notification function *)
(* ====================================================================== *)

Section NotifyFacts.

Import Notify.
Variable TOPIC_ARN : string.

Lemma publish_calls_app (t1 t2 : Trace Call) :
  publish_calls (t1 ++ t2) = publish_calls t1 ++ publish_calls t2.
Proof. apply flat_map_app. Qed.

Lemma delivered_app (t1 t2 : Trace Call) :
  delivered (t1 ++ t2) = delivered t1 + delivered t2.
Proof. unfold delivered. now rewrite map_app, list_sum_app. Qed.

(** One pass through the loop body, for a record the handler gets
    through. *)
Lemma process_record_integral (env : Env Call) (h : Trace Call)
      (record : StreamRecord) (n : nat) :
  readable record = true ->
  exists d,
    process_record TOPIC_ARN record n env h = (Ok (n + delivered d), d)
    /\ publish_calls d
       = if low_stock record then [alert_for TOPIC_ARN record] else [].
Proof.
  unfold readable, count_integral, low_stock, alert_for, new_count,
    process_record.
  destruct (is_insert_or_modify (eventName record)); simpl.
  - destruct (parse_count (new_image_of record)) as [z | e];
      [intros _ | discriminate].
    destruct (z <? LOW_STOCK_THRESHOLD)%Z.
    + unfold try_except, bind, call, ret.
      match goal with |- context [env unit h ?c] =>
        destruct (env unit h c) as [[] | e] end.
      * match goal with |- exists d, (_, ?t) = _ /\ _ => exists t end.
        now split.
      * simpl;
          match goal with |- exists d, (_, ?t) = _ /\ _ => exists t end;
          (split; [simpl; rewrite Nat.add_0_r |]); reflexivity.
    + exists []. unfold ret. now rewrite Nat.add_0_r.
  - intros _. exists []. unfold ret. now rewrite Nat.add_0_r.
Qed.

Lemma records_loop_integral (env : Env Call) (records : list StreamRecord) :
  forallb readable records = true ->
  forall (h : Trace Call) (n : nat),
  exists d,
    for_fold records (process_record TOPIC_ARN) n env h
    = (Ok (n + delivered d), d)
    /\ publish_calls d
       = map (alert_for TOPIC_ARN) (filter low_stock records).
Proof.
  induction records as [| r records IH]; simpl; intros Hall h n.
  - exists []. unfold ret. now rewrite Nat.add_0_r.
  - apply andb_prop in Hall as [Hr Hall].
    destruct (process_record_integral env h r n Hr) as (d1 & E1 & P1).
    destruct (IH Hall (h ++ d1) (n + delivered d1)) as (d2 & E2 & P2).
    exists (d1 ++ d2). split.
    + unfold bind. rewrite E1, E2. now rewrite delivered_app, Nat.add_assoc.
    + rewrite publish_calls_app, P1, P2. now destruct (low_stock r).
Qed.

End NotifyFacts.

Section NotifyClaims.

Import Notify.

Lemma low_stock_remove (record : StreamRecord) :
  eventName record = "REMOVE" -> low_stock record = false.
Proof. unfold low_stock. now intros ->. Qed.

Lemma low_stock_at_or_above (record : StreamRecord) (z : Z) :
  new_count record = Some z -> (50 <= z)%Z -> low_stock record = false.
Proof.
  unfold low_stock, LOW_STOCK_THRESHOLD. intros -> Hz.
  apply andb_false_intro2. now apply Z.ltb_ge.
Qed.


(** C3, as the specification states it, fails: the first record of
    [fractional_batch] carries the Count 60.5, on which [int] raises; the
    handler answers 500 and never reaches the second record, an INSERT with
    Count 10, so nothing is published for it. *)
Lemma notify_stream_gate_fails_on_fraction :
  low_stock (change "INSERT" "Berlin" "Widget-002" (Some "10")) = true
  /\ publish_calls (snd (run (lambda_handler "arn:topic" fractional_batch)
                             sns_up)) = []
  /\ ~ stream_gate "arn:topic" sns_up fractional_batch.
Proof.
  split; [reflexivity |]. split; [reflexivity |].
  unfold stream_gate. vm_compute. discriminate.
Qed.

(** C3 (amended): for every batch in which the Count of each INSERT or
    MODIFY record, where present, is an integer literal, the handler calls
    [sns.publish] exactly once for each INSERT or MODIFY record whose new
    Count is below 50, in order, and not at all for REMOVE records, other
    event types or a Count of 50 or more; it answers 200 and reports the
    number of publications that succeeded. *)
Theorem notify_stream_gate_integral (TOPIC_ARN : string) (env : Env Call)
        (event : StreamEvent) :
  forallb readable (records_of event) = true ->
  stream_gate TOPIC_ARN env event
  /\ exists d,
       run (lambda_handler TOPIC_ARN event) env
       = (Ok (mkResponse 200 (summary (delivered d))), d).
Proof.
  intros Hall.
  destruct (records_loop_integral TOPIC_ARN env _ Hall [] 0)
    as (d & E & P).
  unfold stream_gate, run, lambda_handler, try_except, bind.
  fold (records_of event). rewrite E. simpl. rewrite app_nil_r.
  split; [exact P | now exists d].
Qed.

Lemma notify_stream_gate_integral_witness :
  forallb readable (records_of sample_batch) = true
  /\ stream_gate "arn:topic" sns_down sample_batch
  /\ length (filter low_stock (records_of sample_batch)) = 2.
Proof.
  split; [reflexivity |]. split; [| reflexivity].
  apply (notify_stream_gate_integral "arn:topic" sns_down sample_batch).
  reflexivity.
Defined.

End NotifyClaims.

Section NotifyMissingCount.

Import Notify.




End NotifyMissingCount.

(* ====================================================================== *)
(** * The ingestion function *)
(* ====================================================================== *)

Section LoadFacts.

Import Load.

Variable strip : string -> string.
Variable int : string -> option Z.

Lemma process_row_spec (env : Env Call) (row : Row) (n : nat)
      (h : Trace Call) :
  put_item_ok env ->
  process_row strip int row n env h
  = if row_valid int row then (Ok (n + 1), [Ev (put_of strip int row) (Ret tt)])
    else (Ok n, []).
Proof.
  intros put_ok.
  unfold process_row, row_valid, present, put_of, field_or_empty,
    stripped_field, count_field.
  destruct (Py.dict_get row "Store") as [[store |] |]; try reflexivity.
  destruct (Py.dict_get row "Item") as [[item |] |]; try reflexivity.
  destruct (Py.dict_get row "Count") as [[c |] |]; try reflexivity.
  destruct (int c) as [z |]; try reflexivity.
  unfold try_except, bind, ret, call. simpl.
  now rewrite put_ok.
Qed.

Lemma rows_loop_spec (env : Env Call) (rows : list Row) :
  put_item_ok env ->
  forall (n : nat) (h : Trace Call),
    for_fold rows (process_row strip int) n env h
    = (Ok (n + length (filter (row_valid int) rows)),
       map (fun r => Ev (put_of strip int r) (Ret tt)) (filter (row_valid int) rows)).
Proof.
  intros put_ok.
  induction rows as [| row rows IH]; intros n h; simpl.
  - unfold ret. now rewrite Nat.add_0_r.
  - unfold bind. rewrite process_row_spec by exact put_ok.
    destruct (row_valid int row); rewrite IH; simpl.
    + f_equal. f_equal. lia.
    + reflexivity.
Qed.

End LoadFacts.

Section LoadClaims.

Import Load.

(** C6: for one uploaded CSV, the handler calls [put_item] for every row
    the reader yields that has its three fields and a Count [int] accepts,
    in order, and skips every other row without failing.  When the reader
    gets to the end of the text the answer is 200 with the number of rows
    inserted; when the reader itself raises on a line, the rows before that
    line have been handled in the same way and the answer is 500 with the
    text of the reader's error. *)
Theorem load_skips_malformed_rows (DictReader : string -> Reading)
        (strip : string -> string) (int : string -> option Z)
        (env : Env Call) (record : S3Record) (content : string) :
  (forall h, env string h (GetObject (bucket_name record) (object_key record))
             = Ret content) ->
  (forall h store item count,
      env unit h (PutItem store item count) = Ret tt) ->
  let valid := filter (row_valid int) (yielded (DictReader content)) in
  run (lambda_handler DictReader strip int (mkEvent (Some [record]))) env
  = (Ok match stopped (DictReader content) with
        | None => mkResponse 200 (success (length valid))
        | Some e => mkResponse 500 (JObj [("error", JStr (str_of_exn e))])
        end,
     Ev (GetObject (bucket_name record) (object_key record)) (Ret content)
        :: map (fun r => Ev (put_of strip int r) (Ret tt)) valid).
Proof.
  intros Hget Hput valid.
  unfold run, lambda_handler, try_except, bind at 1. simpl.
  unfold bind at 1, process_object, bind at 1, call. rewrite Hget.
  unfold bind. rewrite (rows_loop_spec _ _ _ Hput). simpl.
  fold valid.
  destruct (stopped (DictReader content)) as [e |]; simpl;
    now rewrite !app_nil_r.
Qed.

(** Three valid rows and one with the Count "abc", or one without its
    Count: three insertions.  A carriage return in the middle of the second
    row: one insertion, then 500. *)
Lemma load_skips_malformed_rows_witness :
  length (yielded (simple_DictReader sample_csv)) = 4
  /\ length (filter (row_valid Py.int_of_str)
                    (yielded (simple_DictReader sample_csv))) = 3
  /\ fst (run (lambda_handler simple_DictReader Py.strip Py.int_of_str
                 (mkEvent (Some [upload])))
              (serving sample_csv))
     = Ok (mkResponse 200
             (JObj [("message", JStr "CSV procesado exitosamente");
                    ("items_inserted", JInt 3)]))
  /\ length (yielded (simple_DictReader short_row_csv)) = 4
  /\ fst (run (lambda_handler simple_DictReader Py.strip Py.int_of_str
                 (mkEvent (Some [upload])))
              (serving short_row_csv))
     = Ok (mkResponse 200
             (JObj [("message", JStr "CSV procesado exitosamente");
                    ("items_inserted", JInt 3)]))
  /\ run (lambda_handler simple_DictReader Py.strip Py.int_of_str
            (mkEvent (Some [upload])))
         (serving stray_cr_csv)
     = (Ok (mkResponse 500 (JObj [("error", JStr (str_of_exn csv_error))])),
        [Ev (GetObject (bucket_name upload) (object_key upload))
            (Ret stray_cr_csv);
         Ev (PutItem "Berlin" "Widget-001" 100) (Ret tt)]).
Proof.
  split; [reflexivity |]. split; [reflexivity |]. split; [| split; [| split]].
  - rewrite (load_skips_malformed_rows simple_DictReader Py.strip Py.int_of_str
               (serving sample_csv) upload (content := sample_csv)
               (fun _ => eq_refl) (fun _ _ _ _ => eq_refl)).
    reflexivity.
  - reflexivity.
  - rewrite (load_skips_malformed_rows simple_DictReader Py.strip Py.int_of_str
               (serving short_row_csv) upload (content := short_row_csv)
               (fun _ => eq_refl) (fun _ _ _ _ => eq_refl)).
    reflexivity.
  - rewrite (load_skips_malformed_rows simple_DictReader Py.strip Py.int_of_str
               (serving stray_cr_csv) upload (content := stray_cr_csv)
               (fun _ => eq_refl) (fun _ _ _ _ => eq_refl)).
    reflexivity.
Defined.

(** C9: with no record to process the local [items_inserted] is never
    bound; building the success response raises, and the handler answers
    500. *)
Theorem load_empty_records_is_500 (DictReader : string -> Reading)
        (strip : string -> string) (int : string -> option Z)
        (env : Env Call) (event : S3Event) :
  Records event = Some [] \/ Records event = None ->
  run (lambda_handler DictReader strip int event) env
  = (Ok (mkResponse 500
           (JObj [("error", JStr (str_of_exn unbound_items_inserted))])),
     []).
Proof.
  unfold run, lambda_handler. now intros [-> | ->].
Qed.

Lemma load_empty_records_is_500_witness :
  fst (run (lambda_handler simple_DictReader Py.strip Py.int_of_str
              (mkEvent (Some [])))
           (serving sample_csv))
  = Ok (mkResponse 500
          (JObj [("error", JStr (str_of_exn unbound_items_inserted))])).
Proof.
  rewrite (load_empty_records_is_500 simple_DictReader Py.strip Py.int_of_str
             (serving sample_csv) (mkEvent (Some [])) (or_introl eq_refl)).
  reflexivity.
Defined.

End LoadClaims.

(* ====================================================================== *)
(** * The query function *)
(* ====================================================================== *)

Section ApiFacts.

Import Api.

Variable rows : list InventoryItem.
Variable page : nat.
Hypothesis page_positive : 1 <= page.

Lemma table_scan (start : option Key) (h : Trace Call) :
  table rows page h (Scan start)
  = Ret (scan_page rows page (match start with Some k => k | None => 0 end)).
Proof. reflexivity. Qed.

(** Following the resume tokens collects the rest of the table. *)
Lemma scan_more_table (fuel : nat) :
  forall (off : nat) (acc : list InventoryItem) (h : Trace Call),
    length rows <= off + page + fuel * page ->
    exists d,
      scan_more fuel (scan_page rows page off) acc (table rows page) h
      = (Ok (acc ++ skipn (off + page) rows), d).
Proof.
  induction fuel as [| fuel IH]; intros off acc h Hfuel.
  - unfold scan_more, scan_page. simpl LastEvaluatedKey.
    destruct (Nat.ltb_spec (off + page) (length rows)) as [Hlt | Hge];
      [lia |].
    exists []. unfold ret. simpl.
    now rewrite (skipn_all2 (n := off + page) rows), app_nil_r by lia.
  - simpl scan_more.
    destruct (Nat.ltb_spec (off + page) (length rows)) as [Hlt | Hge].
    + unfold bind, call. rewrite table_scan.
      match goal with
      | |- context [scan_more fuel (scan_page rows page ?o) ?a ?e ?hh] =>
          destruct (IH o a hh) as (d & E); [simpl; lia |]; rewrite E
      end.
      eexists. f_equal. f_equal.
      unfold scan_page. simpl. rewrite <- app_assoc. f_equal.
      rewrite (Nat.add_comm (off + page) page).
      rewrite <- (skipn_skipn page (off + page) rows).
      apply firstn_skipn.
    + exists []. unfold ret.
      now rewrite (skipn_all2 (n := off + page) rows), app_nil_r by lia.
Qed.

Lemma get_all_items_table (fuel : nat) (h : Trace Call) :
  length rows <= page + fuel * page ->
  exists d,
    get_all_items fuel (table rows page) h
    = (Ok (mkResponse 200
             (JObj [("items", JArr (map json_of_item rows));
                    ("count", JInt (Z.of_nat (length rows)))])), d).
Proof.
  intros Hfuel. unfold get_all_items, try_except, bind at 1, call.
  rewrite table_scan. unfold bind.
  match goal with
  | |- context [scan_more fuel (scan_page rows page ?o) ?a ?e ?hh] =>
      destruct (scan_more_table fuel o a hh) as (d & E);
        [simpl; lia |]; rewrite E
  end.
  unfold scan_page. simpl.
  rewrite firstn_skipn. now eexists.
Qed.

Lemma get_items_by_store_table (store : string) (h : Trace Call) :
  let found :=
    firstn page (filter (fun i => String.eqb (Store i) store) rows) in
  exists d,
    get_items_by_store store (table rows page) h
    = (Ok (mkResponse 200
             (JObj [("store", JStr store);
                    ("items", JArr (map json_of_item found));
                    ("count", JInt (Z.of_nat (length found)))])), d).
Proof.
  intros found. unfold get_items_by_store, try_except, bind, call.
  simpl. now eexists.
Qed.

End ApiFacts.

Lemma In_firstn (A : Type) (n : nat) (l : list A) (x : A) :
  In x (firstn n l) -> In x l.
Proof.
  revert l. induction n as [| n IH]; intros [| y l]; simpl; try tauto.
  intros [-> | H]; [now left | right; now apply IH].
Qed.

Section PyStrings.

Lemma prefix_append (n post : string) : prefix n (n ++ post)%string = true.
Proof.
  induction n as [| a n IH]; simpl; [now destruct post |].
  destruct (ascii_dec a a) as [_ | Hne]; [exact IH | now elim Hne].
Qed.

(** [needle in pre + needle + post] *)
Lemma contains_append (needle pre post : string) :
  Py.contains needle (pre ++ needle ++ post)%string = true.
Proof.
  assert (Hc : forall hay, prefix needle hay = true ->
                           Py.contains needle hay = true).
  { intros [| c r] H; cbn [Py.contains]; now rewrite H. }
  induction pre as [| c pre IH].
  - cbn [append]. apply Hc, prefix_append.
  - cbn [append Py.contains]. rewrite IH. apply orb_true_r.
Qed.

Lemma rev_string_onto_twice (s : string) :
  forall acc t : string,
    Py.rev_string_onto (Py.rev_string_onto s acc) t
    = Py.rev_string_onto acc (s ++ t)%string.
Proof.
  induction s as [| c s IH]; intros acc t; simpl; [reflexivity |].
  now rewrite IH.
Qed.

Lemma append_empty_r (s : string) : (s ++ "")%string = s.
Proof. induction s as [| c s IH]; simpl; [| rewrite IH]; reflexivity. Qed.

Lemma rev_string_involutive (s : string) : Py.rev_string (Py.rev_string s) = s.
Proof.
  unfold Py.rev_string. rewrite rev_string_onto_twice. simpl.
  apply append_empty_r.
Qed.

Lemma contains_char_cons (sep c : ascii) (r : string) :
  Py.contains (String sep "") (String c r) = false ->
  Ascii.eqb c sep = false /\ Py.contains (String sep "") r = false.
Proof.
  simpl. destruct (ascii_dec sep c) as [<- | Hne].
  - destruct r; discriminate.
  - simpl. intros H. split; [| exact H].
    apply Ascii.eqb_neq. intros ->. now elim Hne.
Qed.

(** A string without the separator is one field. *)
Lemma split_onto_no_sep (sep : ascii) (s : string) :
  forall cur : string,
    Py.contains (String sep "") s = false ->
    Py.split_onto sep s cur = [Py.rev_string (Py.rev_string_onto s cur)].
Proof.
  induction s as [| c s IH]; intros cur H; [reflexivity |].
  apply contains_char_cons in H as [Hc Hs].
  simpl. rewrite Hc. now apply IH.
Qed.

Lemma split_no_sep (sep : ascii) (s : string) :
  Py.contains (String sep "") s = false -> Py.split sep s = [s].
Proof.
  intros H. unfold Py.split. rewrite split_onto_no_sep by exact H.
  change (Py.rev_string_onto s "") with (Py.rev_string s).
  now rewrite rev_string_involutive.
Qed.

(** [(a + sep + b).split(sep) == a.split(sep) + b.split(sep)] *)
Lemma split_onto_append (sep : ascii) (a b : string) :
  forall cur : string,
    Py.split_onto sep (a ++ String sep b)%string cur
    = Py.split_onto sep a cur ++ Py.split_onto sep b "".
Proof.
  induction a as [| c a IH]; intros cur; simpl.
  - now rewrite Ascii.eqb_refl.
  - destruct (Ascii.eqb c sep); [simpl; f_equal |]; apply IH.
Qed.

Lemma split_onto_nonempty (sep : ascii) (s : string) :
  forall cur : string, 1 <= length (Py.split_onto sep s cur).
Proof.
  induction s as [| c s IH]; intros cur; simpl; [apply Nat.le_refl |].
  destruct (Ascii.eqb c sep); [simpl; apply le_n_S, Nat.le_0_l | apply IH].
Qed.

Lemma append_assoc (a b c : string) :
  ((a ++ b) ++ c)%string = (a ++ (b ++ c))%string.
Proof. induction a as [| x a IH]; simpl; [| rewrite IH]; reflexivity. Qed.

(** The fields of [pre + "/items/" + store]. *)
Lemma split_items_path (pre store : string) :
  Py.contains "/" store = false ->
  Py.split "/" (pre ++ "/items/" ++ store)%string
  = Py.split "/" pre ++ ["items"; store].
Proof.
  intros H. unfold Py.split.
  change (pre ++ "/items/" ++ store)%string
    with (pre ++ String "/" ("items" ++ String "/" store))%string.
  rewrite split_onto_append.
  change (Py.split_onto "/" ("items" ++ String "/" store) "")
    with (Py.split_onto "/" ("items" ++ String "/" store)%string "").
  rewrite split_onto_append.
  fold (Py.split "/" store). rewrite (split_no_sep "/" store H).
  reflexivity.
Qed.

Lemma prefix_inv (n h : string) :
  prefix n h = true -> exists post, h = (n ++ post)%string.
Proof.
  revert h. induction n as [| a n IH]; intros h H.
  - now exists h.
  - destruct h as [| b h]; [discriminate H |]. simpl in H.
    destruct (ascii_dec a b) as [<- | _]; [| discriminate H].
    destruct (IH h H) as (post & ->). now exists post.
Qed.

(** [needle in hay] gives the text around the needle. *)
Lemma contains_inv (needle hay : string) :
  Py.contains needle hay = true ->
  exists pre post, hay = (pre ++ needle ++ post)%string.
Proof.
  induction hay as [| c r IH]; cbn [Py.contains]; intros H.
  - rewrite orb_false_r in H. destruct (prefix_inv _ _ H) as (post & E).
    now exists ""%string, post.
  - apply orb_true_iff in H as [H | H].
    + destruct (prefix_inv _ _ H) as (post & E). now exists ""%string, post.
    + destruct (IH H) as (pre & post & ->). now exists (String c pre), post.
Qed.

Lemma contains_shorter (a b hay : string) :
  Py.contains (a ++ b) hay = true -> Py.contains a hay = true.
Proof.
  intros H. destruct (contains_inv _ _ H) as (pre & post & ->).
  rewrite append_assoc. apply contains_append.
Qed.

(** A path with [/items/] in it has three segments or more. *)
Lemma split_items_length (path : string) :
  Py.contains "/items/" path = true -> 3 <= length (Py.split "/" path).
Proof.
  intros H. destruct (contains_inv _ _ H) as (pre & post & ->).
  unfold Py.split.
  change (pre ++ "/items/" ++ post)%string
    with (pre ++ String "/" ("items" ++ String "/" post))%string.
  rewrite !split_onto_append, !length_app.
  pose proof (split_onto_nonempty "/" pre "").
  pose proof (split_onto_nonempty "/" "items" "").
  pose proof (split_onto_nonempty "/" post "").
  lia.
Qed.

End PyStrings.

Section ApiClaims.

Import Api.

(** Where the handler takes the store from: the path parameters when they
    name a store, else the last segment of a raw path with [/items/] in
    it. *)
Lemma store_of_cases (event : HttpEvent) :
  store_of event
  = if negb (truthy (store_param event))
       && Py.contains "/items/" (path_of event)
    then Some (last (Py.split "/" (path_of event)) "")
    else store_param event.
Proof.
  unfold store_of, store_param, path_of.
  set (path := match rawPath event with Some p => p | None => "" end).
  assert (Hdict :
    match match pathParameters event with Some d => d | None => [] end with
    | [] => None
    | _ :: _ =>
        match Py.dict_get
                match pathParameters event with Some d => d | None => [] end
                "store" with
        | Some s => Some s
        | None => None
        end
    end
    = match pathParameters event with
      | Some d => Py.dict_get d "store"
      | None => None
      end).
  { destruct (pathParameters event) as [[| kv d] |]; try reflexivity.
    now destruct (Py.dict_get (kv :: d) "store"). }
  rewrite Hdict.
  destruct (negb (truthy match pathParameters event with
                         | Some d => Py.dict_get d "store"
                         | None => None
                         end)); [| reflexivity].
  cbn [andb].
  destruct (Py.contains "/items/" path) eqn:Hitems; [| reflexivity].
  apply split_items_length in Hitems.
  now apply Nat.leb_le in Hitems as ->.
Qed.

(** The answer to a request for which the handler finds a store. *)
Lemma store_request_answer (rows : list InventoryItem) (page fuel : nat)
      (event : HttpEvent) (store : string) :
  store_of event = Some store -> store <> "" ->
  fst (run (lambda_handler fuel event) (table rows page))
  = Ok (store_items_response store
          (firstn page (filter (in_store store) rows))).
Proof.
  intros Hstore Hne. unfold run, lambda_handler. rewrite Hstore.
  assert (truthy (Some store) = true) as -> by now destruct store.
  destruct (get_items_by_store_table rows page store []) as (d & E).
  now rewrite E.
Qed.

Lemma found_in_store (rows : list InventoryItem) (page : nat)
      (store : string) :
  let found := firstn page (filter (in_store store) rows) in
  Forall (fun i => Store i = store) found
  /\ (length (filter (in_store store) rows) <= page ->
      found = filter (in_store store) rows).
Proof.
  intros found. split.
  - apply Forall_forall. intros i Hi.
    apply In_firstn, filter_In in Hi as [_ Hi].
    now apply String.eqb_eq.
  - intros Hfit. now apply firstn_all2.
Qed.

(** C7, as the specification states it, fails: [/v2/items] matches
    neither route, yet it contains "/items" and the handler answers 200
    with all the records. *)
Lemma api_unrouted_path_gets_items :
  ~ unrouted_is_404 (table stock 5) 5
      (get "/v2/items" "GET /v2/items" None).
Proof.
  unfold unrouted_is_404. intros H.
  destruct (H eq_refl) as (r & E & S404).
  vm_compute in E. injection E as <-. discriminate S404.
Qed.

(** C7 (amended): over a table holding [rows],
    - a request whose path parameters name a non-empty store is answered
      with records of that store only and their number as [count], which
      are all the records of the store when these fit in one response of the
      table;
    - a request whose path parameters name no store and whose raw path is
      [<prefix>/items/<store>], with a non-empty last segment, is answered
      in the same way for that segment;
    - a request that names no store in either way and whose route key or
      raw path contains "/items" is answered with all the records and their
      number as [count];
    - a request whose path parameters name no store and in which neither
      the route key nor the raw path contains "/items" is answered with the
      404 error body. *)
Theorem api_routing (rows : list InventoryItem) (page fuel : nat) :
  1 <= page ->
  length rows <= page + fuel * page ->
  (forall event store,
      store_param event = Some store -> store <> "" ->
      let found := firstn page (filter (in_store store) rows) in
      fst (run (lambda_handler fuel event) (table rows page))
      = Ok (store_items_response store found)
      /\ Forall (fun i => Store i = store) found
      /\ (length (filter (in_store store) rows) <= page ->
          found = filter (in_store store) rows))
  /\ (forall event pre store,
         truthy (store_param event) = false ->
         rawPath event = Some (pre ++ "/items/" ++ store)%string ->
         store <> "" -> Py.contains "/" store = false ->
         let found := firstn page (filter (in_store store) rows) in
         fst (run (lambda_handler fuel event) (table rows page))
         = Ok (store_items_response store found)
         /\ Forall (fun i => Store i = store) found
         /\ (length (filter (in_store store) rows) <= page ->
             found = filter (in_store store) rows))
  /\ (forall event,
         truthy (store_param event) = false ->
         Py.contains "/items/" (path_of event) = false
         \/ last (Py.split "/" (path_of event)) "" = ""%string ->
         Py.contains "/items" (route_key_of event)
           || Py.contains "/items" (path_of event) = true ->
         fst (run (lambda_handler fuel event) (table rows page))
         = Ok (all_items_response rows))
  /\ (forall event,
         truthy (store_param event) = false ->
         Py.contains "/items" (route_key_of event)
           || Py.contains "/items" (path_of event) = false ->
         run (lambda_handler fuel event) (table rows page)
         = (Ok (not_found (path_of event)), [])).
Proof.
  intros Hpage Hfuel. split; [| split; [| split]].
  - intros event store Hparam Hne found.
    split; [| apply found_in_store].
    apply store_request_answer; [| exact Hne].
    rewrite store_of_cases, Hparam.
    assert (truthy (Some store) = true) as -> by now destruct store.
    reflexivity.
  - intros event pre store Hparam Hpath Hne Hslash found.
    split; [| apply found_in_store].
    apply store_request_answer; [| exact Hne].
    rewrite store_of_cases, Hparam. unfold path_of. rewrite Hpath.
    rewrite (contains_append "/items/" pre store). cbn [negb andb].
    rewrite (@split_items_path pre store Hslash).
    change (Py.split "/" pre ++ ["items"; store])
      with (Py.split "/" pre ++ ["items"] ++ [store]).
    now rewrite app_assoc, last_last.
  - intros event Hparam Hpath Hitems.
    assert (Hstore : truthy (store_of event) = false).
    { rewrite store_of_cases, Hparam. cbn [negb andb].
      destruct (Py.contains "/items/" (path_of event)) eqn:Hin;
        [| exact Hparam].
      destruct Hpath as [Hno | ->]; [discriminate Hno | reflexivity]. }
    unfold run, lambda_handler. rewrite Hstore.
    fold (route_key_of event) (path_of event). rewrite Hitems.
    destruct (get_all_items_table rows Hpage fuel [] Hfuel) as (d & E).
    now rewrite E.
  - intros event Hparam Hitems.
    assert (Hstore : truthy (store_of event) = false).
    { rewrite store_of_cases, Hparam. cbn [negb andb].
      destruct (Py.contains "/items/" (path_of event)) eqn:Hin;
        [| exact Hparam].
      apply (contains_shorter "/items" "/") in Hin.
      apply orb_false_elim in Hitems as [_ Hitems]. congruence. }
    unfold run, lambda_handler. rewrite Hstore.
    fold (route_key_of event) (path_of event). now rewrite Hitems.
Qed.

(** [GET /items/Berlin] with the path parameter, and with the raw path
    alone under a stage prefix, over five records, three of them in Berlin;
    [GET /items]; and an unknown path. *)
Lemma api_routing_witness :
  fst (run (lambda_handler 5
              (get "/items/Berlin" "GET /items/{store}"
                   (Some [("store", "Berlin")])))
           (table stock 5))
  = Ok (store_items_response "Berlin"
          [mkItem "Berlin" "Widget-001" 100;
           mkItem "Berlin" "Widget-002" 40;
           mkItem "Berlin" "Widget-003" 55])
  /\ fst (run (lambda_handler 5 (get "/prod/items/Berlin" "$default" None))
              (table stock 5))
     = Ok (store_items_response "Berlin"
             [mkItem "Berlin" "Widget-001" 100;
              mkItem "Berlin" "Widget-002" 40;
              mkItem "Berlin" "Widget-003" 55])
  /\ fst (run (lambda_handler 5 (get "/items" "GET /items" None))
              (table stock 5))
     = Ok (all_items_response stock)
  /\ fst (run (lambda_handler 5 (get "/health" "GET /health" None))
              (table stock 5))
     = Ok (not_found "/health").
Proof.
  assert (H1 : 1 <= 5) by (apply Nat.leb_le; reflexivity).
  assert (H2 : length stock <= 5 + 5 * 5) by (apply Nat.leb_le; reflexivity).
  destruct (@api_routing stock 5 5 H1 H2)
    as (Hparam & Hpath & Hall & Hnone).
  split; [| split; [| split]].
  - exact (proj1 (Hparam (get "/items/Berlin" "GET /items/{store}"
                              (Some [("store", "Berlin")]))
                         "Berlin" eq_refl ltac:(discriminate))).
  - exact (proj1 (Hpath (get "/prod/items/Berlin" "$default" None)
                        "/prod" "Berlin" eq_refl eq_refl
                        ltac:(discriminate) eq_refl)).
  - exact (Hall (get "/items" "GET /items" None) eq_refl
                (or_introl eq_refl) eq_refl).
  - now rewrite (Hnone (get "/health" "GET /health" None) eq_refl eq_refl).
Defined.

End ApiClaims.

(* ====================================================================== *)
(** * Teardown *)
(* ====================================================================== *)

Section DestroyOrder.

Import Destroy.

Lemma unlink_first_cons (e : Event Call) (t : Trace Call) :
  local_event e -> unlink_first t -> unlink_first (e :: t).
Proof.
  intros He [Hall | (pre & r & post & -> & Hpre)].
  - left. now constructor.
  - right. exists (e :: pre), r, post. split; [reflexivity | now constructor].
Qed.

Lemma unlink_first_before_cloud (t : Trace Call) :
  unlink_first t ->
  forall pre e post,
    t = pre ++ e :: post -> is_cloud_event e = true ->
    exists r, In (Ev Unlink r) pre.
Proof.
  intros [Hall | (pre0 & r & post0 & -> & Hpre0)] pre e post Heq He.
  - subst t. apply Forall_app in Hall as [_ Hall].
    apply Forall_inv in Hall. unfold local_event in Hall. congruence.
  - exists r. revert pre Heq.
    induction Hpre0 as [| x pre0 Hx Hpre0 IH]; intros [| y pre] Heq;
      simpl in Heq; injection Heq as Hhd Htl.
    + subst e. discriminate He.
    + subst y. now left.
    + subst e. unfold local_event in Hx. congruence.
    + right. now apply IH.
Qed.

(** After local steps and a removal that was carried out, every later
    event has that removal before it. *)
Lemma local_prefix_then (before rest : Trace Call) :
  Forall local_event before ->
  forall pre e post,
    before ++ Ev Unlink (Ret tt) :: rest = pre ++ e :: post ->
    is_cloud_event e = true ->
    In (Ev Unlink (Ret tt)) pre.
Proof.
  induction 1 as [| x before Hx _ IH]; intros [| y pre] e post Heq He;
    simpl in Heq; injection Heq as Hhd Htl.
  - subst e. discriminate He.
  - subst y. now left.
  - subst e. unfold local_event in Hx. congruence.
  - right. now apply (IH pre e post).
Qed.

Variables REGION config_file : string.

Lemma preamble_local (config : Deployment) :
  Forall local_event (preamble REGION config_file config).
Proof. unfold preamble. repeat constructor. Qed.

(** The guarded block of [main] starts with the removal of the record
    and, whatever comes of it, goes on with the first function. *)
Lemma main_confirmed_trace (env : Env Call) (h : Trace Call)
      (line name : string) (rest : M Call unit)
      (handler : Exn -> M Call unit) :
  exists r' post,
    snd (try_except
           (print line ;;
            try_except
              (call Unlink ;; print "    ✓ Archivo de configuración eliminado")
              except_any (fun _ => ret tt) ;;
            delete_lambda name ;;
            rest)
           except_Exception handler env h)
    = Log line
        :: Ev Unlink (env unit (h ++ [Log line]) Unlink)
        :: record_notice (env unit (h ++ [Log line]) Unlink)
        ++ Log (Py.nl ++ "[*] Eliminando Lambda: " ++ name ++ "...")%string
        :: Ev (ListEventSourceMappings name) r'
        :: post.
Proof.
  rewrite snd_try_except, snd_bind. simpl snd at 1. simpl fst at 2.
  rewrite snd_bind.
  assert (Hunlink :
    forall h1,
      try_except
        (call Unlink ;; print "    ✓ Archivo de configuración eliminado")
        except_any (fun _ => ret tt) env h1
      = (Ok tt, Ev Unlink (env unit h1 Unlink)
                   :: record_notice (env unit h1 Unlink))).
  { intros h1. unfold try_except, bind, call, print.
    now destruct (env unit h1 Unlink) as [[] | e]. }
  rewrite Hunlink. cbn [fst snd].
  unfold delete_lambda at 1.
  rewrite snd_bind, snd_bind. simpl snd at 1. simpl fst at 1.
  rewrite snd_try_except, snd_bind, snd_try_except, snd_bind, snd_call.
  cbn [app]. rewrite <- !app_assoc. cbn [app].
  do 2 eexists. reflexivity.
Qed.

Lemma script_unlink_first (env : Env Call) :
  unlink_first (snd (run (script REGION config_file) env)).
Proof.
  unfold run, script.
  rewrite snd_bind. simpl. apply unlink_first_cons; [reflexivity |].
  rewrite snd_bind, snd_call, fst_call. simpl.
  apply unlink_first_cons; [reflexivity |].
  destruct (env bool _ FileExists) as [[|] | e]; simpl;
    [| left; repeat constructor | left; constructor].
  rewrite snd_bind, snd_call, fst_call. simpl.
  apply unlink_first_cons; [reflexivity |].
  destruct (env Deployment _ ReadRecord) as [config | e]; [| left; constructor].
  unfold main.
  do 11 (rewrite snd_bind; simpl; apply unlink_first_cons; [reflexivity |]).
  rewrite snd_bind, snd_call, fst_call. simpl.
  apply unlink_first_cons; [reflexivity |].
  destruct (env string _ (Confirm prompt)) as [response | e];
    [| left; constructor].
  destruct (String.eqb response "sí"); simpl; [| left; repeat constructor].
  match goal with
  | |- unlink_first
         (snd (try_except (print ?l ;; _ ;; delete_lambda ?n ;; ?rest) _ ?hd
                 env ?h)) =>
      destruct (main_confirmed_trace env h l n rest hd) as (r' & post & ->)
  end.
  right. exists [Log (Py.nl ++ "[*] Eliminando archivo de configuración...")%string].
  do 2 eexists. split; [reflexivity | repeat constructor].
Qed.

(** C1 (amended): in every run of the script each call to the provider
    comes after the request to remove the record file.  When the record is
    there and the operator confirms, that request is the first thing after
    the preamble of local steps, and whatever its result the teardown goes on
    with the first function: the record is gone before any call to the
    provider exactly when the file system carries the removal out; when it
    refuses, the failure is passed over and the teardown goes on with the
    record left in place. *)
Theorem destroy_removes_record_first (env : Env Call) :
  (forall pre e post,
      snd (run (script REGION config_file) env) = pre ++ e :: post ->
      is_cloud_event e = true ->
      exists r, In (Ev Unlink r) pre)
  /\ (forall config,
         (forall h, env bool h FileExists = Ret true) ->
         (forall h, env Deployment h ReadRecord = Ret config) ->
         (forall h, env string h (Confirm prompt) = Ret "sí") ->
         let before := preamble REGION config_file config in
         let r := env unit before Unlink in
         Forall local_event before
         /\ (exists r' post,
                snd (run (script REGION config_file) env)
                = before
                    ++ Ev Unlink r
                    :: record_notice r
                    ++ Log (Py.nl ++ "[*] Eliminando Lambda: "
                            ++ lambda_load config ++ "...")%string
                    :: Ev (ListEventSourceMappings (lambda_load config)) r'
                    :: post)
         /\ (r = Ret tt <->
             record_removed_first (snd (run (script REGION config_file) env)))).
Proof.
  split.
  - apply unlink_first_before_cloud, script_unlink_first.
  - intros config Hexists Hread Hconfirm before r.
    split; [apply preamble_local |].
    assert (Htrace :
      exists r' post,
        snd (run (script REGION config_file) env)
        = before
            ++ Ev Unlink r
            :: record_notice r
            ++ Log (Py.nl ++ "[*] Eliminando Lambda: "
                    ++ lambda_load config ++ "...")%string
            :: Ev (ListEventSourceMappings (lambda_load config)) r'
            :: post).
    { unfold run, script.
      rewrite snd_bind. simpl.
      rewrite snd_bind, snd_call, fst_call, Hexists. simpl.
      rewrite snd_bind, snd_call, fst_call, Hread. simpl.
      unfold main.
      do 11 (rewrite snd_bind; simpl).
      rewrite snd_bind, snd_call, fst_call, Hconfirm. simpl.
      match goal with
      | |- context [snd (try_except
                           (print ?l ;; _ ;; delete_lambda ?n ;; ?rest) _ ?hd
                           env ?h)] =>
          destruct (main_confirmed_trace env h l n rest hd)
            as (r' & post & ->)
      end.
      exists r', post. reflexivity. }
    split; [exact Htrace |].
    destruct Htrace as (r' & post & Htrace). rewrite Htrace.
    split.
    + intros Hr pre e post' Heq He. rewrite Hr in Heq.
      exact (@local_prefix_then _ _ (preamble_local config) pre e post' Heq He).
    + intros Hfirst.
      specialize (Hfirst
        (before ++ Ev Unlink r
           :: record_notice r
           ++ [Log (Py.nl ++ "[*] Eliminando Lambda: "
                    ++ lambda_load config ++ "...")%string])
        (Ev (ListEventSourceMappings (lambda_load config)) r') post).
      rewrite <- !app_assoc in Hfirst. cbn [app] in Hfirst.
      rewrite <- !app_assoc in Hfirst. cbn [app] in Hfirst.
      specialize (Hfirst eq_refl eq_refl).
      apply in_app_or in Hfirst as [Hin | [Hin | Hin]].
      * pose proof (preamble_local config) as Hlocal.
        exfalso. revert Hin. subst before. unfold preamble. simpl.
        intuition discriminate.
      * destruct r as [[] | x]; [reflexivity | discriminate Hin].
      * exfalso. destruct r as [[] | x]; simpl in Hin;
          intuition discriminate.
Qed.

End DestroyOrder.

(** C1, as the specification states it, fails: when the record file
    cannot be removed, the bare [except] passes over the failure and the
    removal of every resource of the record is requested all the same, with
    the record still in place. *)
Lemma destroy_goes_on_with_record_left :
  existsb Destroy.is_record_removal
          (snd (run (Destroy.script "us-east-1" "deployment_config.json")
                    Destroy.record_locked)) = false
  /\ removals (snd (run (Destroy.script "us-east-1" "deployment_config.json")
                        Destroy.record_locked))
     = all_removals Destroy.sample
  /\ ~ Destroy.record_removed_first
         (snd (run (Destroy.script "us-east-1" "deployment_config.json")
                   Destroy.record_locked)).
Proof.
  split; [vm_compute; reflexivity |].
  split; [vm_compute; reflexivity |].
  intros Hfirst.
  assert (Hcloud :
    existsb Destroy.is_cloud_event
      (snd (run (Destroy.script "us-east-1" "deployment_config.json")
                Destroy.record_locked)) = true) by (vm_compute; reflexivity).
  apply existsb_exists in Hcloud as (e & Hin & He).
  apply in_split in Hin as (pre & post & Heq).
  pose proof (Hfirst pre e post Heq He) as Hgone.
  assert (Hno :
    existsb Destroy.is_record_removal
      (snd (run (Destroy.script "us-east-1" "deployment_config.json")
                Destroy.record_locked)) = false) by (vm_compute; reflexivity).
  rewrite Heq, existsb_app in Hno. apply orb_false_elim in Hno as [Hno _].
  assert (Hyes : existsb Destroy.is_record_removal pre = true)
    by (apply existsb_exists; exists (Ev Destroy.Unlink (Ret tt));
        split; [exact Hgone | reflexivity]).
  congruence.
Qed.

Lemma destroy_removes_record_first_witness :
  (exists r' post,
      snd (run (Destroy.script "us-east-1" "infra/deployment.json")
               Destroy.healthy)
      = Destroy.preamble "us-east-1" "infra/deployment.json" Destroy.sample
          ++ Ev Destroy.Unlink (Ret tt)
          :: Log "    ✓ Archivo de configuración eliminado"
          :: Log (Py.nl ++ "[*] Eliminando Lambda: load_inventory...")%string
          :: Ev (Destroy.ListEventSourceMappings "load_inventory") r'
          :: post)
  /\ Destroy.record_removed_first
       (snd (run (Destroy.script "us-east-1" "infra/deployment.json")
                 Destroy.healthy)).
Proof.
  destruct (proj2 (destroy_removes_record_first
                     "us-east-1" "infra/deployment.json" Destroy.healthy)
                  Destroy.sample
                  (fun _ => eq_refl) (fun _ => eq_refl) (fun _ => eq_refl))
    as (_ & Htrace & Hgone).
  split; [exact Htrace | exact (proj1 Hgone eq_refl)].
Defined.

(** ** Batches of a thousand *)

Section Batches.

Variable A : Type.

Lemma range_from_below (fuel start stop : nat) :
  Forall (fun i => i < stop) (range_from fuel start stop 1000).
Proof.
  revert start. induction fuel as [| fuel IH]; intros start; simpl.
  - constructor.
  - destruct (Nat.ltb_spec start stop); constructor; auto.
Qed.

Lemma range_from_length (fuel start stop : nat) :
  stop - start <= fuel ->
  length (range_from fuel start stop 1000) = (stop - start + 999) / 1000.
Proof.
  revert start. induction fuel as [| fuel IH]; intros start Hfuel;
    cbn [range_from length].
  - replace (stop - start) with 0 by lia. reflexivity.
  - destruct (Nat.ltb_spec start stop) as [Hlt | Hge].
    + cbn [length]. rewrite IH by lia.
      destruct (Nat.le_gt_cases 1000 (stop - start)) as [Hbig | Hsmall].
      * replace (stop - start + 999) with (stop - (start + 1000) + 999 + 1 * 1000)
          by lia.
        rewrite Nat.div_add by lia. lia.
      * replace (stop - (start + 1000)) with 0 by lia.
        rewrite (Nat.div_small (0 + 999)) by lia.
        apply (Nat.div_unique _ _ 1 (stop - start - 1)); lia.
    + replace (stop - start) with 0 by lia. reflexivity.
Qed.

Lemma slices_concat (l : list A) (fuel start : nat) :
  length l - start <= fuel ->
  concat (map (fun i => slice l i (i + 1000))
              (range_from fuel start (length l) 1000))
  = skipn start l.
Proof.
  revert start. induction fuel as [| fuel IH]; intros start Hfuel; simpl.
  - now rewrite skipn_all2 by lia.
  - destruct (Nat.ltb_spec start (length l)) as [Hlt | Hge]; simpl.
    + rewrite IH by lia. unfold slice.
      replace (start + 1000 - start) with 1000 by lia.
      rewrite (Nat.add_comm start 1000), <- (skipn_skipn 1000 start l).
      apply firstn_skipn.
    + now rewrite skipn_all2 by lia.
Qed.

Lemma slice_length (l : list A) (i : nat) :
  i < length l ->
  1 <= length (slice l i (i + 1000)) <= 1000.
Proof.
  intros Hi. unfold slice. rewrite length_firstn, length_skipn. lia.
Qed.

(** The batches partition the list, none is empty or longer than 1000, and
    there are ceil(n / 1000) of them. *)
Lemma batches_spec (l : list A) :
  concat (batches l) = l
  /\ Forall (fun b => 1 <= length b <= 1000) (batches l)
  /\ length (batches l) = (length l + 999) / 1000.
Proof.
  unfold batches, py_range. split; [| split].
  - rewrite slices_concat by lia. reflexivity.
  - apply Forall_map. eapply Forall_impl; [| apply range_from_below].
    intros i Hi. now apply slice_length.
  - rewrite length_map, range_from_length by lia. now rewrite Nat.sub_0_r.
Qed.

End Batches.

(** ** The events that pass a filter *)

Section Filtered.

Variable Call : Type -> Type.
Variable f : Event Call -> bool.

Lemma filter_none (t : Trace Call) :
  Forall (fun e => f e = false) t -> filter f t = [].
Proof.
  induction 1 as [| e t He _ IH]; simpl; [reflexivity |]. now rewrite He.
Qed.

Lemma filter_bind (A B : Type) (m : M Call A) (k : A -> M Call B)
      (env : Env Call) (h : Trace Call) :
  filter f (snd (bind m k env h))
  = filter f (snd (m env h))
      ++ match fst (m env h) with
         | Ok a => filter f (snd (k a env (h ++ snd (m env h))))
         | _ => []
         end.
Proof.
  rewrite snd_bind, filter_app. now destruct (fst (m env h)).
Qed.

Lemma filter_bind_silent (A B : Type) (m : M Call A) (k : A -> M Call B)
      (env : Env Call) (h : Trace Call) :
  silent f m ->
  filter f (snd (bind m k env h))
  = match fst (m env h) with
    | Ok a => filter f (snd (k a env (h ++ snd (m env h))))
    | _ => []
    end.
Proof.
  intros Hm. rewrite filter_bind. now rewrite (filter_none (Hm env h)).
Qed.

Lemma filter_try_except_silent (A : Type) (m : M Call A)
      (catches : Exn -> bool) (handler : Exn -> M Call A)
      (env : Env Call) (h : Trace Call) :
  (forall e, silent f (handler e)) ->
  filter f (snd (try_except m catches handler env h))
  = filter f (snd (m env h)).
Proof.
  intros Hh. rewrite snd_try_except, filter_app.
  destruct (fst (m env h)); try now rewrite app_nil_r.
  destruct (catches e); [| now rewrite app_nil_r].
  now rewrite (filter_none (Hh e env _)), app_nil_r.
Qed.

End Filtered.

Section DestroyBuckets.

Import Destroy.

Variable env : Env Call.
Variable bucket : string.
Variable pages : list Page.

Hypothesis listing_ok :
  forall h, @env (list Page) h (ListObjectVersions bucket) = Ret pages.
Hypothesis delete_objects_ok :
  forall h batch, @env unit h (DeleteObjects bucket batch) = Ret tt.

Lemma delete_loop (all : list ObjectId) (idx : list nat) :
  Forall (fun i => i < length all) idx ->
  forall h,
    for_each idx
      (fun i =>
         match slice all i (i + 1000) with
         | [] => ret tt
         | _ => call (DeleteObjects bucket (slice all i (i + 1000)))
         end) env h
    = (Ok tt, map (fun i => delete_event bucket (slice all i (i + 1000))) idx).
Proof.
  induction 1 as [| i idx Hi _ IH]; intros h; simpl; [reflexivity |].
  unfold bind. pose proof (slice_length all Hi) as Hlen.
  destruct (slice all i (i + 1000)) as [| o batch] eqn:Es;
    [simpl in Hlen; lia |].
  unfold call. rewrite delete_objects_ok, IH. reflexivity.
Qed.

Lemma empty_s3_bucket_spec (h : Trace Call) :
  fst (empty_s3_bucket bucket env h) = Ok tt
  /\ exists r,
       filter (about_bucket bucket) (snd (empty_s3_bucket bucket env h))
       = emptying bucket pages r.
Proof.
  unfold empty_s3_bucket.
  match goal with |- context [try_except ?b _ _] => set (body := b) end.
  assert (Hbody :
    forall h1, exists r d,
        body env h1 = (Ok tt, d)
        /\ filter (about_bucket bucket) d = emptying bucket pages r).
  { intros h1. subst body. unfold bind at 1.
    unfold try_except at 1, bind at 1, call at 1, print at 1.
    destruct (@env unit h1 (PutBucketVersioning bucket "Suspended"))
      as [[] | e]; cbv iota beta; unfold except_any, ret at 1; cbv iota beta;
      unfold bind at 1, call at 1; rewrite listing_ok;
      fold (all_deletes pages);
      unfold bind at 1; rewrite delete_loop by apply range_from_below;
      unfold print; do 2 eexists; (split; [reflexivity |]);
      rewrite !filter_app; simpl; rewrite String.eqb_refl;
      rewrite app_nil_r; cbn [app];
      unfold emptying; f_equal; f_equal; rewrite ?app_nil_r;
      unfold batches; rewrite map_map;
      apply forallb_filter_id; apply forallb_forall; intros e' He;
      apply in_map_iff in He as (i & <- & _); simpl; apply String.eqb_refl. }
  clearbody body.
  rewrite fst_bind, snd_bind, fst_try_except, snd_try_except.
  unfold print. simpl.
  match goal with
  | |- context [body env ?hh] =>
      destruct (Hbody hh) as (r & d & E & Hd); rewrite !E
  end.
  simpl. split; [reflexivity |]. exists r. now rewrite app_nil_r.
Qed.

End DestroyBuckets.

Section DestroyBucketOrder.

Import Destroy.

Variable bucket : string.

Ltac quiet_auto := unfold quiet, silent; emits_auto.

Lemma delete_lambda_quiet (name : string) : quiet bucket (delete_lambda name).
Proof. unfold delete_lambda. quiet_auto. Qed.

Lemma delete_api_gateway_quiet (id : string) : quiet bucket (delete_api_gateway id).
Proof. unfold delete_api_gateway. quiet_auto. Qed.

Lemma delete_dynamodb_table_quiet (name : string) :
  quiet bucket (delete_dynamodb_table name).
Proof. unfold delete_dynamodb_table. quiet_auto. Qed.

Lemma delete_iam_role_quiet (name : string) : quiet bucket (delete_iam_role name).
Proof. unfold delete_iam_role. quiet_auto. Qed.

Lemma delete_all_low_stock_topics_quiet : quiet bucket delete_all_low_stock_topics.
Proof. unfold delete_all_low_stock_topics. quiet_auto. Qed.

Lemma empty_other_bucket_quiet (other : string) :
  String.eqb other bucket = false -> quiet bucket (empty_s3_bucket other).
Proof. intros Hne. unfold empty_s3_bucket. quiet_auto. Qed.

Lemma delete_other_bucket_quiet (other : string) :
  String.eqb other bucket = false -> quiet bucket (delete_s3_bucket other).
Proof. intros Hne. unfold delete_s3_bucket. quiet_auto. Qed.

Lemma delete_s3_bucket_events (env : Env Call) (h : Trace Call) :
  exists r,
    filter (about_bucket bucket) (snd (delete_s3_bucket bucket env h))
    = [Ev (DeleteBucket bucket) r].
Proof.
  unfold delete_s3_bucket, bind, print, try_except, call.
  match goal with |- context [env unit ?hh ?c] =>
    destruct (env unit hh c) as [[] | e] end; simpl.
  - rewrite String.eqb_refl. now eexists.
  - destruct (except_ClientError e); simpl;
      [destruct (String.eqb (error_code e) "NoSuchBucket"); simpl |];
      rewrite String.eqb_refl; now eexists.
Qed.

Variable env : Env Call.
Variable pages : list Page.

Hypothesis listing_ok :
  forall h, @env (list Page) h (ListObjectVersions bucket) = Ret pages.
Hypothesis delete_objects_ok :
  forall h batch, @env unit h (DeleteObjects bucket batch) = Ret tt.

Lemma step_quiet (A B : Type) (m : M Call A) (k : A -> M Call B)
      (h : Trace Call) :
  quiet bucket m ->
  (forall a h', emptied_then_deleted bucket pages
                  (filter (about_bucket bucket) (snd (k a env h')))) ->
  emptied_then_deleted bucket pages (filter (about_bucket bucket) (snd (bind m k env h))).
Proof.
  intros Hm Hk. rewrite filter_bind_silent by exact Hm.
  destruct (fst (m env h)); try (now left). apply Hk.
Qed.

Lemma guarded_quiet (A : Type) (m : M Call A) (catches : Exn -> bool)
      (handler : Exn -> M Call A) (h : Trace Call) :
  (forall e, quiet bucket (handler e)) ->
  emptied_then_deleted bucket pages (filter (about_bucket bucket) (snd (m env h))) ->
  emptied_then_deleted bucket pages
    (filter (about_bucket bucket) (snd (try_except m catches handler env h))).
Proof. intros Hh Hm. now rewrite filter_try_except_silent. Qed.

(** A step that makes no S3 call on the bucket and returns. *)
Lemma step_passes (A B : Type) (m : M Call A) (a : A) (k : A -> M Call B)
      (h : Trace Call) :
  quiet bucket m -> fst (m env h) = Ok a ->
  (forall h', emptied_and_deleted bucket pages
                (filter (about_bucket bucket) (snd (k a env h')))) ->
  emptied_and_deleted bucket pages
    (filter (about_bucket bucket) (snd (bind m k env h))).
Proof.
  intros Hm Hfst Hk. rewrite filter_bind_silent by exact Hm.
  rewrite Hfst. apply Hk.
Qed.

Lemma guarded_passes (A : Type) (m : M Call A) (catches : Exn -> bool)
      (handler : Exn -> M Call A) (h : Trace Call) :
  (forall e, quiet bucket (handler e)) ->
  emptied_and_deleted bucket pages
    (filter (about_bucket bucket) (snd (m env h))) ->
  emptied_and_deleted bucket pages
    (filter (about_bucket bucket) (snd (try_except m catches handler env h))).
Proof. intros Hh Hm. now rewrite filter_try_except_silent. Qed.

(** The two steps on the bucket, followed by steps that leave it alone. *)
Lemma bucket_steps_run (rest : M Call unit) (h : Trace Call) :
  quiet bucket rest ->
  emptied_and_deleted bucket pages
    (filter (about_bucket bucket)
       (snd ((empty_s3_bucket bucket ;; delete_s3_bucket bucket ;; rest)
               env h))).
Proof.
  intros Hrest. rewrite filter_bind.
  destruct (empty_s3_bucket_spec env bucket listing_ok delete_objects_ok h)
    as (-> & r & ->).
  rewrite filter_bind.
  match goal with |- context [delete_s3_bucket bucket env ?hh] =>
    destruct (delete_s3_bucket_events env hh) as (r' & ->) end.
  exists r, r'. f_equal.
  destruct (fst (delete_s3_bucket bucket env _)); try reflexivity.
  rewrite filter_none by apply Hrest. reflexivity.
Qed.

Lemma bucket_steps (rest : M Call unit) (h : Trace Call) :
  quiet bucket rest ->
  emptied_then_deleted bucket pages
    (filter (about_bucket bucket)
       (snd ((empty_s3_bucket bucket ;; delete_s3_bucket bucket ;; rest)
               env h))).
Proof. intros Hrest. right. now apply bucket_steps_run. Qed.

End DestroyBucketOrder.

Section DestroyErrors.

Import Destroy.

(** A delete step whose provider call fails with a [ClientError] logs and
    returns; the next step runs. *)
Lemma delete_api_gateway_continues (env : Env Call) (h : Trace Call)
      (id code op msg : string) :
  env unit (h ++ [Log (Py.nl ++ "[*] Eliminando API Gateway: " ++ id ++ "...")%string])
      (DeleteApi id) = Err (ClientError code op msg) ->
  exists line,
    delete_api_gateway id env h
    = (Ok tt,
       [Log (Py.nl ++ "[*] Eliminando API Gateway: " ++ id ++ "...")%string;
        Ev (DeleteApi id) (Err (ClientError code op msg));
        Log line])
    /\ (code = "NotFoundException" ->
        line = ("    ℹ API Gateway " ++ id ++ " no existe")%string).
Proof.
  intros E. unfold delete_api_gateway, bind, print, try_except, call.
  rewrite E. simpl.
  destruct (String.eqb_spec code "NotFoundException") as [-> | Hne]; simpl.
  - eexists. split; [reflexivity | reflexivity].
  - eexists. split; [reflexivity | congruence].
Qed.

(** The table step lets the failure of the waiter through: a
    [WaiterError] is not a [ClientError]. *)
Lemma delete_dynamodb_table_waiter_error (env : Env Call) (h : Trace Call)
      (name msg : string) :
  (forall h', env unit h' (DeleteTable name) = Ret tt) ->
  (forall h', env unit h' (WaitTableNotExists name) = Err (WaiterError msg)) ->
  fst (delete_dynamodb_table name env h) = Raise (WaiterError msg).
Proof.
  intros Hdel Hwait.
  unfold delete_dynamodb_table, bind, print, try_except, call.
  rewrite Hdel. simpl. now rewrite Hwait.
Qed.

(** The topic step lists the topics outside any [try]. *)
Lemma delete_all_low_stock_topics_listing_error (env : Env Call)
      (h : Trace Call) (e : Exn) :
  (forall h', env (option (list string)) h' ListTopics = Err e) ->
  fst (delete_all_low_stock_topics env h) = Raise e.
Proof.
  intros Hlist. unfold delete_all_low_stock_topics, bind, print, call.
  now rewrite Hlist.
Qed.

(** C5 (the code departs from the claim): when the waiter for the removal
    of the table gives up, the run ends with status 1 after the table step;
    the buckets, the role and the topics are never touched.  When the
    provider refuses to list the topics, the run ends with status 1 as well.
    With the same provider and neither failure, the role that is not found
    is passed over and the run completes. *)
Theorem destroy_aborts_on_uncaught_errors :
  (let r := run (script "us-east-1" "infra/deployment.json") waiter_gives_up in
   exit_code (fst r) = Some 1%Z
   /\ calls_of (snd r)
      = ["exists"; "json.load"; "input"; "unlink";
         "list_event_source_mappings load_inventory";
         "delete_function load_inventory";
         "list_event_source_mappings get_inventory_api";
         "delete_function get_inventory_api";
         "list_event_source_mappings notify_low_stock";
         "delete_event_source_mapping uuid-1";
         "delete_function notify_low_stock";
         "delete_api a1b2c3";
         "delete_table Inventory";
         "wait table_not_exists Inventory"])
  /\ (let r := run (script "us-east-1" "infra/deployment.json") topics_refused in
      fst r = Exit 1%Z
      /\ last (calls_of (snd r)) "" = "list_topics")
  /\ (let r := run (script "us-east-1" "infra/deployment.json") healthy in
      fst r = Ok tt
      /\ In "delete_role lambda-inventory-role-inventory-main" (calls_of (snd r))
      /\ last (calls_of (snd r)) ""
         = "delete_topic arn:aws:sns:us-east-1:123456789012:low-stock-inventory-main").
Proof.
  split; [| split].
  - vm_compute. split; reflexivity.
  - vm_compute. split; reflexivity.
  - vm_compute. split; [reflexivity |]. split; [| reflexivity].
    do 23 right. left. reflexivity.
Qed.

End DestroyErrors.

(* ====================================================================== *)
(** * Which exceptions a program lets through *)
(* ====================================================================== *)

Section Raises.

Variable Call : Type -> Type.
Variable env : Env Call.

Lemma raises_ret (A : Type) (P : Exn -> Prop) (a : A) :
  raises_only env P (ret a).
Proof. intros h. exact I. Qed.

Lemma raises_print (P : Exn -> Prop) (line : string) :
  raises_only env P (print line).
Proof. intros h. exact I. Qed.

Lemma raises_raise (A : Type) (P : Exn -> Prop) (e : Exn) :
  P e -> raises_only env P (raise (A := A) e).
Proof. intros He h. exact He. Qed.

Lemma raises_call (R : Type) (P : Exn -> Prop) (c : Call R) :
  (forall h e, @env R h c = Err e -> P e) -> raises_only env P (call c).
Proof.
  intros H h. rewrite fst_call. destruct (@env R h c) eqn:E; [exact I |].
  eapply H, E.
Qed.

Lemma raises_bind (A B : Type) (P : Exn -> Prop) (m : M Call A)
      (k : A -> M Call B) :
  raises_only env P m -> (forall a, raises_only env P (k a)) ->
  raises_only env P (bind m k).
Proof.
  intros Hm Hk h. rewrite fst_bind. specialize (Hm h).
  destruct (fst (m env h)); auto. apply Hk.
Qed.

Lemma raises_try_except (A : Type) (P Q : Exn -> Prop) (m : M Call A)
      (catches : Exn -> bool) (handler : Exn -> M Call A) :
  raises_only env Q m ->
  (forall e, Q e -> catches e = false -> P e) ->
  (forall e, raises_only env P (handler e)) ->
  raises_only env P (try_except m catches handler).
Proof.
  intros Hm Hcatch Hh h. rewrite fst_try_except. specialize (Hm h).
  destruct (fst (m env h)) as [a | e | c |]; auto.
  destruct (catches e) eqn:E; [apply Hh | now apply Hcatch].
Qed.

Lemma raises_for_each (A : Type) (P : Exn -> Prop) (l : list A)
      (body : A -> M Call unit) :
  (forall x, raises_only env P (body x)) -> raises_only env P (for_each l body).
Proof.
  intros Hb. induction l as [| x l IH]; simpl.
  - apply raises_ret.
  - apply raises_bind; auto.
Qed.

Lemma raises_none_returns (A : Type) (m : M Call A) (h : Trace Call) :
  raises_only env (fun _ => False) m -> exists a, fst (m env h) = Ok a.
Proof.
  intros Hm. specialize (Hm h). destruct (fst (m env h)); try contradiction.
  now eexists.
Qed.

End Raises.

(** ** The delete steps that pass over the errors of the provider *)

Section DestroyTolerance.

Import Destroy.

Variable env : Env Call.

(** Every failure of a call to the provider is a [ClientError]. *)
Hypothesis provider_errors :
  forall R h (c : Call R) e,
    is_cloud_call c = true -> @env R h c = Err e -> except_ClientError e = true.

Ltac provider_call :=
  apply raises_call; intros h e E; cbv beta;
  eapply provider_errors; [| exact E]; reflexivity.

Ltac passes_over :=
  repeat first
    [ apply raises_print
    | apply raises_ret
    | provider_call
    | apply raises_call; intros; exact I
    | apply raises_bind; [| intros]
    | apply raises_for_each; intros
    | match goal with
      | |- raises_only _ _ (if ?b then _ else _) => destruct b
      | |- raises_only _ _ (match ?l with [] => _ | _ => _ end) => destruct l
      | |- raises_only _ _ (try_except _ except_ClientError _) =>
          apply raises_try_except
            with (Q := fun e => except_ClientError e = true);
          [| intros e Hq Hc; congruence | intros]
      | |- raises_only _ _ (try_except _ _ _) =>
          apply raises_try_except with (Q := fun _ => True);
          [| intros e _ Hc; discriminate Hc | intros]
      end ].

(** Each of these steps returns, whatever error response the provider
    gives, so that the step after it runs. *)
Lemma delete_steps_pass_over_client_errors (name : string) :
  raises_only env (fun _ => False) (delete_lambda name)
  /\ raises_only env (fun _ => False) (delete_api_gateway name)
  /\ raises_only env (fun _ => False) (empty_s3_bucket name)
  /\ raises_only env (fun _ => False) (delete_s3_bucket name)
  /\ raises_only env (fun _ => False) (delete_iam_role name).
Proof.
  unfold delete_lambda, delete_api_gateway, empty_s3_bucket, delete_s3_bucket,
    delete_iam_role.
  repeat split; passes_over.
Qed.

End DestroyTolerance.

(* ====================================================================== *)
(** * Validation *)
(* ====================================================================== *)

Section ValidateClaims.

Import Validate.

Ltac boto_call Henv :=
  apply raises_call; intros h e E;
  refine (Henv _ h _ e _ E); reflexivity.

Ltac caught :=
  unfold is_client_error; intros e Hq Hc; congruence.

Lemma check_s3_buckets_returns (env : Env Call) (config : Deployment) :
  client_errors_only env ->
  raises_only env (fun _ => False) (check_s3_buckets config).
Proof.
  intros Henv. unfold check_s3_buckets.
  apply raises_for_each. intros bucket.
  apply raises_try_except with (Q := is_client_error);
    [| caught | intros; apply raises_ret].
  apply raises_bind; [boto_call Henv | intros _].
  destruct (Py.contains "uploads" bucket); [| apply raises_ret].
  apply raises_try_except with (Q := is_client_error);
    [| intros e _ Hc; discriminate Hc | intros; apply raises_ret].
  apply raises_bind; [boto_call Henv | intros; apply raises_ret].
Qed.

Lemma check_dynamodb_returns (env : Env Call) (config : Deployment) :
  client_errors_only env ->
  raises_only env (fun _ => False) (check_dynamodb config).
Proof.
  intros Henv. unfold check_dynamodb.
  apply raises_try_except with (Q := is_client_error);
    [| caught | intros; apply raises_ret].
  apply raises_bind; [boto_call Henv | intros; apply raises_ret].
Qed.

Lemma check_lambdas_returns (env : Env Call) (config : Deployment) :
  client_errors_only env ->
  raises_only env (fun _ => False) (check_lambdas config).
Proof.
  intros Henv. unfold check_lambdas.
  apply raises_for_each. intros func.
  apply raises_try_except with (Q := is_client_error);
    [| caught | intros; apply raises_ret].
  apply raises_bind; [boto_call Henv | intros; apply raises_ret].
Qed.

Lemma check_api_gateway_returns (env : Env Call) (config : Deployment) :
  client_errors_only env ->
  raises_only env (fun _ => False) (check_api_gateway config).
Proof.
  intros Henv. unfold check_api_gateway.
  apply raises_try_except with (Q := is_client_error);
    [| caught | intros; apply raises_ret].
  apply raises_bind; [boto_call Henv | intros].
  apply raises_bind; [boto_call Henv | intros; apply raises_ret].
Qed.

Lemma check_sns_returns (env : Env Call) (config : Deployment) :
  client_errors_only env ->
  raises_only env (fun _ => False) (check_sns config).
Proof.
  intros Henv. unfold check_sns.
  apply raises_try_except with (Q := is_client_error);
    [| caught | intros; apply raises_ret].
  apply raises_bind; [boto_call Henv | intros].
  apply raises_bind; [boto_call Henv | intros; apply raises_ret].
Qed.

Lemma check_iam_returns (env : Env Call) (config : Deployment) :
  client_errors_only env ->
  raises_only env (fun _ => False) (check_iam config).
Proof.
  intros Henv. unfold check_iam.
  apply raises_try_except with (Q := is_client_error);
    [| caught | intros; apply raises_ret].
  apply raises_bind; [boto_call Henv | intros].
  apply raises_bind; [boto_call Henv | intros; apply raises_ret].
Qed.

(** The probe of the API never fails the run, whatever the endpoint
    answers. *)
Lemma test_api_endpoint_returns (env : Env Call) (config : Deployment) :
  raises_only env (fun _ => False) (test_api_endpoint config).
Proof.
  unfold test_api_endpoint.
  apply raises_try_except with (Q := fun _ => True);
    [| intros e _ Hc; discriminate Hc | intros; apply raises_ret].
  apply raises_bind; [apply raises_call; auto | intros data].
  unfold read_probe. destruct data as [| z | z | s | l | fields];
    try (apply raises_raise; exact I).
  destruct (Py.dict_get fields "items") as [[| z | z | s | l | [| f fs]] |];
    try apply raises_ret; try (apply raises_raise; exact I);
    destruct (z =? 0)%Z; try apply raises_ret; apply raises_raise; exact I.
Qed.

(** C8, as the specification states it, fails: the checks catch the
    error responses of the provider ([ClientError]) and nothing else.  On a
    machine without credentials the first [head_bucket] raises
    [NoCredentialsError]; no check catches it, and the run ends with that
    exception and status 1 although the record is there. *)
Lemma validate_without_credentials_exits_1 :
  fst (run main no_credentials)
  = Raise (OtherException "Unable to locate credentials")
  /\ exit_code (fst (run main no_credentials)) = Some 1%Z
  /\ ~ status_0_with_record no_credentials.
Proof.
  split; [vm_compute; reflexivity |]. split; [vm_compute; reflexivity |].
  intros H. specialize (H Destroy.sample eq_refl eq_refl).
  vm_compute in H. discriminate H.
Qed.

(** C8 (amended): without the record file the run exits with status 1;
    with it, the run ends with status 0 whenever every failure of a call to
    the provider is an error response ([ClientError]), whether the resources
    are found or not, and whatever the probe of the API does. *)
Theorem validate_exit_status (env : Env Call) :
  (env bool [] FileExists = Ret false ->
   run main env = (Exit 1%Z, [Ev FileExists (Ret false)])
   /\ exit_code (fst (run main env)) = Some 1%Z)
  /\ (forall config,
         env bool [] FileExists = Ret true ->
         env Deployment [Ev FileExists (Ret true)] ReadRecord = Ret config ->
         client_errors_only env ->
         fst (run main env) = Ok tt
         /\ exit_code (fst (run main env)) = Some 0%Z).
Proof.
  split.
  - intros Hmiss. unfold run, main, load_config, bind, call.
    rewrite Hmiss. simpl. now split.
  - intros config Hfound Hread Henv.
    assert (Hchecks :
      raises_only env (fun _ => False)
        (check_s3_buckets config ;;
         check_dynamodb config ;;
         check_lambdas config ;;
         check_api_gateway config ;;
         check_sns config ;;
         check_iam config ;;
         test_api_endpoint config)).
    { apply raises_bind; [now apply check_s3_buckets_returns | intros _].
      apply raises_bind; [now apply check_dynamodb_returns | intros _].
      apply raises_bind; [now apply check_lambdas_returns | intros _].
      apply raises_bind; [now apply check_api_gateway_returns | intros _].
      apply raises_bind; [now apply check_sns_returns | intros _].
      apply raises_bind; [now apply check_iam_returns | intros _].
      apply test_api_endpoint_returns. }
    assert (Hrun : fst (run main env) = Ok tt).
    { unfold run, main. rewrite fst_bind.
      unfold load_config at 1 2.
      rewrite fst_bind, snd_bind, fst_call, snd_call.
      rewrite Hfound. simpl. unfold bind at 1 3, call. rewrite Hread. simpl.
      match goal with |- context [fst (?m env ?h)] =>
        destruct (raises_none_returns (m := m) h Hchecks) as ([] & ->) end.
      reflexivity. }
    rewrite Hrun. now split.
Qed.

Lemma validate_exit_status_witness :
  exit_code (fst (run main no_record)) = Some 1%Z
  /\ exit_code (fst (run main all_gone)) = Some 0%Z.
Proof.
  split.
  - exact (proj2 (proj1 (validate_exit_status no_record) eq_refl)).
  - refine (proj2 (proj2 (validate_exit_status all_gone)
                         Destroy.sample eq_refl eq_refl _)).
    intros R h c e Hboto E.
    destruct c; try discriminate Hboto; injection E as <-; reflexivity.
Defined.

End ValidateClaims.

(* ====================================================================== *)
(** * Deployment *)
(* ====================================================================== *)

Section DeployFacts.

Import Deploy.

Variables REGION SUFFIX ACCOUNT_ID : string.

Lemma failed_with_code (R : Type) (e : Exn) (code : string) :
  except_ClientError e = true ->
  String.eqb (error_code e) code = true ->
  failed_with (R := R) code (Err e) = true.
Proof. destruct e; simpl; auto; discriminate. Qed.

(** Take a finished run apart, one answer of the environment at a time. *)
Ltac run_cases H :=
  repeat (unfold bind, try_except, call, ret, raise in H; simpl in H;
          match type of H with
          | context [match ?env ?R ?h ?c with Ret _ => _ | Err _ => _ end] =>
              destruct (env R h c) eqn:?
          | context [if ?b then _ else _] => destruct b eqn:?
          | context [for_each ?l ?b ?e ?hh] =>
              destruct (for_each l b e hh) as [[? | ? | ? |] ?] eqn:?
          | context [?w ?e ?hh] =>
              is_var w;
              match type of w with M _ _ => idtac end;
              destruct (w e hh) as [[? | ? | ? |] ?] eqn:?
          | context [match ?o with Some _ => _ | None => _ end] =>
              destruct o eqn:?
          end);
  try discriminate H; inversion H; subst; clear H.

Ltac shown :=
  simpl; rewrite ?existsb_app; simpl;
  rewrite ?String.eqb_refl; simpl; rewrite ?orb_true_r; auto;
  try match goal with
      | H1 : except_ClientError ?e = true,
        H2 : String.eqb (error_code ?e) _ = true |- _ =>
          destruct e; try discriminate H1; simpl in H2; rewrite H2;
          reflexivity
      end.

Lemma ensure_bucket_shows (env : Env Call) (h d : Trace Call) (b : string) :
  ensure_bucket REGION SUFFIX b env h = (Ok tt, d) ->
  existsb (shows_bucket b) d = true.
Proof.
  intros H. unfold ensure_bucket in H. run_cases H; shown.
Qed.

Lemma create_dynamodb_table_shows (env : Env Call) (h d : Trace Call)
      (arn : string) :
  create_dynamodb_table env h = (Ok arn, d) ->
  existsb (shows_table TABLE_NAME) d = true.
Proof.
  intros H. unfold create_dynamodb_table in H. run_cases H; shown.
Qed.

Lemma create_lambda_shows (env : Env Call) (h d : Trace Call)
      (name dir role arn : string) (settings : FunctionSettings) :
  create_lambda name dir role settings env h = (Ok arn, d) ->
  existsb (shows_function name) d = true.
Proof.
  intros H. unfold create_lambda in H.
  remember (wait_until_active name 12) as wait.
  run_cases H; shown.
Qed.

Lemma create_sns_topic_shows (env : Env Call) (h d : Trace Call)
      (arn : string) :
  create_sns_topic env h = (Ok arn, d) ->
  existsb (shows_topic arn) d = true.
Proof.
  intros H. unfold create_sns_topic in H. run_cases H; shown.
  match goal with
  | F : find _ ?l = Some arn |- _ =>
      apply find_some in F as [Hin _];
      assert (Hex : existsb (String.eqb arn) l = true)
        by (apply existsb_exists; exists arn; split;
            [exact Hin | apply String.eqb_refl]);
      now rewrite Hex
  end.
Qed.

Lemma create_api_gateway_shows (env : Env Call) (h d : Trace Call)
      (lambda_arn id endpoint : string) :
  create_api_gateway REGION SUFFIX ACCOUNT_ID lambda_arn env h
  = (Ok (id, endpoint), d) ->
  existsb (shows_api id) d = true.
Proof.
  intros H. unfold create_api_gateway, tolerate_conflict in H.
  run_cases H; shown.
Qed.

(** Steps 1 to 8 never write the record. *)

Lemma written_none (t : Trace Call) : Forall no_write t -> written t = [].
Proof.
  induction 1 as [| e t He _ IH]; [reflexivity |].
  unfold written in *. simpl. rewrite IH.
  destruct e as [R c r |]; [| reflexivity].
  destruct c; try reflexivity. discriminate He.
Qed.

Lemma written_app (t1 t2 : Trace Call) :
  written (t1 ++ t2) = written t1 ++ written t2.
Proof. apply flat_map_app. Qed.

Lemma wait_until_active_no_write (name : string) (attempts : nat) :
  emits no_write (wait_until_active name attempts).
Proof.
  induction attempts as [| n IH]; simpl; [apply emits_ret |].
  apply emits_bind; [unfold no_write; emits_auto | intros [|]];
    [apply emits_ret | exact IH].
Qed.

Lemma create_lambda_no_write (name dir role : string)
      (settings : FunctionSettings) :
  emits no_write (create_lambda name dir role settings).
Proof.
  unfold create_lambda.
  apply emits_bind; [unfold no_write; emits_auto | intros zip].
  apply emits_try_except; [unfold no_write; emits_auto | intros e].
  destruct (String.eqb (error_code e) "ResourceConflictException");
    [| apply emits_raise].
  apply emits_bind; [apply wait_until_active_no_write | intros _].
  unfold no_write; emits_auto.
Qed.

Lemma create_all_no_write :
  emits no_write (create_all REGION SUFFIX ACCOUNT_ID).
Proof.
  unfold create_all.
  repeat first
    [ apply create_lambda_no_write
    | progress unfold create_s3_buckets, ensure_bucket, create_dynamodb_table,
        create_iam_role, create_sns_topic, add_s3_trigger_to_lambda,
        add_stream_trigger_to_lambda, create_api_gateway, upload_web_content,
        tolerate_conflict
    | emits_step ].
Qed.

(** When steps 1 to 8 have all returned, the identifiers they hand to the
    record, the role apart, are each backed by what the run did. *)
Lemma create_all_backed (env : Env Call) (h steps : Trace Call)
      (c : Created) (now : string) :
  create_all REGION SUFFIX ACCOUNT_ID env h = (Ok c, steps) ->
  backed steps (record_of REGION SUFFIX c now) = true.
Proof.
  intros H. unfold create_all in H.
  apply bind_ok_inv in H as ([] & d1 & r1 & H1 & H & ->).
  apply bind_ok_inv in H as (table_arn & d2 & r2 & H2 & H & ->).
  apply bind_ok_inv in H as (role_arn & d3 & r3 & H3 & H & ->).
  apply bind_ok_inv in H as (topic_arn & d4 & r4 & H4 & H & ->).
  apply bind_ok_inv in H as (load_arn & d5 & r5 & H5 & H & ->).
  apply bind_ok_inv in H as (api_arn & d6 & r6 & H6 & H & ->).
  apply bind_ok_inv in H as (notify_arn & d7 & r7 & H7 & H & ->).
  apply bind_ok_inv in H as ([] & d8 & r8 & H8 & H & ->).
  apply bind_ok_inv in H as ([] & d9 & r9 & H9 & H & ->).
  apply bind_ok_inv in H as ([id endpoint] & d10 & r10 & H10 & H & ->).
  apply bind_ok_inv in H as (web & d11 & r11 & H11 & H & ->).
  unfold ret in H. injection H as <- <-.
  unfold create_s3_buckets in H1. simpl in H1.
  apply bind_ok_inv in H1 as ([] & u1 & u2 & Hu & H1 & ->).
  apply bind_ok_inv in H1 as ([] & w1 & w2 & Hw & H1 & ->).
  apply ensure_bucket_shows in Hu, Hw.
  apply create_dynamodb_table_shows in H2.
  apply create_sns_topic_shows in H4.
  apply create_lambda_shows in H5, H6, H7.
  apply create_api_gateway_shows in H10.
  unfold backed. simpl.
  rewrite !existsb_app.
  rewrite Hu, Hw, H2, H4, H5, H6, H7, H10.
  now rewrite ?orb_true_r.
Qed.

(** The [try] block of [main] after steps 1 to 8. *)
Lemma main_after_steps (env : Env Call) (h steps : Trace Call) (c : Created) :
  create_all REGION SUFFIX ACCOUNT_ID env h = (Ok c, steps) ->
  (exists e, snd (main REGION SUFFIX ACCOUNT_ID env h)
             = steps ++ [Ev Now (Err e)])
  \/ (exists now reply,
         snd (main REGION SUFFIX ACCOUNT_ID env h)
         = steps ++ [Ev Now (Ret now);
                     Ev (WriteRecord (record_of REGION SUFFIX c now)) reply]).
Proof.
  intros H. unfold main.
  rewrite snd_try_except, fst_bind, snd_bind, H. cbn [fst snd].
  rewrite fst_bind, snd_bind, fst_call, snd_call.
  destruct (env string (h ++ steps) Now) as [now | e]; cbn [fst snd].
  - right. exists now. rewrite fst_call, snd_call.
    match goal with |- context [env unit ?hh ?cc] =>
      destruct (env unit hh cc) as [[] | e] end; simpl;
      eexists; rewrite <- ?app_assoc; simpl; reflexivity.
  - left. exists e. simpl. now rewrite <- app_assoc.
Qed.

Lemma main_aborts (env : Env Call) (h steps : Trace Call) (e : Exn) :
  create_all REGION SUFFIX ACCOUNT_ID env h = (Raise e, steps) ->
  main REGION SUFFIX ACCOUNT_ID env h = (Exit 1%Z, steps).
Proof.
  intros H. unfold main, try_except, bind at 1. rewrite H.
  unfold sys_exit. simpl. now rewrite app_nil_r.
Qed.

Lemma main_written (env : Env Call) (h : Trace Call) (d : Deployment) :
  In d (written (snd (main REGION SUFFIX ACCOUNT_ID env h))) ->
  exists c steps now reply,
    create_all REGION SUFFIX ACCOUNT_ID env h = (Ok c, steps)
    /\ d = record_of REGION SUFFIX c now
    /\ snd (main REGION SUFFIX ACCOUNT_ID env h)
       = steps ++ [Ev Now (Ret now); Ev (WriteRecord d) reply]
    /\ written steps = [].
Proof.
  intros Hin.
  destruct (create_all REGION SUFFIX ACCOUNT_ID env h) as [o steps] eqn:E.
  pose proof (create_all_no_write env h) as Hno. rewrite E in Hno.
  simpl in Hno. apply written_none in Hno.
  destruct o as [c | e | code |].
  - destruct (@main_after_steps env h steps c E) as [(e & Ht) | (now & reply & Ht)];
      rewrite Ht, written_app, Hno in Hin; simpl in Hin.
    + contradiction.
    + destruct Hin as [<- | []].
      exists c, steps, now, reply. now repeat split.
  - rewrite (@main_aborts env h steps e E) in Hin. simpl in Hin. rewrite Hno in Hin.
    contradiction.
  - unfold main, try_except, bind at 1 in Hin. rewrite E in Hin.
    simpl in Hin. rewrite Hno in Hin. contradiction.
  - unfold main, try_except, bind at 1 in Hin. rewrite E in Hin.
    simpl in Hin. rewrite Hno in Hin. contradiction.
Qed.

End DeployFacts.

Section DeployClaims.

Import Deploy.

(** The statements at module level write nothing; after them comes
    [main]. *)
Lemma script_trace (REGION : string) (env : Env Call) :
  written (snd (run (script REGION) env)) = []
  \/ exists SUFFIX ACCOUNT_ID prelude,
       written prelude = []
       /\ snd (run (script REGION) env)
          = prelude ++ snd (main REGION SUFFIX ACCOUNT_ID env prelude).
Proof.
  unfold run, script, bind, call, ret.
  destruct (env bool [] FileExists) as [[|] | e]; [| | now left].
  - destruct (env Deployment _ ReadRecord) as [existing | e]; [| now left].
    cbn [app].
    match goal with |- context [env string ?hh GetCallerIdentity] =>
      destruct (env string hh GetCallerIdentity) as [account | e] end;
      [| now left].
    right. exists (suffix existing), account.
    exists [Ev FileExists (Ret true); Ev ReadRecord (Ret existing);
            Ev GetCallerIdentity (Ret account)].
    split; [reflexivity |].
    cbn [app].
    match goal with |- context [main ?r ?s ?a env ?hh] =>
      destruct (main r s a env hh) as [o d] end.
    reflexivity.
  - cbn [app].
    match goal with |- context [env string ?hh GetCallerIdentity] =>
      destruct (env string hh GetCallerIdentity) as [account | e] end;
      [| now left].
    right. exists "inventory-main", account.
    exists [Ev FileExists (Ret false); Ev GetCallerIdentity (Ret account)].
    split; [reflexivity |].
    cbn [app].
    match goal with |- context [main ?r ?s ?a env ?hh] =>
      destruct (main r s a env hh) as [o d] end.
    reflexivity.
Qed.

(** C2, as the specification states it, fails: in an account where the
    role [LabRole] is there, the script adopts it, creates no role, and
    still writes [lambda-inventory-role-inventory-main] into the record as
    [iam_role]; the run never saw a role of that name. *)
Lemma deploy_record_names_unseen_role :
  ~ record_backed academy "us-east-1".
Proof.
  unfold record_backed. intros H.
  assert (Hin : In (mkDeployment "2025-01-15T10:30:00" "us-east-1"
                      "inventory-main" "inventory-uploads-inventory-main"
                      "inventory-web-inventory-main" "Inventory"
                      "load_inventory" "get_inventory_api" "notify_low_stock"
                      "a1b2c3"
                      "https://a1b2c3.execute-api.us-east-1.amazonaws.com/prod"
                      (Some "http://inventory-web-inventory-main.s3-website-us-east-1.amazonaws.com")
                      "arn:aws:sns:us-east-1:123456789012:low-stock-inventory-main"
                      "lambda-inventory-role-inventory-main")
                   (written (snd (run (script "us-east-1") academy))))
    by (vm_compute; left; reflexivity).
  destruct (H _ Hin) as [_ Hrole]. vm_compute in Hrole. discriminate Hrole.
Qed.

(** C2 (amended): a record is written only as the last act of a run in
    which steps 1 to 8 have all returned, and it is made of what they
    returned; each of its bucket, table, function, API and topic identifiers
    is backed by a call of that run that created the resource or found it
    there; its [iam_role] is the derived name
    [lambda-inventory-role-<suffix>].  When a step raises, the run ends
    with status 1 and nothing is written. *)
Theorem deploy_record_after_all_steps (REGION : string) (env : Env Call) :
  (forall d,
      In d (written (snd (run (script REGION) env))) ->
      exists SUFFIX ACCOUNT_ID prelude c steps now reply,
        create_all REGION SUFFIX ACCOUNT_ID env prelude = (Ok c, steps)
        /\ d = record_of REGION SUFFIX c now
        /\ snd (run (script REGION) env)
           = prelude ++ steps ++ [Ev Now (Ret now); Ev (WriteRecord d) reply]
        /\ written (prelude ++ steps) = []
        /\ backed steps d = true
        /\ iam_role d = ("lambda-inventory-role-" ++ SUFFIX)%string)
  /\ (forall SUFFIX ACCOUNT_ID h e steps,
         create_all REGION SUFFIX ACCOUNT_ID env h = (Raise e, steps) ->
         main REGION SUFFIX ACCOUNT_ID env h = (Exit 1%Z, steps)
         /\ exit_code (fst (main REGION SUFFIX ACCOUNT_ID env h)) = Some 1%Z
         /\ written steps = []).
Proof.
  split.
  - intros d Hin.
    destruct (script_trace REGION env)
      as [Hnone | (SUFFIX & ACCOUNT_ID & prelude & Hpre & Ht)].
    { rewrite Hnone in Hin. contradiction. }
    rewrite Ht, written_app, Hpre in Hin. simpl in Hin.
    destruct (main_written _ _ _ _ _ _ Hin)
      as (c & steps & now & reply & Hsteps & -> & Hmain & Hno).
    exists SUFFIX, ACCOUNT_ID, prelude, c, steps, now, reply.
    split; [exact Hsteps |]. split; [reflexivity |].
    split; [now rewrite Ht, Hmain |].
    split; [now rewrite written_app, Hpre, Hno |].
    split; [now apply create_all_backed with (1 := Hsteps) | reflexivity].
  - intros SUFFIX ACCOUNT_ID h e steps Hsteps.
    rewrite (main_aborts _ _ _ _ _ Hsteps). split; [reflexivity |].
    split; [reflexivity |].
    pose proof (create_all_no_write REGION SUFFIX ACCOUNT_ID env h) as Hno.
    rewrite Hsteps in Hno. now apply written_none.
Qed.

Lemma deploy_record_after_all_steps_witness :
  exists d,
    In d (written (snd (run (script "us-east-1") academy)))
    /\ backed (snd (run (script "us-east-1") academy)) d = true
    /\ exists SUFFIX, iam_role d = ("lambda-inventory-role-" ++ SUFFIX)%string.
Proof.
  assert (Hin : In (mkDeployment "2025-01-15T10:30:00" "us-east-1"
                      "inventory-main" "inventory-uploads-inventory-main"
                      "inventory-web-inventory-main" "Inventory"
                      "load_inventory" "get_inventory_api" "notify_low_stock"
                      "a1b2c3"
                      "https://a1b2c3.execute-api.us-east-1.amazonaws.com/prod"
                      (Some "http://inventory-web-inventory-main.s3-website-us-east-1.amazonaws.com")
                      "arn:aws:sns:us-east-1:123456789012:low-stock-inventory-main"
                      "lambda-inventory-role-inventory-main")
                   (written (snd (run (script "us-east-1") academy))))
    by (vm_compute; left; reflexivity).
  eexists. split; [exact Hin |]. split; [vm_compute; reflexivity |].
  destruct (proj1 (deploy_record_after_all_steps "us-east-1" academy) _ Hin)
    as (SUFFIX & _ & _ & _ & _ & _ & _ & _ & _ & _ & _ & _ & Hrole).
  now exists SUFFIX.
Defined.

End DeployClaims.

(* ====================================================================== *)
(** * More facts about programs *)
(* ====================================================================== *)

Section EmitsNothing.

Variable Call : Type -> Type.
Variable B : Type.
Variable f : Event Call -> list B.

Lemma flat_map_emits_nil (A : Type) (m : M Call A) (env : Env Call)
      (h : Trace Call) :
  emits (fun e => f e = []) m -> flat_map f (snd (m env h)) = [].
Proof.
  intros H. specialize (H env h).
  induction H as [| e t He _ IH]; simpl; [reflexivity |].
  now rewrite He, IH.
Qed.

End EmitsNothing.

(* ====================================================================== *)
(** * Subscription *)
(* ====================================================================== *)

Section SubscribeFacts.

Import Subscribe.

(** X1: without the record the script ends with status 1 before it asks
    anything; with the record, an address that is empty after stripping or has
    no "@" ends it with status 1, and no [subscribe] request is made. *)
Theorem subscribe_refuses_invalid_address (env : Env Call) :
  (env bool [] FileExists = Ret false ->
   fst (run script env) = Exit 1%Z
   /\ subscriptions (snd (run script env)) = []
   /\ existsb is_input (snd (run script env)) = false)
  /\ (forall config line,
         env bool [] FileExists = Ret true ->
         (forall h, env Deployment h ReadRecord = Ret config) ->
         (forall h, env string h (Input prompt) = Ret line) ->
         Py.strip line = "" \/ Py.contains "@" (Py.strip line) = false ->
         fst (run script env) = Exit 1%Z
         /\ subscriptions (snd (run script env)) = []).
Proof.
  split.
  - intros Hno. unfold run, script, bind, call. rewrite Hno. simpl.
    now repeat split.
  - intros config line Hyes Hrec Hin Hbad.
    unfold run, script, main, bind, call, print. rewrite Hyes. simpl.
    rewrite Hrec. simpl. rewrite Hin.
    assert (E : String.eqb (Py.strip line) "" || negb (Py.contains "@" (Py.strip line))
                = true).
    { destruct Hbad as [-> | ->]; [reflexivity | apply orb_true_r]. }
    rewrite E. simpl. now split.
Qed.

Lemma subscribe_refuses_invalid_address_witness :
  fst (run script (desk "  ops.example.org " "arn:topic" (Ret "arn:sub")))
  = Exit 1%Z.
Proof.
  exact (proj1 (proj2 (subscribe_refuses_invalid_address
                         (desk "  ops.example.org " "arn:topic" (Ret "arn:sub")))
                  _ "  ops.example.org " eq_refl (fun _ => eq_refl)
                  (fun _ => eq_refl) (or_intror eq_refl))).
Defined.

(** X2: an address with an "@" is sent, stripped, in exactly one
    [subscribe] request, for the topic of the record and the protocol
    "email"; the script ends with status 0 when the request is accepted and
    with status 1 when it is refused. *)
Theorem subscribe_sends_one_request (env : Env Call) (config : Deployment)
        (line : string) :
  env bool [] FileExists = Ret true ->
  (forall h, env Deployment h ReadRecord = Ret config) ->
  (forall h, env string h (Input prompt) = Ret line) ->
  Py.strip line <> "" ->
  Py.contains "@" (Py.strip line) = true ->
  subscriptions (snd (run script env))
  = [(sns_topic_arn config, "email", Py.strip line)]
  /\ exists r,
       In (Ev (SnsSubscribe (sns_topic_arn config) "email" (Py.strip line)) r)
          (snd (run script env))
       /\ fst (run script env) = after_subscribe r
       /\ exit_code (fst (run script env))
          = Some (match r with Ret _ => 0%Z | Err _ => 1%Z end).
Proof.
  intros Hyes Hrec Hin Hne Hat.
  unfold run, script, main, bind, call, print. rewrite Hyes. simpl.
  rewrite Hrec. simpl. rewrite Hin.
  apply String.eqb_neq in Hne. rewrite Hne, Hat. simpl.
  unfold try_except, bind, call.
  match goal with |- context [env string ?h ?c] =>
    destruct (env string h c) as [arn | e] eqn:E end; simpl.
  - split; [reflexivity |]. exists (Ret arn). simpl. tauto.
  - destruct (except_ClientError e) eqn:Ec; simpl.
    + split; [reflexivity |]. exists (Err e). simpl. rewrite Ec. tauto.
    + split; [reflexivity |]. exists (Err e). simpl. rewrite Ec. tauto.
Qed.

Lemma subscribe_sends_one_request_witness :
  subscriptions
    (snd (run script (desk " ops@example.org " "arn:topic" (Ret "arn:sub"))))
  = [("arn:topic", "email", "ops@example.org")].
Proof.
  exact (proj1 (@subscribe_sends_one_request
                  (desk " ops@example.org " "arn:topic" (Ret "arn:sub"))
                  (mkDeployment "" "" "" "" "" "" "" "" "" "" "" None
                                "arn:topic" "")
                  " ops@example.org " eq_refl (fun _ => eq_refl)
                  (fun _ => eq_refl) ltac:(discriminate) eq_refl)).
Defined.

End SubscribeFacts.

(* ====================================================================== *)
(** * The notification function, for every batch *)
(* ====================================================================== *)

Section NotifyBatches.

Import Notify.

Variable TOPIC_ARN : string.

Lemma process_record_unreadable (env : Env Call) (h : Trace Call)
      (record : StreamRecord) (n : nat) :
  readable record = false ->
  exists e, process_record TOPIC_ARN record n env h = (Raise e, []).
Proof.
  unfold readable, count_integral, new_count, process_record.
  destruct (is_insert_or_modify (eventName record)); simpl; [| discriminate].
  destruct (parse_count (new_image_of record)) as [z | e]; [discriminate |].
  intros _. now exists e.
Qed.

Lemma records_loop_any (env : Env Call) (records : list StreamRecord) :
  forall (h : Trace Call) (n : nat),
  exists o d,
    for_fold records (process_record TOPIC_ARN) n env h = (o, d)
    /\ publish_calls d
       = map (alert_for TOPIC_ARN) (filter low_stock (readable_prefix records))
    /\ (if forallb readable records then o = Ok (n + delivered d)
        else exists e, o = Raise e).
Proof.
  induction records as [| r records IH]; intros h n.
  - exists (Ok n), []. simpl. unfold ret. now rewrite Nat.add_0_r.
  - simpl. destruct (readable r) eqn:Hr.
    + destruct (process_record_integral TOPIC_ARN env h r n Hr)
        as (d1 & E1 & P1).
      destruct (IH (h ++ d1) (n + delivered d1)) as (o & d2 & E2 & P2 & O2).
      exists o, (d1 ++ d2). unfold bind. rewrite E1, E2.
      split; [reflexivity |]. split.
      * rewrite publish_calls_app, P1, P2. simpl. now destruct (low_stock r).
      * simpl. destruct (forallb readable records); [| exact O2].
        now rewrite O2, delivered_app, Nat.add_assoc.
    + destruct (process_record_unreadable env h r n Hr) as (e & E).
      exists (Raise e), []. unfold bind. rewrite E. simpl.
      split; [reflexivity |]. split; [reflexivity |]. now exists e.
Qed.

End NotifyBatches.

(** X3: the notification handler never raises.  It publishes one message
    for each low-stock record up to the first record whose Count it cannot
    read, and no other; it answers 200, with the number of messages
    delivered, when it got through the whole batch, and 500 otherwise. *)
Theorem notify_publishes_until_unreadable (TOPIC_ARN : string)
        (env : Env Notify.Call) (event : Notify.StreamEvent) :
  exists r d,
    run (Notify.lambda_handler TOPIC_ARN event) env = (Ok r, d)
    /\ Notify.publish_calls d
       = map (Notify.alert_for TOPIC_ARN)
             (filter Notify.low_stock
                     (readable_prefix (Notify.records_of event)))
    /\ (if forallb Notify.readable (Notify.records_of event)
        then r = mkResponse 200 (Notify.summary (Notify.delivered d))
        else statusCode r = 500%Z).
Proof.
  destruct (records_loop_any TOPIC_ARN env (Notify.records_of event) [] 0)
    as (o & d & E & P & O).
  unfold run, Notify.lambda_handler. fold (Notify.records_of event).
  unfold try_except, bind. rewrite E.
  destruct (forallb Notify.readable (Notify.records_of event)).
  - subst o. simpl. exists (mkResponse 200 (Notify.summary (Notify.delivered d))), d.
    rewrite app_nil_r. now repeat split.
  - destruct O as (e & ->). simpl. eexists. exists d.
    rewrite app_nil_r. now repeat split.
Qed.

(* ====================================================================== *)
(** * The ingestion function, for every table and several objects *)
(* ====================================================================== *)

Section LoadRuns.

Import Load.

Variable DictReader : string -> Reading.
Variable strip : string -> string.
Variable int : string -> option Z.

Lemma put_calls_app (t1 t2 : Trace Call) :
  put_calls (t1 ++ t2) = put_calls t1 ++ put_calls t2.
Proof. apply flat_map_app. Qed.

Lemma get_calls_app (t1 t2 : Trace Call) :
  get_calls (t1 ++ t2) = get_calls t1 ++ get_calls t2.
Proof. apply flat_map_app. Qed.

Lemma accepted_app (t1 t2 : Trace Call) :
  accepted (t1 ++ t2) = accepted t1 + accepted t2.
Proof. unfold accepted. now rewrite map_app, list_sum_app. Qed.

(** One row, whatever the table answers. *)
Lemma process_row_any (env : Env Call) (row : Row) (n : nat) (h : Trace Call) :
  exists d,
    process_row strip int row n env h = (Ok (n + accepted d), d)
    /\ put_calls d = (if row_valid int row then [put_of strip int row] else [])
    /\ get_calls d = [].
Proof.
  unfold process_row, row_valid, present, put_of, field_or_empty,
    stripped_field, count_field.
  destruct (Py.dict_get row "Store") as [[store |] |];
    try (exists []; unfold try_except, bind, raise, ret; simpl;
         now rewrite Nat.add_0_r).
  destruct (Py.dict_get row "Item") as [[item |] |];
    try (exists []; unfold try_except, bind, raise, ret; simpl;
         now rewrite Nat.add_0_r).
  destruct (Py.dict_get row "Count") as [[c |] |];
    try (exists []; unfold try_except, bind, raise, ret; simpl;
         now rewrite Nat.add_0_r).
  destruct (int c) as [z |];
    try (exists []; unfold try_except, bind, raise, ret; simpl;
         now rewrite Nat.add_0_r).
  unfold try_except, bind, ret, call. simpl.
  match goal with |- context [env unit ?hh ?cc] =>
    destruct (env unit hh cc) as [[] | e] end;
    simpl;
    match goal with |- exists d, (_, ?t) = _ /\ _ => exists t end;
    simpl; rewrite ?Nat.add_0_r; auto.
Qed.

Lemma rows_loop_any (env : Env Call) (rows : list Row) :
  forall (n : nat) (h : Trace Call),
  exists d,
    for_fold rows (process_row strip int) n env h = (Ok (n + accepted d), d)
    /\ put_calls d = map (put_of strip int) (filter (row_valid int) rows)
    /\ get_calls d = [].
Proof.
  induction rows as [| row rows IH]; intros n h; simpl.
  - exists []. unfold ret. now rewrite Nat.add_0_r.
  - destruct (process_row_any env row n h) as (d1 & E1 & P1 & G1).
    destruct (IH (n + accepted d1) (h ++ d1)) as (d2 & E2 & P2 & G2).
    exists (d1 ++ d2). unfold bind. rewrite E1, E2.
    rewrite accepted_app, put_calls_app, get_calls_app, P1, P2, G1, G2,
      Nat.add_assoc.
    split; [reflexivity |]. split; [| reflexivity].
    now destruct (row_valid int row).
Qed.

(** One object that the bucket serves: the rows the reader yields are
    handled, then the reader's error, if any, is raised. *)
Lemma process_object_served (env : Env Call) (record : S3Record)
      (content : string) (s : option nat) (h : Trace Call) :
  env string h (GetObject (bucket_name record) (object_key record))
  = Ret content ->
  exists d,
    process_object DictReader strip int record s env h
    = (match stopped (DictReader content) with
       | None => Ok (Some (accepted d))
       | Some e => Raise e
       end,
       Ev (GetObject (bucket_name record) (object_key record)) (Ret content)
          :: d)
    /\ put_calls d = valid_puts DictReader strip int content
    /\ get_calls d = [].
Proof.
  intros Hget. unfold process_object, bind, call. rewrite Hget.
  match goal with |- context [for_fold ?rows (process_row strip int) 0 env ?hh] =>
    destruct (rows_loop_any env rows 0 hh) as (d & E & P & G) end.
  exists d. rewrite E. simpl.
  destruct (stopped (DictReader content)); simpl; rewrite app_nil_r;
    now repeat split.
Qed.

(** Several objects, all of them served and read to the end. *)
Lemma objects_loop_served (env : Env Call) (store : string -> string -> string)
      (records : list S3Record) :
  (forall p h, In p records ->
      env string h (GetObject (bucket_name p) (object_key p))
      = Ret (store (bucket_name p) (object_key p))) ->
  (forall p, In p records ->
      stopped (DictReader (store (bucket_name p) (object_key p))) = None) ->
  forall (s : option nat) (h : Trace Call),
  exists o d,
    for_fold records (process_object DictReader strip int) s env h = (Ok o, d)
    /\ put_calls d
       = flat_map (fun p => valid_puts DictReader strip int
                              (store (bucket_name p) (object_key p))) records
    /\ get_calls d = map (fun p => (bucket_name p, object_key p)) records
    /\ (s <> None -> o <> None).
Proof.
  induction records as [| p records IH]; intros Hget Hread s h; simpl.
  - exists s, []. unfold ret. now repeat split.
  - destruct (process_object_served env p s h (Hget p h (or_introl eq_refl)))
      as (d1 & E1 & P1 & G1).
    rewrite (Hread p (or_introl eq_refl)) in E1.
    match type of E1 with _ = (_, ?t) => set (t1 := t) in * end.
    destruct (IH (fun q hh Hq => Hget q hh (or_intror Hq))
                 (fun q Hq => Hread q (or_intror Hq))
                 (Some (accepted d1)) (h ++ t1))
      as (o & d2 & E2 & P2 & G2 & O2).
    exists o, (t1 ++ d2). unfold bind. rewrite E1, E2.
    split; [reflexivity |].
    rewrite put_calls_app, get_calls_app, P2, G2. subst t1. simpl.
    rewrite P1, G1. repeat split. intros _. apply O2. discriminate.
Qed.

End LoadRuns.

Lemma accepted_le_put_calls (t : Trace Load.Call) :
  accepted t <= length (put_calls t).
Proof.
  induction t as [| e t IH]; [apply Nat.le_refl |].
  unfold accepted, put_calls in *. simpl. rewrite length_app.
  apply Nat.add_le_mono; [| exact IH].
  destruct e as [R c r |]; [| apply Nat.le_refl].
  destruct c; destruct r; simpl; auto.
Qed.

(** X4: for one uploaded CSV served by the bucket, whatever the table
    answers and whatever the reader does: the handler calls [put_item] for
    every valid row the reader yields, in order; a request the table refuses
    does not stop the loop and is not counted.  When the reader gets to the
    end of the text the answer is 200 with the number of requests the table
    accepted; when the reader raises, the answer is 500 with the text of
    its error. *)
Theorem load_counts_accepted_rows (DictReader : string -> Load.Reading)
        (strip : string -> string) (int : string -> option Z)
        (env : Env Load.Call) (record : Load.S3Record) (content : string) :
  (forall h, env string h (Load.GetObject (Load.bucket_name record)
                                          (Load.object_key record))
             = Ret content) ->
  exists d,
    run (Load.lambda_handler DictReader strip int (Load.mkEvent (Some [record]))) env
    = (Ok match Load.stopped (DictReader content) with
          | None => mkResponse 200 (Load.success (accepted d))
          | Some e => load_error e
          end,
       Ev (Load.GetObject (Load.bucket_name record) (Load.object_key record))
          (Ret content) :: d)
    /\ put_calls d = valid_puts DictReader strip int content
    /\ accepted d <= length (valid_puts DictReader strip int content).
Proof.
  intros Hget.
  destruct (process_object_served DictReader strip int env record None [] (Hget []))
    as (d & E & P & _).
  exists d. split; [| split; [exact P |]].
  - unfold run, Load.lambda_handler, try_except, bind at 1. simpl.
    unfold bind at 1. rewrite E.
    destruct (Load.stopped (DictReader content)); simpl;
      now rewrite !app_nil_r.
  - rewrite <- P. apply accepted_le_put_calls.
Qed.

Lemma load_counts_accepted_rows_witness :
  exists d,
    run (Load.lambda_handler Load.simple_DictReader Py.strip Py.int_of_str
           (Load.mkEvent (Some [Load.upload])))
        (shelf (fun _ _ => Load.sample_csv) (Some "Madrid"))
    = (Ok (mkResponse 200 (Load.success (accepted d))),
       Ev (Load.GetObject (Load.bucket_name Load.upload)
                          (Load.object_key Load.upload))
          (Ret Load.sample_csv) :: d)
    /\ put_calls d
       = valid_puts Load.simple_DictReader Py.strip Py.int_of_str Load.sample_csv
    /\ accepted d
       <= length (valid_puts Load.simple_DictReader Py.strip Py.int_of_str
                             Load.sample_csv).
Proof.
  exact (@load_counts_accepted_rows Load.simple_DictReader Py.strip Py.int_of_str
           (shelf (fun _ _ => Load.sample_csv) (Some "Madrid")) Load.upload
           Load.sample_csv (fun _ => eq_refl)).
Defined.

(** X5: for a notification that names several objects, all served, all
    read to the end by the reader and all rows accepted, the handler inserts
    the valid rows of every object, in order, but the count it reports is
    that of the last object alone. *)
Theorem load_reports_last_object (DictReader : string -> Load.Reading)
        (strip : string -> string) (int : string -> option Z)
        (env : Env Load.Call) (store : string -> string -> string)
        (pre : list Load.S3Record) (last : Load.S3Record) :
  (forall b k h, env string h (Load.GetObject b k) = Ret (store b k)) ->
  (forall p, In p (pre ++ [last]) ->
      Load.stopped
        (DictReader (store (Load.bucket_name p) (Load.object_key p))) = None) ->
  Load.put_item_ok env ->
  let content_of p := store (Load.bucket_name p) (Load.object_key p) in
  let r := run (Load.lambda_handler DictReader strip int
                  (Load.mkEvent (Some (pre ++ [last])))) env in
  fst r = Ok (mkResponse 200
                (Load.success
                   (length (valid_puts DictReader strip int (content_of last)))))
  /\ put_calls (snd r)
     = flat_map (fun p => valid_puts DictReader strip int (content_of p))
                (pre ++ [last])
  /\ get_calls (snd r)
     = map (fun p => (Load.bucket_name p, Load.object_key p)) (pre ++ [last]).
Proof.
  intros Hget Hread Hput content_of r.
  destruct (@objects_loop_served DictReader strip int env store (pre ++ [last])
              (fun p h _ => Hget _ _ h) Hread None [])
    as (o & d & E & P & G & _).
  assert (Hfst : fst (for_fold (pre ++ [last])
                               (Load.process_object DictReader strip int)
                               None env [])
                 = Ok (Some (length (valid_puts DictReader strip int
                                                (content_of last))))).
  { rewrite for_fold_app.
    destruct (@objects_loop_served DictReader strip int env store pre
                (fun p h _ => Hget _ _ h)
                (fun p Hp => Hread p (@in_or_app _ pre [last] p (or_introl Hp))) None [])
      as (o1 & d1 & E1 & _).
    unfold bind at 1. rewrite E1. simpl.
    unfold bind at 1, Load.process_object, bind at 1, call. rewrite Hget.
    unfold bind. rewrite (rows_loop_spec _ _ _ Hput).
    rewrite (Hread last (@in_or_app _ pre [last] last
                           (or_intror (or_introl eq_refl)))).
    simpl.
    unfold valid_puts, content_of. now rewrite length_map. }
  rewrite E in Hfst. simpl in Hfst. injection Hfst as ->.
  assert (Hrun : r = (Ok (mkResponse 200
                            (Load.success
                               (length (valid_puts DictReader strip int
                                                   (content_of last))))), d)).
  { subst r. unfold run, Load.lambda_handler, try_except, bind at 1.
    cbn [Load.Records]. rewrite E. simpl. now rewrite ?app_nil_r. }
  rewrite Hrun. split; [reflexivity |]. split; [exact P | exact G].
Qed.

Lemma load_reports_last_object_witness :
  let r := run (Load.lambda_handler Load.simple_DictReader Py.strip Py.int_of_str
                  (Load.mkEvent
                     (Some ([Load.upload]
                            ++ [Load.mkS3Record "uploads" "late.csv"]))))
               (shelf two_files None) in
  fst r = Ok (mkResponse 200 (Load.success 1))
  /\ length (put_calls (snd r)) = 4.
Proof.
  destruct (@load_reports_last_object Load.simple_DictReader Py.strip Py.int_of_str
              (shelf two_files None) two_files [Load.upload]
              (Load.mkS3Record "uploads" "late.csv")
              (fun _ _ _ => eq_refl))
    as (H1 & H2 & _).
  - intros p [<- | [<- | []]]; reflexivity.
  - intros h store item count. reflexivity.
  - intro r. subst r. rewrite H1, H2. split; reflexivity.
Defined.

(** X6: when an object of the notification cannot be downloaded, after
    objects that were served and read to the end, the handler answers 500
    with the text of the error and asks for no further object; what it
    inserted from the objects before stays inserted. *)
Theorem load_failed_download_is_500 (DictReader : string -> Load.Reading)
        (strip : string -> string) (int : string -> option Z)
        (env : Env Load.Call) (store : string -> string -> string)
        (pre post : list Load.S3Record) (bad : Load.S3Record) (e : Exn) :
  (forall p h, In p pre ->
      env string h (Load.GetObject (Load.bucket_name p) (Load.object_key p))
      = Ret (store (Load.bucket_name p) (Load.object_key p))) ->
  (forall p, In p pre ->
      Load.stopped
        (DictReader (store (Load.bucket_name p) (Load.object_key p))) = None) ->
  (forall h, env string h (Load.GetObject (Load.bucket_name bad)
                                          (Load.object_key bad)) = Err e) ->
  exists d,
    run (Load.lambda_handler DictReader strip int
           (Load.mkEvent (Some (pre ++ bad :: post)))) env
    = (Ok (load_error e),
       d ++ [Ev (Load.GetObject (Load.bucket_name bad) (Load.object_key bad))
                (Err e)])
    /\ put_calls d
       = flat_map (fun p => valid_puts DictReader strip int
                              (store (Load.bucket_name p) (Load.object_key p)))
                  pre
    /\ get_calls d
       = map (fun p => (Load.bucket_name p, Load.object_key p)) pre.
Proof.
  intros Hpre Hread Hbad.
  destruct (@objects_loop_served DictReader strip int env store pre Hpre Hread
              None [])
    as (o & d & E & P & G & _).
  exists d. split; [| split; [exact P | exact G]].
  unfold run, Load.lambda_handler, try_except, bind at 1.
  cbn [Load.Records]. rewrite for_fold_app. unfold bind at 1. rewrite E.
  simpl. unfold bind at 1, Load.process_object, bind at 1, call.
  rewrite Hbad. simpl. now rewrite app_nil_r.
Qed.

Lemma load_failed_download_is_500_witness :
  statusCode_of_run
    (run (Load.lambda_handler Load.simple_DictReader Py.strip Py.int_of_str
            (Load.mkEvent
               (Some ([Load.upload]
                      ++ Load.mkS3Record "uploads" "gone.csv"
                      :: [Load.mkS3Record "uploads" "late.csv"]))))
         (shelf_without "gone.csv"))
  = Some 500%Z.
Proof.
  destruct (@load_failed_download_is_500 Load.simple_DictReader Py.strip Py.int_of_str
              (shelf_without "gone.csv") two_files [Load.upload]
              [Load.mkS3Record "uploads" "late.csv"]
              (Load.mkS3Record "uploads" "gone.csv")
              (ClientError "NoSuchKey" "GetObject"
                           "The specified key does not exist."))
    as (d & E & _).
  - intros p h [<- | []]. reflexivity.
  - intros p [<- | []]. reflexivity.
  - intros h. reflexivity.
  - rewrite E. reflexivity.
Defined.

(** X28: when the reader raises on an object of the notification, after
    objects that were served and read to the end, the rows it yielded before
    the error are inserted, the handler answers 500 with the text of the
    reader's error and asks for no further object. *)
Theorem load_unreadable_csv_is_500 (DictReader : string -> Load.Reading)
        (strip : string -> string) (int : string -> option Z)
        (env : Env Load.Call) (store : string -> string -> string)
        (pre post : list Load.S3Record) (bad : Load.S3Record) (e : Exn) :
  (forall p h, In p (pre ++ [bad]) ->
      env string h (Load.GetObject (Load.bucket_name p) (Load.object_key p))
      = Ret (store (Load.bucket_name p) (Load.object_key p))) ->
  (forall p, In p pre ->
      Load.stopped
        (DictReader (store (Load.bucket_name p) (Load.object_key p))) = None) ->
  Load.stopped
    (DictReader (store (Load.bucket_name bad) (Load.object_key bad)))
  = Some e ->
  let r := run (Load.lambda_handler DictReader strip int
                  (Load.mkEvent (Some (pre ++ bad :: post)))) env in
  fst r = Ok (load_error e)
  /\ put_calls (snd r)
     = flat_map (fun p => valid_puts DictReader strip int
                            (store (Load.bucket_name p) (Load.object_key p)))
                (pre ++ [bad])
  /\ get_calls (snd r)
     = map (fun p => (Load.bucket_name p, Load.object_key p)) (pre ++ [bad]).
Proof.
  intros Hget Hread Hbad r.
  destruct (@objects_loop_served DictReader strip int env store pre
              (fun p h Hp => Hget p h (@in_or_app _ pre [bad] p (or_introl Hp)))
              Hread None [])
    as (o & d & E & P & G & _).
  destruct (@process_object_served DictReader strip int env bad
              (store (Load.bucket_name bad) (Load.object_key bad)) o
              ([] ++ d)
              (Hget bad _ (@in_or_app _ pre [bad] bad
                             (or_intror (or_introl eq_refl)))))
    as (d' & E' & P' & G').
  rewrite Hbad in E'.
  assert (Hrun : r = (Ok (load_error e),
                      d ++ Ev (Load.GetObject (Load.bucket_name bad)
                                              (Load.object_key bad))
                              (Ret (store (Load.bucket_name bad)
                                          (Load.object_key bad))) :: d')).
  { subst r. unfold run, Load.lambda_handler, try_except, bind at 1.
    cbn [Load.Records]. rewrite for_fold_app. unfold bind at 1. rewrite E.
    cbn [for_fold]. unfold bind at 1. rewrite E'. simpl.
    now rewrite ?app_nil_r. }
  rewrite Hrun. cbn [fst snd].
  rewrite put_calls_app, get_calls_app, !flat_map_app, map_app, P, G.
  simpl. rewrite P', G', !app_nil_r. now repeat split.
Qed.

Lemma load_unreadable_csv_is_500_witness :
  let r := run (Load.lambda_handler Load.simple_DictReader Py.strip Py.int_of_str
                  (Load.mkEvent
                     (Some ([Load.mkS3Record "uploads" "late.csv"]
                            ++ Load.mkS3Record "uploads" "torn.csv"
                            :: [Load.upload]))))
               (shelf torn_file None) in
  fst r = Ok (load_error Load.csv_error)
  /\ length (put_calls (snd r)) = 2
  /\ get_calls (snd r) = [("uploads", "late.csv"); ("uploads", "torn.csv")].
Proof.
  destruct (@load_unreadable_csv_is_500 Load.simple_DictReader Py.strip Py.int_of_str
              (shelf torn_file None) torn_file
              [Load.mkS3Record "uploads" "late.csv"] [Load.upload]
              (Load.mkS3Record "uploads" "torn.csv") Load.csv_error)
    as (H1 & H2 & H3).
  - intros p h _. reflexivity.
  - intros p [<- | []]. reflexivity.
  - reflexivity.
  - intro r. subst r. rewrite H1, H2, H3. repeat split.
Defined.

(* ====================================================================== *)
(** * The query function, for every table *)
(* ====================================================================== *)

Section ApiRuns.

Import Api.

Variable env : Env Call.

Lemma scan_more_outcome (fuel : nat) :
  forall (response : ScanResponse) (items : list InventoryItem)
         (h : Trace Call),
    match scan_more fuel response items env h with
    | (Ok _, d) => failures d = []
    | (Raise e, d) => failures d = [e]
    | (Exit _, _) => False
    | (Diverge, d) => failures d = []
    end.
Proof.
  induction fuel as [| fuel IH]; intros response items h; simpl;
    destruct (LastEvaluatedKey response) as [k |]; try reflexivity.
  unfold bind, call.
  destruct (@env ScanResponse h (Scan (Some k))) as [response' | e];
    [| reflexivity].
  match goal with |- context [scan_more fuel ?r ?i env ?hh] =>
    specialize (IH r i hh); destruct (scan_more fuel r i env hh) as [[] d]
  end; simpl; auto.
Qed.

Lemma get_all_items_outcome (path : string) (fuel : nat) (h : Trace Call) :
  api_outcome path (get_all_items fuel env h).
Proof.
  unfold get_all_items, try_except, bind, call.
  destruct (@env ScanResponse h (Scan None)) as [response | e];
    [| right; exists e; auto].
  match goal with |- context [scan_more fuel ?r ?i env ?hh] =>
    pose proof (scan_more_outcome fuel r i hh) as H;
    destruct (scan_more fuel r i env hh) as [[items | e | c |] d]
  end; unfold api_outcome, failures in *; simpl; rewrite ?app_nil_r.
  - left. rewrite H. auto.
  - right. exists e. rewrite H. auto.
  - contradiction.
  - exact H.
Qed.

Lemma get_items_by_store_outcome (path store : string) (h : Trace Call) :
  api_outcome path (get_items_by_store store env h).
Proof.
  unfold api_outcome, get_items_by_store, try_except, bind, call.
  destruct (@env QueryResponse h (Query store)) as [response | e]; simpl.
  - left. auto.
  - right. exists e. auto.
Qed.

End ApiRuns.

(** X7: the query handler never raises.  When no call to the table
    fails it answers 200, or 404 for a path it does not know; when a scan or
    a query fails, also in the middle of a pagination, it answers 500 with
    the text of the error and returns no partial result. *)
Theorem api_failure_is_500 (env : Env Api.Call) (fuel : nat)
        (event : Api.HttpEvent) :
  api_outcome (Api.path_of event) (run (Api.lambda_handler fuel event) env).
Proof.
  unfold run, Api.lambda_handler. fold (Api.path_of event).
  destruct (Api.truthy (Api.store_of event)).
  - apply get_items_by_store_outcome.
  - match goal with |- context [if ?b then _ else _] => destruct b end.
    + apply get_all_items_outcome.
    + unfold api_outcome, ret. simpl. left. auto.
Qed.

(* ====================================================================== *)
(** * Strings: [in], [split] *)
(* ====================================================================== *)

(** X8: a request without path parameters whose raw path ends in
    [/items/<store>], under any prefix such as a stage name, is answered
    with the records of that store: the handler takes the last segment of the
    path for the store. *)
Theorem api_store_from_raw_path (event : Api.HttpEvent) (pre store : string)
        (fuel : nat) (env : Env Api.Call) :
  Api.rawPath event = Some (pre ++ "/items/" ++ store)%string ->
  Api.pathParameters event = None ->
  store <> "" ->
  Py.contains "/" store = false ->
  Api.store_of event = Some store
  /\ run (Api.lambda_handler fuel event) env
     = run (Api.get_items_by_store store) env.
Proof.
  intros Hpath Hparams Hne Hslash.
  assert (Hstore : Api.store_of event = Some store).
  { unfold Api.store_of. rewrite Hpath, Hparams. simpl negb.
    rewrite (contains_append "/items/" pre store). simpl andb. cbv iota.
    rewrite (@split_items_path pre store Hslash).
    change (Py.split "/" pre ++ ["items"; store])
      with (Py.split "/" pre ++ ["items"] ++ [store]).
    rewrite app_assoc, last_last, length_app, length_app. simpl length.
    pose proof (split_onto_nonempty "/" pre "") as Hlen.
    fold (Py.split "/" pre) in Hlen.
    match goal with |- (if Nat.leb 3 ?n then _ else _) = _ =>
      destruct (Nat.leb_spec 3 n); [reflexivity | lia] end. }
  split; [exact Hstore |].
  unfold run, Api.lambda_handler. rewrite Hstore.
  destruct store; [now elim Hne | reflexivity].
Qed.

Lemma api_store_from_raw_path_witness :
  Api.store_of (raw_request "/prod/items/Berlin") = Some "Berlin".
Proof.
  exact (proj1 (@api_store_from_raw_path (raw_request "/prod/items/Berlin")
                  "/prod" "Berlin" 0 (Api.table Api.stock 10)
                  eq_refl eq_refl ltac:(discriminate) eq_refl)).
Defined.

(* ====================================================================== *)
(** * Teardown: what is never done, what is always done *)
(* ====================================================================== *)

Section DestroyRuns.

Import Destroy.

(** X9: without the record the teardown ends with status 1, and when the
    operator answers anything but "sí" it ends with status 0; in both cases
    it has made no call to the provider and has left the record file
    alone. *)
Theorem destroy_needs_record_and_confirmation (REGION config_file : string)
        (env : Env Call) :
  ((forall h, env bool h FileExists = Ret false) ->
   fst (run (script REGION config_file) env) = Exit 1%Z
   /\ existsb changes_something (snd (run (script REGION config_file) env))
      = false)
  /\ (forall config answer,
         (forall h, env bool h FileExists = Ret true) ->
         (forall h, env Deployment h ReadRecord = Ret config) ->
         (forall h, env string h (Confirm prompt) = Ret answer) ->
         answer <> "sí" ->
         fst (run (script REGION config_file) env) = Ok tt
         /\ exit_code (fst (run (script REGION config_file) env)) = Some 0%Z
         /\ existsb changes_something
                    (snd (run (script REGION config_file) env)) = false).
Proof.
  split.
  - intros Hno. unfold run, script, bind, call, print. simpl.
    rewrite Hno. simpl. now split.
  - intros config answer Hyes Hrec Hans Hne.
    apply String.eqb_neq in Hne.
    unfold run, script, main, bind, call, print. simpl.
    rewrite Hyes. simpl. rewrite Hrec. simpl. rewrite Hans. simpl.
    rewrite Hne. simpl. now repeat split.
Qed.

Lemma destroy_needs_record_and_confirmation_witness :
  let r := run (script "us-east-1" "infra/deployment.json")
               (cloud "si" listing_1500 (Ret tt) all_topics) in
  fst r = Ok tt /\ existsb changes_something (snd r) = false.
Proof.
  destruct (proj2 (destroy_needs_record_and_confirmation
                     "us-east-1" "infra/deployment.json"
                     (cloud "si" listing_1500 (Ret tt) all_topics))
              sample "si" (fun _ => eq_refl) (fun _ => eq_refl)
              (fun _ => eq_refl) ltac:(discriminate))
    as (H1 & _ & H2).
  exact (conj H1 H2).
Defined.

End DestroyRuns.

Section DestroySteps.

Import Destroy.

Variable env : Env Call.

Lemma forallb_of_emits (A : Type) (f : Event Call -> bool) (m : M Call A)
      (h : Trace Call) :
  emits (fun e => f e = true) m -> forallb f (snd (m env h)) = true.
Proof.
  intros H. apply forallb_forall. intros e He.
  specialize (H env h). rewrite Forall_forall in H. now apply H.
Qed.

(** The block of [delete_lambda] that removes the event source mappings
    returns whatever happens in it. *)
Lemma mappings_block_returns (name : string) (h : Trace Call) :
  exists d,
    try_except
      (response <- call (ListEventSourceMappings name) ;;
       for_each (or_empty response)
         (fun uuid =>
            call (DeleteEventSourceMapping uuid) ;;
            print "    ✓ Event source mapping eliminado"))
      except_any
      (fun _ => ret tt) env h = (Ok tt, d)
    /\ forallb mapping_step d = true.
Proof.
  match goal with |- context [try_except ?m ?c ?hd env h] =>
    set (block := try_except m c hd) end.
  assert (Hr : raises_only env (fun _ => False) block).
  { subst block.
    apply raises_try_except with (Q := fun _ => True);
      [| intros e _ Hc; discriminate Hc | intros; apply raises_ret].
    apply raises_bind; [apply raises_call; intros; exact I | intros].
    apply raises_for_each. intros.
    apply raises_bind; [apply raises_call; intros; exact I | intros].
    apply raises_print. }
  assert (He : emits (fun e => mapping_step e = true) block).
  { subst block. emits_auto. }
  destruct (raises_none_returns h Hr) as ([] & Hfst).
  exists (snd (block env h)). split.
  - rewrite <- Hfst. now destruct (block env h).
  - now apply forallb_of_emits.
Qed.

End DestroySteps.

(** X10: [delete_lambda] asks for the deletion of the function whatever
    happened to its event source mappings: listing them or deleting one may
    fail in any way, and still [delete_function] is called, as the last
    call; before it come only calls about the mappings.  An error response
    to it is passed over. *)
Theorem destroy_lambda_always_deletes_function (env : Env Destroy.Call)
        (name : string) (h : Trace Destroy.Call) :
  exists pre r post,
    snd (Destroy.delete_lambda name env h)
    = pre ++ Ev (Destroy.DeleteFunction name) r :: post
    /\ forallb mapping_step pre = true
    /\ forallb (@is_log Destroy.Call) post = true
    /\ fst (Destroy.delete_lambda name env h) = after_delete r.
Proof.
  destruct (Destroy.delete_lambda name env h) as [o t] eqn:Hrun. cbn [fst snd].
  unfold Destroy.delete_lambda in Hrun.
  unfold bind at 1, print at 1 in Hrun.
  unfold try_except at 1, bind at 1 in Hrun.
  match type of Hrun with
  | context [try_except ?m except_any ?hd env ?hh] =>
      destruct (mappings_block_returns env name hh) as (d & E & Hd)
  end.
  rewrite E in Hrun. unfold bind, call, print in Hrun.
  set (pre := Log (Py.nl ++ "[*] Eliminando Lambda: " ++ name ++ "...")%string
                  :: d).
  assert (Hpre : forallb mapping_step pre = true) by exact Hd.
  match type of Hrun with context [env unit ?hh ?c] =>
    destruct (env unit hh c) as [[] | e] end; simpl in Hrun.
  - injection Hrun as <- <-. exists pre, (Ret tt). eexists.
    split; [reflexivity |]. now rewrite Hpre.
  - exists pre, (Err e). unfold after_delete.
    destruct (except_ClientError e); simpl in Hrun.
    + destruct (String.eqb (error_code e) "ResourceNotFoundException");
        simpl in Hrun; injection Hrun as <- <-; eexists;
        (split; [subst pre; simpl; rewrite <- app_assoc; reflexivity |]);
        now rewrite Hpre.
    + injection Hrun as <- <-. exists []. now rewrite Hpre.
Qed.

(** X11: [delete_all_low_stock_topics] touches no topic whose ARN lacks
    "low-stock": in every environment, its calls are [list_topics],
    [list_subscriptions_by_topic] and [delete_topic] on topics with
    "low-stock" in their ARN, and [unsubscribe]. *)
Theorem destroy_topics_only_low_stock (env : Env Destroy.Call)
        (h : Trace Destroy.Call) :
  forallb topic_step (snd (Destroy.delete_all_low_stock_topics env h)) = true.
Proof.
  apply forallb_of_emits. unfold Destroy.delete_all_low_stock_topics.
  apply emits_bind; [emits_auto | intros _].
  apply emits_bind; [emits_auto | intros response].
  apply emits_for_each. intros arn.
  destruct (Py.contains "low-stock" arn) eqn:E; [| apply emits_ret].
  emits_auto.
Qed.

Section DestroyTopics.

Import Destroy.

Variable env : Env Call.
Hypothesis errors : provider_errors env.

Lemma unsubscribe_loop (subs : list string) :
  forall h, exists d,
    for_each subs
      (fun sub =>
         try_except
           (call (Unsubscribe sub) ;;
            print ("    ✓ Suscripción eliminada: " ++ sub)%string)
           except_ClientError
           (fun _ => ret tt)) env h = (Ok tt, d)
    /\ listed_topics d = [] /\ opened_topics d = [] /\ deleted_topics d = [].
Proof.
  induction subs as [| sub subs IH]; intros h; cbn [for_each].
  - exists []. now repeat split.
  - unfold bind at 1, try_except at 1, bind at 1, call at 1, print at 1.
    destruct (@env unit h (Unsubscribe sub)) as [[] | e] eqn:E;
      cbv iota beta.
    + match goal with |- context [for_each subs ?b env ?hh] =>
        destruct (IH hh) as (d & -> & L & O & D) end.
      eexists. split; [reflexivity |].
      unfold listed_topics, opened_topics, deleted_topics in *.
      rewrite ?flat_map_app. simpl. now rewrite L, O, D.
    + replace (except_ClientError e) with true
        by (symmetry; eapply errors; [| exact E]; reflexivity). unfold ret at 1. cbv iota beta.
      match goal with |- context [for_each subs ?b env ?hh] =>
        destruct (IH hh) as (d & -> & L & O & D) end.
      eexists. split; [reflexivity |].
      unfold listed_topics, opened_topics, deleted_topics in *.
      rewrite ?flat_map_app. simpl. now rewrite L, O, D.
Qed.

Lemma topic_loop (topics : list string) :
  forall h, exists d,
    for_each topics
      (fun arn =>
         if Py.contains "low-stock" arn then
           try_except
             (subs <- call (ListSubscriptionsByTopic arn) ;;
              for_each (or_empty subs)
                (fun sub =>
                   try_except
                     (call (Unsubscribe sub) ;;
                      print ("    ✓ Suscripción eliminada: " ++ sub)%string)
                     except_ClientError
                     (fun _ => ret tt)) ;;
              call (DeleteTopic arn) ;;
              print ("    ✓ Topic eliminado: " ++ arn)%string)
             except_ClientError
             (fun e => print ("    ⚠ Error eliminando " ++ arn ++ ": "
                              ++ str_of_exn e)%string)
         else ret tt) env h = (Ok tt, d)
    /\ listed_topics d = filter (Py.contains "low-stock") topics
    /\ deleted_topics d = opened_topics d.
Proof.
  induction topics as [| arn topics IH]; intros h.
  - exists []. now repeat split.
  - cbn [for_each filter].
    match goal with |- context [for_each topics ?b] =>
      set (loop := for_each topics b) in * end.
    unfold bind at 1.
    destruct (Py.contains "low-stock" arn).
    + unfold try_except at 1, bind at 1, call at 1.
      destruct (@env (option (list string)) h (ListSubscriptionsByTopic arn))
        as [subs | e] eqn:E.
      * unfold bind at 1.
        match goal with |- context [for_each (or_empty subs) ?b env ?hh] =>
          destruct (unsubscribe_loop (or_empty subs) hh)
            as (d1 & -> & L1 & O1 & D1) end.
        unfold bind at 1, call at 1.
        match goal with |- context [@env unit ?hh (DeleteTopic arn)] =>
          destruct (@env unit hh (DeleteTopic arn)) as [[] | e] eqn:E2 end.
        -- unfold print. cbv iota beta.
           match goal with |- context [loop env ?hh] =>
             destruct (IH hh) as (d & -> & L & D) end.
           eexists. split; [reflexivity |].
           unfold listed_topics, opened_topics, deleted_topics in *.
           rewrite ?flat_map_app. simpl. rewrite ?flat_map_app. simpl.
           rewrite L1, O1, D1, L, D. simpl. now split.
        -- cbv iota beta. replace (except_ClientError e) with true
             by (symmetry; eapply errors; [| exact E2]; reflexivity). unfold print.
           cbv iota beta.
           match goal with |- context [loop env ?hh] =>
             destruct (IH hh) as (d & -> & L & D) end.
           eexists. split; [reflexivity |].
           unfold listed_topics, opened_topics, deleted_topics in *.
           rewrite ?flat_map_app. simpl. rewrite ?flat_map_app. simpl.
           rewrite L1, O1, D1, L, D. simpl. now split.
      * cbv iota beta. replace (except_ClientError e) with true
        by (symmetry; eapply errors; [| exact E]; reflexivity). unfold print.
        cbv iota beta.
        match goal with |- context [loop env ?hh] =>
          destruct (IH hh) as (d & -> & L & D) end.
        eexists. split; [reflexivity |].
        unfold listed_topics, opened_topics, deleted_topics in *.
        rewrite ?flat_map_app. simpl. rewrite L, D. now split.
    + unfold ret at 1.
      match goal with |- context [loop env ?hh] =>
        destruct (IH hh) as (d & -> & L & D) end.
      eexists. split; [reflexivity |]. now split.
Qed.

End DestroyTopics.

(** X12: when the topics can be listed and the provider fails only with
    error responses, [delete_all_low_stock_topics] returns, it has asked for
    the subscriptions of every listed topic with "low-stock" in its ARN, in
    order, and it has asked to delete exactly the topics whose subscriptions
    it got, whether the unsubscribing worked or not. *)
Theorem destroy_visits_every_low_stock_topic (env : Env Destroy.Call)
        (topics : option (list string)) (h : Trace Destroy.Call) :
  provider_errors env ->
  (forall h', env (option (list string)) h' Destroy.ListTopics = Ret topics) ->
  let r := Destroy.delete_all_low_stock_topics env h in
  fst r = Ok tt
  /\ listed_topics (snd r)
     = filter (Py.contains "low-stock") (Destroy.or_empty topics)
  /\ deleted_topics (snd r) = opened_topics (snd r).
Proof.
  intros Herr Hlist r.
  assert (Hr : exists d,
             r = (Ok tt, d)
             /\ listed_topics d
                = filter (Py.contains "low-stock") (Destroy.or_empty topics)
             /\ deleted_topics d = opened_topics d).
  { subst r. unfold Destroy.delete_all_low_stock_topics.
    unfold bind at 1, print at 1. unfold bind at 1, call at 1.
    rewrite Hlist.
    match goal with |- context [for_each (Destroy.or_empty topics) ?b env ?hh] =>
      destruct (topic_loop Herr (Destroy.or_empty topics) hh)
        as (d & -> & L & D) end.
    eexists. split; [reflexivity |].
    unfold listed_topics, opened_topics, deleted_topics in *. simpl.
    now split. }
  destruct Hr as (d & -> & L & D). now repeat split.
Qed.

Lemma destroy_visits_every_low_stock_topic_witness :
  listed_topics (snd (Destroy.delete_all_low_stock_topics Destroy.healthy []))
  = [sns_topic_arn Destroy.sample].
Proof.
  refine (proj1 (proj2 (@destroy_visits_every_low_stock_topic
                          Destroy.healthy
                          (Some [sns_topic_arn Destroy.sample;
                                 "arn:aws:sns:us-east-1:123456789012:billing"])
                          [] _ (fun _ => eq_refl)))).
  intros R h c e Hc. destruct c; try discriminate Hc; simpl;
    try discriminate; try (destruct (String.eqb _ _); discriminate).
  now intros [= <-].
Defined.

Section DestroyEmptying.

Import Destroy.

Variable env : Env Call.
Variable bucket : string.

Lemma delete_attempts_app (t1 t2 : Trace Call) :
  delete_attempts bucket (t1 ++ t2)
  = delete_attempts bucket t1 ++ delete_attempts bucket t2.
Proof. apply flat_map_app. Qed.

(** The loop over the batches, whatever the provider answers: it goes on
    while the batches are accepted and ends at the first one refused. *)
Lemma delete_loop_any (all : list ObjectId) (idx : list nat) :
  Forall (fun i => i < length all) idx ->
  forall h, exists done rest o d,
    for_each idx
      (fun i =>
         match slice all i (i + 1000) with
         | [] => ret tt
         | _ => call (DeleteObjects bucket (slice all i (i + 1000)))
         end) env h = (o, d)
    /\ map (fun i => slice all i (i + 1000)) idx = done ++ rest
    /\ delete_attempts bucket d = attempts_until_failure done rest
    /\ match o with
       | Ok _ => rest = []
       | Raise _ => rest <> []
       | _ => False
       end.
Proof.
  induction 1 as [| i idx Hi _ IH]; intros h; cbn [for_each map].
  - exists [], [], (Ok tt), []. now repeat split.
  - match goal with |- context [for_each idx ?b] =>
      set (loop := for_each idx b) in * end.
    pose proof (slice_length all Hi) as Hlen.
    destruct (slice all i (i + 1000)) as [| x batch] eqn:Es;
      [simpl in Hlen; lia |].
    unfold bind, call.
    destruct (@env unit h (DeleteObjects bucket (x :: batch))) as [[] | e].
    + match goal with |- context [loop env ?hh] =>
        destruct (IH hh) as (done & rest & o & d & -> & Hsplit & Hatt & Ho) end.
      exists ((x :: batch) :: done), rest, o.
      eexists. split; [reflexivity |].
      split; [now rewrite Hsplit |]. split; [| exact Ho].
      unfold delete_attempts in *. cbn [flat_map delete_attempt_of app].
      rewrite String.eqb_refl, Hatt. reflexivity.
    + exists [], ((x :: batch) :: map (fun i => slice all i (i + 1000)) idx),
        (Raise e).
      eexists. split; [reflexivity |]. split; [reflexivity |].
      split; [| discriminate].
      unfold delete_attempts. cbn [flat_map delete_attempt_of app].
      now rewrite String.eqb_refl.
Qed.

End DestroyEmptying.

(** [empty_s3_bucket] returns in every environment: its outer [try]
    catches every exception and its handler only prints. *)
Lemma empty_s3_bucket_returns (env : Env Destroy.Call) (bucket : string) :
  raises_only env (fun _ => False) (Destroy.empty_s3_bucket bucket).
Proof.
  unfold Destroy.empty_s3_bucket.
  apply raises_bind; [apply raises_print | intros _].
  apply raises_try_except with (Q := fun _ => True).
  - apply raises_bind; [| intros _].
    { apply raises_try_except with (Q := fun _ => True).
      - apply raises_bind; [| intros _; apply raises_print].
        apply raises_call. intros; exact I.
      - intros e _ Hc. exact I.
      - intros e. apply raises_ret. }
    apply raises_bind; [apply raises_call; intros; exact I | intros pages].
    cbv zeta. apply raises_bind; [| intros _; apply raises_print].
    apply raises_for_each. intros i.
    destruct (slice _ i (i + 1000));
      [apply raises_ret | apply raises_call; intros; exact I].
  - intros e _ Hc. discriminate Hc.
  - intros e.
    destruct (except_ClientError e && String.eqb (error_code e) "NoSuchBucket");
      apply raises_print.
Qed.

(** X13: [empty_s3_bucket] never raises, whatever the provider does.
    When the listing succeeds, it asks for the deletion of the batches in
    order; it goes on while they are accepted and stops at the first batch
    the provider refuses, leaving the batches after it untried. *)
Theorem destroy_emptying_stops_at_refused_batch (env : Env Destroy.Call)
        (bucket : string) (h : Trace Destroy.Call) :
  fst (Destroy.empty_s3_bucket bucket env h) = Ok tt
  /\ (forall pages,
         (forall h', env (list Destroy.Page) h'
                         (Destroy.ListObjectVersions bucket) = Ret pages) ->
         exists done rest,
           batches (Destroy.all_deletes pages) = done ++ rest
           /\ delete_attempts bucket
                (snd (Destroy.empty_s3_bucket bucket env h))
              = attempts_until_failure done rest).
Proof.
  split.
  { destruct (raises_none_returns h (empty_s3_bucket_returns env bucket))
      as [[] E].
    exact E. }
  intros pages listing_ok.
  enough (Hboth :
    fst (Destroy.empty_s3_bucket bucket env h) = Ok tt
    /\ exists done rest,
         batches (Destroy.all_deletes pages) = done ++ rest
         /\ delete_attempts bucket (snd (Destroy.empty_s3_bucket bucket env h))
            = attempts_until_failure done rest) by apply Hboth.
  destruct (Destroy.empty_s3_bucket bucket env h) as [o t] eqn:Hrun.
  cbn [fst snd]. unfold Destroy.empty_s3_bucket in Hrun.
  match type of Hrun with context [try_except ?b except_Exception ?hd] =>
    set (body := b) in Hrun end.
  assert (Hbody :
    forall h1, exists done rest o1 d,
        body env h1 = (o1, d)
        /\ batches (Destroy.all_deletes pages) = done ++ rest
        /\ delete_attempts bucket d = attempts_until_failure done rest
        /\ match o1 with Ok _ | Raise _ => True | _ => False end).
  { intros h1. subst body. unfold bind at 1.
    unfold try_except at 1, bind at 1, call at 1, print at 1.
    destruct (env unit h1 (Destroy.PutBucketVersioning bucket "Suspended"))
      as [[] | e];
      [| cbv iota beta; unfold except_any; cbv iota beta; unfold ret at 1];
      cbv iota beta;
      unfold bind at 1, call at 1; rewrite listing_ok;
      unfold bind at 1; cbv zeta; fold (Destroy.all_deletes pages);
      match goal with |- context [for_each ?idx ?b env ?hh] =>
        destruct (@delete_loop_any env bucket (Destroy.all_deletes pages) idx
                    (range_from_below _ _ _) hh)
          as (done & rest & o1 & d & -> & Hsplit & Hatt & Ho)
      end;
      exists done, rest;
      (destruct o1 as [[] | e1 | c |]; [| | contradiction | contradiction]);
      unfold print; do 2 eexists; (split; [reflexivity |]);
      (split; [exact Hsplit |]); (split; [| exact I]);
      rewrite ?delete_attempts_app; unfold delete_attempts in *;
      cbn [flat_map delete_attempt_of app]; rewrite ?delete_attempts_app;
      rewrite Hatt, ?app_nil_r; reflexivity. }
  clearbody body.
  unfold bind, print, try_except in Hrun.
  match type of Hrun with context [body env ?hh] =>
    destruct (Hbody hh) as (done & rest & o1 & d & E & Hsplit & Hatt & Ho)
  end.
  rewrite E in Hrun.
  destruct o1 as [[] | e1 | c |]; try contradiction.
  - injection Hrun as <- <-. split; [reflexivity |].
    exists done, rest. split; [exact Hsplit |].
    unfold delete_attempts in *. simpl. exact Hatt.
  - simpl in Hrun.
    destruct (except_ClientError e1 && String.eqb (error_code e1) "NoSuchBucket");
      injection Hrun as <- <-; (split; [reflexivity |]);
      exists done, rest; (split; [exact Hsplit |]);
      unfold delete_attempts in *; simpl; rewrite flat_map_app; simpl;
      rewrite app_nil_r; exact Hatt.
Qed.

Lemma destroy_emptying_stops_at_refused_batch_witness :
  map snd (delete_attempts (bucket_uploads Destroy.sample)
             (snd (Destroy.empty_s3_bucket (bucket_uploads Destroy.sample)
                     (refusing_batch 1) [])))
  = [true; false]
  /\ length (batches (Destroy.all_deletes Destroy.listing_1500)) = 2.
Proof.
  destruct (@destroy_emptying_stops_at_refused_batch
              (refusing_batch 1) (bucket_uploads Destroy.sample) [])
    as (_ & Hbatches).
  destruct (Hbatches Destroy.listing_1500 (fun _ => eq_refl))
    as (done & rest & Hsplit & Hatt).
  split; [| vm_compute; reflexivity].
  vm_compute. reflexivity.
Defined.

Section DestroyAllSteps.

Import Destroy.

Variable env : Env Call.
Hypothesis errors : provider_errors env.

Lemma removals_bind (A B : Type) (m : M Call A) (k : A -> M Call B)
      (h : Trace Call) :
  removals (snd (bind m k env h))
  = removals (snd (m env h))
      ++ match fst (m env h) with
         | Ok a => removals (snd (k a env (h ++ snd (m env h))))
         | _ => []
         end.
Proof.
  rewrite snd_bind. unfold removals. rewrite flat_map_app.
  now destruct (fst (m env h)).
Qed.

Lemma removals_guarded (A : Type) (m : M Call A) (catches : Exn -> bool)
      (handler : Exn -> M Call A) (h : Trace Call) :
  (forall e, emits (fun ev => removal_of ev = []) (handler e)) ->
  removals (snd (try_except m catches handler env h))
  = removals (snd (m env h)).
Proof.
  intros Hh. rewrite snd_try_except. unfold removals. rewrite flat_map_app.
  destruct (fst (m env h)); try now rewrite app_nil_r.
  destruct (catches e); [| now rewrite app_nil_r].
  now rewrite (@flat_map_emits_nil _ _ removal_of _ _ env _ (Hh e)), app_nil_r.
Qed.

Lemma step_seq (m k : M Call unit) (a b : list string) :
  step_removes env m a -> step_removes env k b ->
  step_removes env (m ;; k) (a ++ b).
Proof.
  intros Hm Hk h. destruct (Hm h) as [Fm Rm].
  rewrite fst_bind, removals_bind, Fm, Rm.
  destruct (Hk (h ++ snd (m env h))) as [Fk Rk]. now rewrite Fk, Rk.
Qed.

Lemma step_print (line : string) : step_removes env (print line) [].
Proof. intros h. now split. Qed.

Lemma step_after (A : Type) (m : M Call A) (a : A) (k : A -> M Call unit)
      (names : list string) :
  (forall h, fst (m env h) = Ok a /\ removals (snd (m env h)) = []) ->
  step_removes env (k a) names ->
  step_removes env (bind m k) names.
Proof.
  intros Hm Hk h. destruct (Hm h) as [Fm Rm].
  rewrite fst_bind, removals_bind, Fm, Rm.
  destruct (Hk (h ++ snd (m env h))) as [Fk Rk]. now rewrite Fk, Rk.
Qed.

(** A step that returns and asks for no removal. *)
Lemma step_quiet_returns (m : M Call unit) :
  raises_only env (fun _ => False) m ->
  emits (fun ev => removal_of ev = []) m ->
  step_removes env m [].
Proof.
  intros Hr He h. split.
  - destruct (raises_none_returns h Hr) as ([] & ->). reflexivity.
  - now apply flat_map_emits_nil.
Qed.

Ltac cloud_call :=
  apply raises_call; intros h e E; cbv beta;
  eapply errors; [| exact E]; reflexivity.

Ltac returns_anyway :=
  repeat first
    [ apply raises_print
    | apply raises_ret
    | cloud_call
    | apply raises_call; intros; exact I
    | apply raises_bind; [| intros]
    | apply raises_for_each; intros
    | match goal with
      | |- raises_only _ _ (if ?b then _ else _) => destruct b
      | |- raises_only _ _ (match ?l with [] => _ | _ => _ end) => destruct l
      | |- raises_only _ _ (try_except _ except_ClientError _) =>
          apply raises_try_except
            with (Q := fun e => except_ClientError e = true);
          [| intros e Hq Hc; congruence | intros]
      | |- raises_only _ _ (try_except _ _ _) =>
          apply raises_try_except with (Q := fun _ => True);
          [| intros e _ Hc; discriminate Hc | intros]
      end ].

Ltac no_removal := emits_auto.

(** A step of the shape [print; try: body  except ClientError: print]. *)
Lemma step_guarded_removal (line name : string) (body : M Call unit)
      (handler : Exn -> M Call unit) :
  raises_only env (fun e => except_ClientError e = true) body ->
  (forall h, removals (snd (body env h)) = [name]) ->
  (forall e, raises_only env (fun _ => False) (handler e)) ->
  (forall e, emits (fun ev => removal_of ev = []) (handler e)) ->
  step_removes env
    (print line ;; try_except body except_ClientError handler) [name].
Proof.
  intros Hb1 Hb2 Hh1 Hh2.
  change [name] with ([] ++ [name]).
  apply step_seq; [apply step_print |].
  intros h. split.
  - assert (Hr : raises_only env (fun _ => False)
                   (try_except body except_ClientError handler)).
    { apply raises_try_except with (Q := fun e => except_ClientError e = true);
        [exact Hb1 | intros e Hq Hc; congruence | exact Hh1]. }
    destruct (raises_none_returns h Hr) as ([] & ->). reflexivity.
  - rewrite removals_guarded by exact Hh2. apply Hb2.
Qed.

(** The removals of [before; the call; after]. *)
Lemma removals_around (name : string) (before after : M Call unit)
      (c : Call unit) (h : Trace Call) :
  (forall r, removal_of (Ev c r) = [name]) ->
  raises_only env (fun _ => False) before ->
  emits (fun ev => removal_of ev = []) before ->
  emits (fun ev => removal_of ev = []) after ->
  removals (snd ((before ;; call c ;; after) env h)) = [name].
Proof.
  intros Hname Hb1 Hb2 Ha2.
  rewrite removals_bind. unfold removals at 1.
  rewrite (@flat_map_emits_nil _ _ removal_of _ _ env h Hb2). cbn [app].
  destruct (raises_none_returns h Hb1) as ([] & ->).
  rewrite removals_bind, snd_call, fst_call.
  unfold removals at 1. cbn [flat_map]. rewrite app_nil_r, Hname.
  destruct (@env unit _ c) as [[] | e]; [| reflexivity].
  unfold removals.
  now rewrite (@flat_map_emits_nil _ _ removal_of _ _ env _ Ha2).
Qed.

(** The removals of [the call; after]. *)
Lemma removals_from (name : string) (after : M Call unit) (c : Call unit)
      (h : Trace Call) :
  (forall r, removal_of (Ev c r) = [name]) ->
  emits (fun ev => removal_of ev = []) after ->
  removals (snd ((call c ;; after) env h)) = [name].
Proof.
  intros Hname Ha2.
  rewrite removals_bind, snd_call, fst_call.
  unfold removals at 1. cbn [flat_map]. rewrite app_nil_r, Hname.
  destruct (@env unit _ c) as [[] | e]; [| reflexivity].
  unfold removals.
  now rewrite (@flat_map_emits_nil _ _ removal_of _ _ env _ Ha2).
Qed.

Lemma delete_lambda_step (name : string) :
  step_removes env (delete_lambda name) [("delete_function " ++ name)%string].
Proof.
  unfold delete_lambda. apply step_guarded_removal.
  - returns_anyway.
  - intros h. apply removals_around;
      [reflexivity | returns_anyway | no_removal | no_removal].
  - intros e. returns_anyway.
  - intros e. no_removal.
Qed.

Lemma delete_iam_role_step (name : string) :
  step_removes env (delete_iam_role name) [("delete_role " ++ name)%string].
Proof.
  unfold delete_iam_role. apply step_guarded_removal.
  - returns_anyway.
  - intros h. apply removals_around;
      [reflexivity | returns_anyway | no_removal | no_removal].
  - intros e. returns_anyway.
  - intros e. no_removal.
Qed.

Lemma delete_api_gateway_step (id : string) :
  step_removes env (delete_api_gateway id) [("delete_api " ++ id)%string].
Proof.
  unfold delete_api_gateway. apply step_guarded_removal.
  - returns_anyway.
  - intros h. apply removals_from; [reflexivity | no_removal].
  - intros e. returns_anyway.
  - intros e. no_removal.
Qed.

Lemma delete_dynamodb_table_step (name : string) :
  step_removes env (delete_dynamodb_table name)
    [("delete_table " ++ name)%string].
Proof.
  unfold delete_dynamodb_table. apply step_guarded_removal.
  - returns_anyway.
  - intros h. apply removals_from; [reflexivity | no_removal].
  - intros e. returns_anyway.
  - intros e. no_removal.
Qed.

Lemma delete_s3_bucket_step (name : string) :
  step_removes env (delete_s3_bucket name) [("delete_bucket " ++ name)%string].
Proof.
  unfold delete_s3_bucket. apply step_guarded_removal.
  - returns_anyway.
  - intros h. apply removals_from; [reflexivity | no_removal].
  - intros e. returns_anyway.
  - intros e. no_removal.
Qed.

Lemma empty_s3_bucket_step (name : string) :
  step_removes env (empty_s3_bucket name) [].
Proof.
  apply step_quiet_returns; unfold empty_s3_bucket;
    [returns_anyway | no_removal].
Qed.

Lemma unlink_step :
  step_removes env
    (try_except
       (call Unlink ;; print "    ✓ Archivo de configuración eliminado")
       except_any (fun _ => ret tt)) [].
Proof. apply step_quiet_returns; [returns_anyway | no_removal]. Qed.

Lemma step_try (m : M Call unit) (catches : Exn -> bool)
      (handler : Exn -> M Call unit) (names : list string) :
  step_removes env m names ->
  step_removes env (try_except m catches handler) names.
Proof.
  intros Hm h. destruct (Hm h) as [Fm Rm].
  rewrite fst_try_except, snd_try_except, Fm, app_nil_r. now split.
Qed.

Variable topics : option (list string).
Hypothesis topics_listed :
  forall h, @env (option (list string)) h ListTopics = Ret topics.

Lemma delete_all_low_stock_topics_step :
  step_removes env delete_all_low_stock_topics [].
Proof.
  intros h. split.
  - unfold delete_all_low_stock_topics.
    rewrite fst_bind. cbn [print fst snd]. rewrite fst_bind, fst_call.
    rewrite topics_listed, snd_call.
    match goal with |- fst (for_each ?l ?b env ?hh) = _ =>
      destruct (topic_loop errors l hh) as (d & E & _) end.
    now rewrite E.
  - apply flat_map_emits_nil. unfold delete_all_low_stock_topics.
    no_removal.
Qed.

(** The guarded block of [main], once the operator has confirmed. *)
Lemma main_steps (config_file : string) (config : Deployment) :
  (forall h, @env string h (Confirm prompt) = Ret "sí") ->
  step_removes env (main config_file config) (all_removals config).
Proof.
  intros Hconfirm. unfold main.
  assert (H : exists names,
             step_removes env (main config_file config) names
             /\ names = all_removals config).
  { eexists. split.
    - unfold main.
      do 11 (eapply step_seq; [apply step_print |]).
      eapply step_after with (a := "sí").
      { intros h. rewrite fst_call, snd_call, Hconfirm. now split. }
      change (negb (String.eqb "sí" "sí")) with false. cbv iota.
      apply step_try.
      eapply step_seq; [apply step_print |].
      eapply step_seq; [apply unlink_step |].
      eapply step_seq; [apply delete_lambda_step |].
      eapply step_seq; [apply delete_lambda_step |].
      eapply step_seq; [apply delete_lambda_step |].
      eapply step_seq; [apply delete_api_gateway_step |].
      eapply step_seq; [apply delete_dynamodb_table_step |].
      eapply step_seq; [apply empty_s3_bucket_step |].
      eapply step_seq; [apply delete_s3_bucket_step |].
      eapply step_seq; [apply empty_s3_bucket_step |].
      eapply step_seq; [apply delete_s3_bucket_step |].
      eapply step_seq; [apply delete_iam_role_step |].
      eapply step_seq; [apply delete_all_low_stock_topics_step |].
      do 3 (eapply step_seq; [apply step_print |]).
      apply step_print.
    - reflexivity. }
  destruct H as (names & Hs & <-). exact Hs.
Qed.

Lemma script_steps (REGION config_file : string) (config : Deployment) :
  (forall h, @env bool h FileExists = Ret true) ->
  (forall h, @env Deployment h ReadRecord = Ret config) ->
  (forall h, @env string h (Confirm prompt) = Ret "sí") ->
  step_removes env (script REGION config_file) (all_removals config).
Proof.
  intros Hfile Hread Hconfirm. unfold script.
  change (all_removals config) with ([] ++ all_removals config).
  apply step_seq; [apply step_print |].
  eapply step_after with (a := true).
  { intros h. rewrite fst_call, snd_call, Hfile. now split. }
  cbn [negb].
  eapply step_after with (a := config).
  { intros h. rewrite fst_call, snd_call, Hread. now split. }
  now apply main_steps.
Qed.

End DestroyAllSteps.

Section DestroyBucketClaim.

Import Destroy.

Ltac quiet_solve Hne :=
  first [ apply delete_lambda_quiet
        | apply delete_api_gateway_quiet
        | apply delete_dynamodb_table_quiet
        | apply delete_iam_role_quiet
        | apply delete_all_low_stock_topics_quiet
        | apply empty_other_bucket_quiet; exact Hne
        | apply delete_other_bucket_quiet; exact Hne
        | solve [unfold quiet, silent; emits_auto] ].

Ltac pass_over Hfst :=
  eapply step_passes; [quiet_solve I | Hfst | intros].

(** C4: the emptying of a bucket of the record deletes everything the
    listing shows, object versions and delete markers alike, in batches of
    1 to 1000 entries, ceil(n / 1000) of them (two for 1500 entries).  In
    every run of [main] the S3 calls on the bucket are these, in this order,
    followed by the deletion of the bucket, or none at all when the run does
    not get that far; and when the operator confirms and the provider fails
    only with error responses, the run does get that far: the S3 calls on
    the bucket are the suspension of versioning, the listing, one
    [delete_objects] per batch and then [delete_bucket]. *)
Theorem destroy_empties_bucket_before_delete
        (config_file : string) (config : Deployment) (env : Env Call)
        (bucket : string) (pages : list Page) :
  bucket = bucket_uploads config \/ bucket = bucket_web config ->
  bucket_uploads config <> bucket_web config ->
  (forall h, env (list Page) h (ListObjectVersions bucket) = Ret pages) ->
  (forall h batch, env unit h (DeleteObjects bucket batch) = Ret tt) ->
  let all := all_deletes pages in
  concat (batches all) = all
  /\ Forall (fun b => 1 <= length b <= 1000) (batches all)
  /\ length (batches all) = (length all + 999) / 1000
  /\ (length all = 1500 -> length (batches all) = 2)
  /\ (forall h,
         fst (empty_s3_bucket bucket env h) = Ok tt
         /\ exists r,
              filter (about_bucket bucket) (snd (empty_s3_bucket bucket env h))
              = Ev (PutBucketVersioning bucket "Suspended") r
                :: Ev (ListObjectVersions bucket) (Ret pages)
                :: map (fun b => Ev (DeleteObjects bucket b) (Ret tt))
                       (batches all))
  /\ (forall h,
         let t := filter (about_bucket bucket)
                         (snd (main config_file config env h)) in
         t = []
         \/ exists r r',
              t = Ev (PutBucketVersioning bucket "Suspended") r
                  :: Ev (ListObjectVersions bucket) (Ret pages)
                  :: map (fun b => Ev (DeleteObjects bucket b) (Ret tt))
                         (batches all)
                  ++ [Ev (DeleteBucket bucket) r'])
  /\ ((forall h, env string h (Confirm prompt) = Ret "sí") ->
      provider_errors env ->
      forall h, exists r r',
        filter (about_bucket bucket) (snd (main config_file config env h))
        = emptying bucket pages r ++ [Ev (DeleteBucket bucket) r']).
Proof.
  intros Hbucket Hdistinct Hlist Hdel all.
  destruct (batches_spec all) as (Hconcat & Hsizes & Hcount).
  split; [exact Hconcat |]. split; [exact Hsizes |].
  split; [exact Hcount |].
  split; [intros H1500; rewrite Hcount, H1500; reflexivity |].
  split; [intros h; apply (empty_s3_bucket_spec env bucket Hlist Hdel h) |].
  split.
  - intros h.
    change (emptied_then_deleted bucket pages
              (filter (about_bucket bucket)
                      (snd (main config_file config env h)))).
    unfold main.
    do 12 (apply step_quiet; [quiet_solve I | intros]).
    match goal with
    | |- context [negb (String.eqb ?answer "sí")] =>
        destruct (negb (String.eqb answer "sí"))
    end.
    { left. reflexivity. }
    apply guarded_quiet; [intros; quiet_solve I |].
    do 7 (apply step_quiet; [quiet_solve I | intros]).
    destruct Hbucket as [-> | ->].
    + apply bucket_steps; [exact Hlist | exact Hdel |].
      assert (Hne : String.eqb (bucket_web config) (bucket_uploads config)
                    = false)
        by (apply String.eqb_neq; congruence).
      unfold quiet, silent.
      apply emits_bind; [apply empty_other_bucket_quiet; exact Hne | intros].
      apply emits_bind; [apply delete_other_bucket_quiet; exact Hne | intros].
      apply emits_bind; [apply delete_iam_role_quiet | intros].
      apply emits_bind; [apply delete_all_low_stock_topics_quiet | intros].
      emits_auto.
    + assert (Hne : String.eqb (bucket_uploads config) (bucket_web config)
                    = false)
        by (apply String.eqb_neq; congruence).
      apply step_quiet; [now apply empty_other_bucket_quiet | intros].
      apply step_quiet; [now apply delete_other_bucket_quiet | intros].
      apply bucket_steps; [exact Hlist | exact Hdel |].
      unfold quiet, silent.
      apply emits_bind; [apply delete_iam_role_quiet | intros].
      apply emits_bind; [apply delete_all_low_stock_topics_quiet | intros].
      emits_auto.
  - intros Hconfirm Herrors h.
    change (emptied_and_deleted bucket pages
              (filter (about_bucket bucket)
                      (snd (main config_file config env h)))).
    unfold main.
    do 11 (pass_over reflexivity).
    pass_over ltac:(rewrite fst_call, Hconfirm; reflexivity).
    change (negb (String.eqb "sí" "sí")) with false. cbv iota.
    apply guarded_passes; [intros; quiet_solve I |].
    pass_over reflexivity.
    pass_over ltac:(exact (proj1 (@unlink_step env _))).
    do 3 (pass_over
            ltac:(exact (proj1 (@delete_lambda_step env Herrors _ _)))).
    pass_over ltac:(exact (proj1 (@delete_api_gateway_step env Herrors _ _))).
    pass_over
      ltac:(exact (proj1 (@delete_dynamodb_table_step env Herrors _ _))).
    destruct Hbucket as [-> | ->].
    + apply bucket_steps_run; [exact Hlist | exact Hdel |].
      assert (Hne : String.eqb (bucket_web config) (bucket_uploads config)
                    = false)
        by (apply String.eqb_neq; congruence).
      unfold quiet, silent.
      apply emits_bind; [apply empty_other_bucket_quiet; exact Hne | intros].
      apply emits_bind; [apply delete_other_bucket_quiet; exact Hne | intros].
      apply emits_bind; [apply delete_iam_role_quiet | intros].
      apply emits_bind; [apply delete_all_low_stock_topics_quiet | intros].
      emits_auto.
    + assert (Hne : String.eqb (bucket_uploads config) (bucket_web config)
                    = false)
        by (apply String.eqb_neq; congruence).
      eapply step_passes;
        [now apply empty_other_bucket_quiet
        | exact (proj1 (@empty_s3_bucket_step env _ _))
        | intros].
      eapply step_passes;
        [now apply delete_other_bucket_quiet
        | exact (proj1 (@delete_s3_bucket_step env Herrors _ _))
        | intros].
      apply bucket_steps_run; [exact Hlist | exact Hdel |].
      unfold quiet, silent.
      apply emits_bind; [apply delete_iam_role_quiet | intros].
      apply emits_bind; [apply delete_all_low_stock_topics_quiet | intros].
      emits_auto.
Qed.

End DestroyBucketClaim.

(** 1200 object versions and 300 delete markers on two pages: two batches,
    both sent before the upload bucket is deleted, in a confirmed teardown
    of the sample deployment. *)
Lemma destroy_empties_bucket_before_delete_witness :
  length (Destroy.all_deletes Destroy.listing_1500) = 1500
  /\ length (batches (Destroy.all_deletes Destroy.listing_1500)) = 2
  /\ exists r r',
       filter (Destroy.about_bucket (bucket_uploads Destroy.sample))
              (snd (Destroy.main "infra/deployment.json" Destroy.sample
                      Destroy.healthy []))
       = Destroy.emptying (bucket_uploads Destroy.sample)
                          Destroy.listing_1500 r
           ++ [Ev (Destroy.DeleteBucket (bucket_uploads Destroy.sample)) r'].
Proof.
  assert (H1500 : length (Destroy.all_deletes Destroy.listing_1500) = 1500)
    by (vm_compute; reflexivity).
  assert (Herr : provider_errors Destroy.healthy).
  { intros R h c e Hc. destruct c; try discriminate Hc; simpl;
      try discriminate; now intros [= <-]. }
  assert (Hdistinct : bucket_uploads Destroy.sample <> bucket_web Destroy.sample)
    by discriminate.
  destruct (@destroy_empties_bucket_before_delete
              "infra/deployment.json" Destroy.sample Destroy.healthy
              (bucket_uploads Destroy.sample) Destroy.listing_1500
              (or_introl eq_refl) Hdistinct
              (fun _ => eq_refl) (fun _ _ => eq_refl))
    as (_ & _ & _ & Htwo & _ & _ & Hrun).
  split; [exact H1500 |]. split; [exact (Htwo H1500) |].
  exact (Hrun (fun _ => eq_refl) Herr []).
Defined.


(** X14: when the record is there, the operator confirms, the topics can
    be listed and the provider fails only with error responses, the teardown
    goes through all its steps whatever is missing or refused: it asks for the
    removal of the three functions, the API, the table, the two buckets and
    the role, in that order and each once, and ends with status 0. *)
Theorem destroy_attempts_every_removal (REGION config_file : string)
        (env : Env Destroy.Call) (config : Deployment)
        (topics : option (list string)) :
  provider_errors env ->
  (forall h, env bool h Destroy.FileExists = Ret true) ->
  (forall h, env Deployment h Destroy.ReadRecord = Ret config) ->
  (forall h, env string h (Destroy.Confirm Destroy.prompt) = Ret "sí") ->
  (forall h, env (option (list string)) h Destroy.ListTopics = Ret topics) ->
  let r := run (Destroy.script REGION config_file) env in
  fst r = Ok tt
  /\ exit_code (fst r) = Some 0%Z
  /\ removals (snd r) = all_removals config.
Proof.
  intros Herr Hfile Hread Hconfirm Htopics r.
  destruct (@script_steps env Herr topics Htopics REGION config_file config
              Hfile Hread Hconfirm []) as [Hfst Hrem].
  subst r. unfold run. rewrite Hfst. now repeat split.
Qed.

Lemma destroy_attempts_every_removal_witness :
  let r := run (Destroy.script "us-east-1" "infra/deployment.json")
               nothing_left in
  fst r = Ok tt /\ length (removals (snd r)) = 8.
Proof.
  assert (Herr : provider_errors nothing_left).
  { intros R h c e Hc. destruct c; try discriminate Hc; simpl;
      try discriminate; now intros [= <-]. }
  destruct (@destroy_attempts_every_removal "us-east-1" "infra/deployment.json"
              nothing_left Destroy.sample (Some []) Herr
              (fun _ => eq_refl) (fun _ => eq_refl) (fun _ => eq_refl)
              (fun _ => eq_refl))
    as (H1 & _ & H3).
  intro r. subst r. rewrite H1, H3. split; reflexivity.
Defined.

(* ====================================================================== *)
(** * Deployment: what is found is used again *)
(* ====================================================================== *)

(** Take a finished run apart, one answer of the environment at a time. *)
Ltac run_apart H :=
  repeat (unfold bind, try_except, call, ret, raise in H; simpl in H;
          match type of H with
          | context [match ?env ?R ?h ?c with Ret _ => _ | Err _ => _ end] =>
              destruct (env R h c) eqn:?
          | context [if ?b then _ else _] => destruct b eqn:?
          | context [for_each ?l ?b ?e ?hh] =>
              destruct (for_each l b e hh) as [[? | ? | ? |] ?] eqn:?
          | context [match ?o with Some _ => _ | None => _ end] =>
              destruct o eqn:?
          end);
  try discriminate H; inversion H; subst; clear H.

Section DeployRuns.

Import Deploy.


(** X15: buckets that [head_bucket] finds are not created again; the
    versioning is set on the upload bucket and on no other. *)
Theorem deploy_existing_buckets_reused (REGION SUFFIX : string)
        (env : Env Call) (h : Trace Call) :
  (forall h' b, env unit h' (HeadBucket b) = Ret tt) ->
  let r := create_s3_buckets REGION SUFFIX env h in
  fst r = Ok tt
  /\ created_buckets (snd r) = []
  /\ versioned_buckets (snd r) = [(BUCKET_UPLOADS SUFFIX, "Enabled")].
Proof.
  intros Hhead r.
  assert (Hweb : String.eqb (BUCKET_WEB SUFFIX) (BUCKET_UPLOADS SUFFIX) = false)
    by reflexivity.
  assert (Hr : exists v,
             r = (Ok tt,
                  [Ev (HeadBucket (BUCKET_UPLOADS SUFFIX)) (Ret tt);
                   Ev (PutBucketVersioning (BUCKET_UPLOADS SUFFIX) "Enabled") v;
                   Ev (HeadBucket (BUCKET_WEB SUFFIX)) (Ret tt)])).
  { subst r. unfold create_s3_buckets, for_each, ensure_bucket.
    unfold bind, try_except, call, ret. rewrite Hhead. cbn [negb].
    rewrite String.eqb_refl. cbv iota beta.
    match goal with |- context [env unit ?hh (PutBucketVersioning ?b ?s)] =>
      destruct (env unit hh (PutBucketVersioning b s)) as [[] | e] end;
      cbv iota beta; unfold except_any; cbv iota beta;
      rewrite Hhead; cbn [negb]; rewrite Hweb; cbv iota beta;
      eexists; reflexivity. }
  destruct Hr as (v & ->). now repeat split.
Qed.

Lemma deploy_existing_buckets_reused_witness :
  created_buckets
    (snd (create_s3_buckets "us-east-1" "inventory-main" second_run []))
  = [].
Proof.
  exact (proj1 (proj2 (@deploy_existing_buckets_reused
                         "us-east-1" "inventory-main" second_run []
                         (fun _ _ => eq_refl)))).
Defined.

(** X16: the role [create_iam_role] returns is [LabRole] when that role
    is there; otherwise it is a role the script has just created under the
    derived name and attached the basic execution policy to.  It returns no
    other way. *)
Theorem deploy_role_is_labrole_or_created (SUFFIX : string) (env : Env Call)
        (h d : Trace Call) (arn : string) :
  create_iam_role SUFFIX env h = (Ok arn, d) ->
  role_found_or_made (IAM_ROLE_LAMBDA SUFFIX) arn d.
Proof.
  intros H. unfold create_iam_role in H. run_apart H.
  - now left.
  - right. eexists. split; [eassumption |].
    match goal with r0 : unit |- _ => now destruct r0 end.
Qed.

Lemma deploy_role_is_labrole_or_created_witness :
  role_found_or_made (IAM_ROLE_LAMBDA "inventory-main")
    "arn:aws:iam::123456789012:role/LabRole"
    [Ev (GetRole "LabRole") (Ret "arn:aws:iam::123456789012:role/LabRole")].
Proof.
  exact (@deploy_role_is_labrole_or_created "inventory-main" academy [] _ _
           eq_refl).
Defined.

(** X17: when the listing of the topics shows one whose ARN contains
    "low-stock-inventory-main", [create_sns_topic] returns such a listed ARN
    and creates nothing; when the listing shows none, it asks once for the
    creation of a topic of that name. *)
Theorem deploy_topic_reused_when_listed (env : Env Call) (h : Trace Call)
        (topics : list string) :
  env (list string) h ListTopics = Ret topics ->
  let r := create_sns_topic env h in
  (existsb (Py.contains "low-stock-inventory-main") topics = true ->
   created_topics (snd r) = []
   /\ exists arn,
        fst r = Ok arn /\ In arn topics
        /\ Py.contains "low-stock-inventory-main" arn = true)
  /\ (existsb (Py.contains "low-stock-inventory-main") topics = false ->
      created_topics (snd r) = ["low-stock-inventory-main"]).
Proof.
  intros Hlist r.
  assert (Hrun :
    r = match find (fun arn => Py.contains "low-stock-inventory-main" arn)
                   topics with
        | Some arn => (Ok arn, [Ev ListTopics (Ret topics)])
        | None =>
            (fst (try_except (call (CreateTopic "low-stock-inventory-main"))
                             except_ClientError (fun e => raise e) env
                             (h ++ [Ev ListTopics (Ret topics)])),
             Ev ListTopics (Ret topics)
             :: snd (try_except (call (CreateTopic "low-stock-inventory-main"))
                                except_ClientError (fun e => raise e) env
                                (h ++ [Ev ListTopics (Ret topics)])))
        end).
  { subst r. unfold create_sns_topic.
    unfold bind at 1, try_except at 1, bind at 1, call at 1. rewrite Hlist.
    unfold ret at 1. cbv iota beta.
    destruct (find _ topics); [reflexivity |].
    now destruct (try_except _ _ _ env _). }
  rewrite Hrun. clear Hrun r.
  destruct (find (fun arn => Py.contains "low-stock-inventory-main" arn) topics)
    as [arn |] eqn:F.
  - apply find_some in F as [Hin Hc].
    split; [intros _ | intros Hnone].
    + split; [reflexivity |]. exists arn. now repeat split.
    + assert (existsb (Py.contains "low-stock-inventory-main") topics = true)
        by (apply existsb_exists; now exists arn).
      congruence.
  - split; [intros Hsome | intros _].
    + apply existsb_exists in Hsome as (arn & Hin & Hc).
      now rewrite (find_none _ _ F arn Hin) in Hc.
    + unfold try_except, call.
      match goal with |- context [env string ?hh ?c] =>
        destruct (env string hh c) as [arn | e] end; simpl;
        [reflexivity |].
      destruct (except_ClientError e); reflexivity.
Qed.

Lemma deploy_topic_reused_when_listed_witness :
  created_topics (snd (create_sns_topic second_run [])) = [].
Proof.
  exact (proj1 (proj1 (@deploy_topic_reused_when_listed second_run []
                         [sns_topic_arn Destroy.sample] eq_refl) eq_refl)).
Defined.

(** X18: whenever [create_dynamodb_table] returns, the run shows that the
    table has its stream: the table was created, or it was there with the
    stream enabled, or the update that enables the stream was accepted. *)
Theorem deploy_table_has_stream (env : Env Call) (h d : Trace Call)
        (arn : string) :
  create_dynamodb_table env h = (Ok arn, d) ->
  existsb stream_ensured_by d = true.
Proof.
  intros H. unfold create_dynamodb_table in H.
  run_apart H; simpl; rewrite ?orb_true_r; auto.
  match goal with H : negb (StreamEnabled ?t) = false |- _ =>
    apply negb_false_iff in H; now rewrite H end.
Qed.

Lemma deploy_table_has_stream_witness :
  existsb stream_ensured_by (snd (create_dynamodb_table second_run [])) = true.
Proof.
  exact (@deploy_table_has_stream second_run [] _ _ eq_refl).
Defined.

End DeployRuns.

Section DeployPolling.

Import Deploy.

Lemma removelast_cons (A : Type) (x y : A) (l : list A) :
  removelast (x :: y :: l) = x :: removelast (y :: l).
Proof. reflexivity. Qed.

(** The wait returns after at most [attempts] polls of the function. *)
Lemma wait_until_active_returns (env : Env Call) (name : string)
      (attempts : nat) :
  forall h,
    fst (wait_until_active name attempts env h) = Ok tt
    /\ length (snd (wait_until_active name attempts env h)) <= attempts
    /\ forallb (poll_of name) (snd (wait_until_active name attempts env h))
       = true.
Proof.
  induction attempts as [| n IH]; intros h; [now repeat split |].
  cbn [wait_until_active]. unfold bind, try_except, call, ret.
  destruct (env FunctionInfo h (GetFunction name)) as [info | e];
    cbv iota beta; unfold except_any; cbv iota beta;
    [destruct (String.eqb (State info) "Active");
     [cbn [fst snd app length forallb poll_of]; rewrite String.eqb_refl;
      repeat split; apply le_n_S, Nat.le_0_l |] |];
    match goal with |- context [wait_until_active name n env ?hh] =>
      destruct (IH hh) as (H1 & H2 & H3);
      destruct (wait_until_active name n env hh) as [o d]
    end;
    cbn [fst snd app] in *; subst o;
    cbn [length forallb poll_of]; rewrite String.eqb_refl, H3;
    repeat split; now apply le_n_S.
Qed.

(** X19: the wait for an existing function to become active polls its
    state at most [attempts] times, stops at the first poll that finds it
    active, and then returns: a poll that fails counts as one that did not
    find it active, and running out of attempts is no error. *)
Theorem deploy_polling_is_bounded (env : Env Call) (name : string)
        (attempts : nat) (h : Trace Call) :
  let r := wait_until_active name attempts env h in
  fst r = Ok tt
  /\ length (snd r) <= attempts
  /\ forallb (poll_of name) (snd r) = true
  /\ existsb saw_active (removelast (snd r)) = false
  /\ (length (snd r) < attempts -> existsb saw_active (snd r) = true).
Proof.
  revert h. induction attempts as [| n IH]; intros h r; subst r.
  - simpl. repeat split; auto. intros H. inversion H.
  - cbn [wait_until_active]. unfold bind, try_except, call, ret.
    assert (Hstep : forall (e : Event Call) (d : Trace Call),
               poll_of name e = true -> saw_active e = false ->
               length d <= n ->
               forallb (poll_of name) d = true ->
               existsb saw_active (removelast d) = false ->
               (length d < n -> existsb saw_active d = true) ->
               length (e :: d) <= S n
               /\ forallb (poll_of name) (e :: d) = true
               /\ existsb saw_active (removelast (e :: d)) = false
               /\ (length (e :: d) < S n -> existsb saw_active (e :: d) = true)).
    { intros e d He Hs H2 H3 H4 H5. split; [simpl; now apply le_n_S |].
      split; [simpl; now rewrite He, H3 |]. split.
      - destruct d as [| y d]; [reflexivity |].
        rewrite removelast_cons. cbn [existsb]. now rewrite Hs, H4.
      - intros Hlt. cbn [existsb]. rewrite H5, orb_true_r; [reflexivity |].
        simpl in Hlt. now apply Nat.succ_lt_mono. }
    destruct (env FunctionInfo h (GetFunction name)) as [info | e];
      cbv iota beta; unfold except_any; cbv iota beta.
    + destruct (String.eqb (State info) "Active") eqn:Ea; cbv iota beta.
      * cbn [fst snd app]. split; [reflexivity |].
        split; [simpl; apply le_n_S, Nat.le_0_l |].
        split; [simpl; now rewrite String.eqb_refl |].
        split; [reflexivity |]. intros _. simpl. now rewrite Ea.
      * match goal with |- context [wait_until_active name n env ?hh] =>
          destruct (IH hh) as (H1 & H2 & H3 & H4 & H5);
          destruct (wait_until_active name n env hh) as [o d]
        end.
        cbn [fst snd app] in *. subst o. cbn [fst snd app].
        split; [reflexivity |].
        apply Hstep; auto; simpl; rewrite ?String.eqb_refl, ?Ea; auto.
    + match goal with |- context [wait_until_active name n env ?hh] =>
        destruct (IH hh) as (H1 & H2 & H3 & H4 & H5);
        destruct (wait_until_active name n env hh) as [o d]
      end.
      cbn [fst snd app] in *. subst o. cbn [fst snd app].
      split; [reflexivity |].
      apply Hstep; auto; simpl; rewrite ?String.eqb_refl; auto.
Qed.

(** X20: [add_stream_trigger_to_lambda] on a table whose description has
    no "LatestStreamArn" raises [KeyError]; on a table whose stream ARN is
    empty it returns without touching the mappings; on a table with a stream,
    and a provider that fails only with error responses, it lists and deletes
    the old mappings, then asks once, as its last call, for the new mapping
    from that stream to the function, and returns whatever the answer. *)
Theorem deploy_stream_trigger (env : Env Call) (lambda_name : string)
        (h : Trace Call) (info : TableInfo) :
  env TableInfo h (DescribeTable TABLE_NAME) = Ret info ->
  let r := add_stream_trigger_to_lambda lambda_name env h in
  let described := Ev (DescribeTable TABLE_NAME) (Ret info) in
  (LatestStreamArn info = None ->
   r = (Raise (KeyError "LatestStreamArn"), [described]))
  /\ (LatestStreamArn info = Some "" -> r = (Ok tt, [described]))
  /\ (forall stream_arn,
         LatestStreamArn info = Some stream_arn -> stream_arn <> "" ->
         deploy_errors env ->
         fst r = Ok tt
         /\ exists old answer,
              snd r = described :: old
                      ++ [Ev (CreateEventSourceMapping stream_arn lambda_name)
                             answer]
              /\ forallb old_mapping_step old = true).
Proof.
  intros Hdesc r described.
  split; [| split].
  - intros Hnone. subst r. unfold add_stream_trigger_to_lambda, bind, call.
    rewrite Hdesc, Hnone. reflexivity.
  - intros Hempty. subst r. unfold add_stream_trigger_to_lambda, bind, call.
    rewrite Hdesc, Hempty. reflexivity.
  - intros stream_arn Hsome Hne Herr.
    assert (Hr : exists old answer,
               r = (Ok tt,
                    described :: old
                    ++ [Ev (CreateEventSourceMapping stream_arn lambda_name)
                           answer])
               /\ forallb old_mapping_step old = true).
    { subst r. unfold add_stream_trigger_to_lambda.
      unfold bind at 1, call at 1. rewrite Hdesc, Hsome.
      destruct stream_arn as [| a s]; [now elim Hne |].
      set (arn := String a s) in *.
      unfold bind at 1.
      match goal with |- context [try_except ?m except_ClientError ?hd env ?hh] =>
        set (block := try_except m except_ClientError hd);
        assert (Hb : exists old, block env hh = (Ok tt, old)
                                 /\ forallb old_mapping_step old = true)
      end.
      { assert (Hraise : raises_only env (fun _ => False) block).
        { subst block.
          apply raises_try_except
            with (Q := fun e => except_ClientError e = true);
            [| intros e Hq Hc; congruence | intros; apply raises_ret].
          apply raises_bind;
            [apply raises_call; intros h1 e E; exact (Herr _ _ _ _ E) | intros].
          apply raises_for_each. intros.
          apply raises_call. intros h1 e E. exact (Herr _ _ _ _ E). }
        assert (Hemit : emits (fun e => old_mapping_step e = true) block).
        { subst block. emits_auto. }
        match goal with |- exists old, block env ?hh = _ /\ _ =>
          destruct (raises_none_returns hh Hraise) as ([] & Hfst);
          exists (snd (block env hh)); split;
          [rewrite <- Hfst; now destruct (block env hh)
          | apply forallb_forall; intros e He;
            specialize (Hemit env hh); rewrite Forall_forall in Hemit;
            now apply Hemit]
        end. }
      destruct Hb as (old & -> & Hold).
      exists old. unfold try_except, bind, call, ret.
      match goal with |- context [env string ?hh ?c] =>
        destruct (env string hh c) as [uuid | e] eqn:E end.
      - eexists. split; [| exact Hold]. simpl. rewrite ?app_nil_r.
        reflexivity.
      - rewrite (Herr _ _ _ _ E). eexists. split; [| exact Hold].
        simpl. rewrite ?app_nil_r. reflexivity. }
    destruct Hr as (old & answer & -> & Hold).
    split; [reflexivity |]. now exists old, answer.
Qed.

End DeployPolling.

Lemma deploy_stream_trigger_witness :
  Deploy.add_stream_trigger_to_lambda "notify_low_stock" no_stream []
  = (Raise (KeyError "LatestStreamArn"),
     [Ev (Deploy.DescribeTable Deploy.TABLE_NAME)
         (Ret (Deploy.mkTableInfo
                 "arn:aws:dynamodb:us-east-1:123456789012:table/Inventory"
                 false None))]).
Proof.
  exact (proj1 (@deploy_stream_trigger no_stream "notify_low_stock" [] _
                  eq_refl) eq_refl).
Defined.


Section DeployApi.

Import Deploy.

Variables REGION SUFFIX ACCOUNT_ID : string.
Variable env : Env Call.

Lemma stale_block_returns (h : Trace Call) :
  exists d, stale_block SUFFIX env h = (Ok tt, d) /\ routes_created d = [].
Proof.
  assert (Hr : raises_only env (fun _ => False) (stale_block SUFFIX)).
  { unfold stale_block.
    apply raises_try_except with (Q := fun _ => True);
      [| intros e _ Hc; discriminate Hc | intros; apply raises_ret].
    apply raises_bind; [apply raises_call; intros; exact I | intros].
    apply raises_for_each. intros api.
    destruct (String.eqb (Name api) _);
      [apply raises_call; intros; exact I | apply raises_ret]. }
  destruct (raises_none_returns h Hr) as ([] & Hfst).
  exists (snd (stale_block SUFFIX env h)). split.
  - rewrite <- Hfst. now destruct (stale_block SUFFIX env h).
  - apply flat_map_emits_nil. unfold stale_block. emits_auto.
Qed.

Lemma stale_loop (apis : list ApiInfo) :
  forall h, exists rest,
    map ApiId (filter (fun api => String.eqb (Name api)
                                    ("inventory-api-" ++ SUFFIX)%string) apis)
    = deleted_apis
        (snd (for_each apis
                (fun api =>
                   if String.eqb (Name api) ("inventory-api-" ++ SUFFIX)%string
                   then call (DeleteApi (ApiId api))
                   else ret tt) env h))
      ++ rest
    /\ (fst (for_each apis
               (fun api =>
                  if String.eqb (Name api) ("inventory-api-" ++ SUFFIX)%string
                  then call (DeleteApi (ApiId api))
                  else ret tt) env h) = Ok tt -> rest = []).
Proof.
  induction apis as [| api apis IH]; intros h; cbn [for_each filter map].
  - exists []. now split.
  - match goal with |- context [for_each apis ?b] =>
      set (loop := for_each apis b) in * end.
    rewrite snd_bind, fst_bind.
    destruct (String.eqb (Name api) ("inventory-api-" ++ SUFFIX)%string).
    + rewrite snd_call, fst_call.
      destruct (@env unit h (DeleteApi (ApiId api))) as [[] | e].
      * match goal with |- context [loop env ?hh] =>
          destruct (IH hh) as (rest & E & Hrest) end.
        exists rest. cbn [map]. rewrite E. split; [reflexivity | exact Hrest].
      * eexists. split; [reflexivity | discriminate].
    + unfold ret at 1 2. cbn [fst snd app].
      match goal with |- context [loop env ?hh] =>
        destruct (IH hh) as (rest & E & Hrest) end.
      exists rest. split; [exact E | exact Hrest].
Qed.

End DeployApi.

Section DeployApiResult.

Import Deploy.

(** X21: when [create_api_gateway] returns, the identifier it returns is
    the one [create_api] answered with for the name [inventory-api-<suffix>],
    the endpoint is [https://<id>.execute-api.<region>.amazonaws.com/prod],
    the two routes [GET /items] and [GET /items/{store}] were created on that
    API with the integration of the query function as target, and the stage
    [prod] was created. *)
Theorem deploy_api_gateway_result (REGION SUFFIX ACCOUNT_ID : string)
        (env : Env Call) (lambda_api_arn : string) (h d : Trace Call)
        (id endpoint : string) :
  create_api_gateway REGION SUFFIX ACCOUNT_ID lambda_api_arn env h
  = (Ok (id, endpoint), d) ->
  endpoint = ("https://" ++ id ++ ".execute-api." ++ REGION
              ++ ".amazonaws.com/prod")%string
  /\ In (Ev (CreateApi ("inventory-api-" ++ SUFFIX)%string) (Ret id)) d
  /\ (exists integration,
         In (Ev (CreateIntegration id lambda_api_arn) (Ret integration)) d
         /\ routes_created d
            = [(id, "GET /items", ("integrations/" ++ integration)%string);
               (id, "GET /items/{store}",
                ("integrations/" ++ integration)%string)])
  /\ In (Ev (CreateStage id "prod") (Ret tt)) d.
Proof.
  intros H. unfold create_api_gateway in H.
  fold (stale_block SUFFIX) in H.
  apply bind_ok_inv in H as ([] & d1 & d2 & H1 & H & ->).
  destruct (stale_block_returns SUFFIX env h) as (d1' & E1 & Hroutes).
  rewrite E1 in H1. injection H1 as <-.
  unfold tolerate_conflict in H. cbn [for_each] in H.
  run_apart H;
    (split; [reflexivity |]);
    (split; [apply in_or_app; right; simpl; auto |]);
    (split;
     [eexists; split;
      [apply in_or_app; right; simpl; right; left; reflexivity
      | unfold routes_created in *; rewrite flat_map_app, Hroutes; reflexivity]
     |]);
    apply in_or_app; right; simpl;
    repeat match goal with u : unit |- _ => destruct u end; auto 10.
Qed.

Lemma deploy_api_gateway_result_witness :
  exists d,
    create_api_gateway "us-east-1" "inventory-main" "123456789012"
      "arn:fn" stale_account []
    = (Ok ("a1b2c3", "https://a1b2c3.execute-api.us-east-1.amazonaws.com/prod"),
       d)
    /\ In (Ev (CreateStage "a1b2c3" "prod") (Ret tt)) d.
Proof.
  eexists. split; [reflexivity |].
  exact (proj2 (proj2 (proj2 (@deploy_api_gateway_result
                                "us-east-1" "inventory-main" "123456789012"
                                stale_account "arn:fn" [] _ _ _ eq_refl)))).
Defined.

(** X22: the APIs [create_api_gateway] deletes before it creates the new
    one are APIs of the listing that carry the name [inventory-api-<suffix>],
    taken in the order of the listing; when none of the deletions fails they
    are all of them. *)
Theorem deploy_api_deletes_same_name_only (REGION SUFFIX ACCOUNT_ID : string)
        (env : Env Call) (lambda_api_arn : string) (h : Trace Call)
        (apis : option (list ApiInfo)) :
  env (option (list ApiInfo)) h GetApis = Ret apis ->
  let r := create_api_gateway REGION SUFFIX ACCOUNT_ID lambda_api_arn env h in
  exists rest,
    stale_apis ("inventory-api-" ++ SUFFIX)%string apis
    = deleted_apis (snd r) ++ rest
    /\ ((forall h' a, env unit h' (DeleteApi a) = Ret tt) -> rest = []).
Proof.
  intros Hapis r. subst r. unfold create_api_gateway.
  fold (stale_block SUFFIX).
  match goal with |- context [bind (stale_block SUFFIX) ?k] =>
    set (rest_of := k) end.
  assert (Hrest : forall a env' h', deleted_apis (snd (rest_of a env' h')) = []).
  { intros a env' h'. apply flat_map_emits_nil. subst rest_of.
    unfold tolerate_conflict. emits_auto. }
  clearbody rest_of.
  assert (Hblock : exists rest,
             stale_apis ("inventory-api-" ++ SUFFIX)%string apis
             = deleted_apis (snd (stale_block SUFFIX env h)) ++ rest
             /\ ((forall h' a, env unit h' (DeleteApi a) = Ret tt) ->
                 rest = [])).
  { unfold stale_block. rewrite snd_try_except, fst_bind, snd_bind.
    rewrite fst_call, snd_call, Hapis. cbn [fst snd].
    match goal with |- context [for_each (or_empty apis) ?b env ?hh] =>
      destruct (stale_loop SUFFIX env (or_empty apis) hh) as (rest & E & Hrest');
      destruct (for_each (or_empty apis) b env hh) as [o d] eqn:Eloop
    end.
    cbn [fst snd] in *. exists rest. split.
    - unfold stale_apis. rewrite E. unfold deleted_apis.
      rewrite !flat_map_app. simpl.
      destruct o; simpl; rewrite ?app_nil_r; reflexivity.
    - intros Hok. apply Hrest'.
      assert (Hr : raises_only env (fun _ => False)
                     (for_each (or_empty apis)
                        (fun api =>
                           if String.eqb (Name api)
                                         ("inventory-api-" ++ SUFFIX)%string
                           then call (DeleteApi (ApiId api))
                           else ret tt))).
      { apply raises_for_each. intros api.
        destruct (String.eqb (Name api) _); [| apply raises_ret].
        apply raises_call. intros h1 e E1. rewrite Hok in E1. discriminate. }
      match type of Eloop with for_each _ _ env ?hh = _ =>
        destruct (raises_none_returns hh Hr) as ([] & Hfst) end.
      rewrite Eloop in Hfst. exact Hfst. }
  destruct Hblock as (rest & E & Hall). exists rest. split; [| exact Hall].
  rewrite snd_bind. unfold deleted_apis in *. rewrite flat_map_app.
  destruct (fst (stale_block SUFFIX env h)); simpl;
    rewrite ?Hrest, ?app_nil_r; exact E.
Qed.

Lemma deploy_api_deletes_same_name_only_witness :
  deleted_apis
    (snd (create_api_gateway "us-east-1" "inventory-main" "123456789012"
            "arn:fn" stale_account []))
  = ["old1"; "old2"].
Proof.
  destruct (@deploy_api_deletes_same_name_only
              "us-east-1" "inventory-main" "123456789012" stale_account
              "arn:fn" [] _ eq_refl) as (rest & E & Hall).
  rewrite (Hall (fun _ _ => eq_refl)), app_nil_r in E.
  symmetry. exact E.
Defined.

End DeployApiResult.

Section DeployWeb.

Import Deploy.

Variables REGION SUFFIX : string.
Variable env : Env Call.
Variable api_endpoint : string.
Variable disk : string -> FileData.

Hypothesis read_ok : forall h p, @env FileData h (ReadFile p) = Ret (disk p).
Hypothesis put_ok :
  forall h b k body ct, @env unit h (PutObject b k body ct) = Ret tt.

Lemma upload_loop (files : list string) :
  forall h, exists d,
    for_each files
      (fun relative_path =>
         let s3_key := Py.replace backslash "/" relative_path in
         file <- call (ReadFile relative_path) ;;
         let suffix := Py.path_suffix relative_path in
         let content :=
           if String.eqb suffix ".html" && utf8 file
           then Py.replace "REPLACE_WITH_API_ENDPOINT" api_endpoint (data file)
           else data file in
         call (PutObject (BUCKET_WEB SUFFIX) s3_key content
                         (content_type_of suffix))) env h
    = (Ok tt, d)
    /\ uploads d
       = map (fun p => upload_of (BUCKET_WEB SUFFIX) api_endpoint p (disk p))
             files.
Proof.
  induction files as [| p files IH]; intros h; cbn [for_each map].
  - exists []. now split.
  - match goal with |- context [for_each files ?b] =>
      set (loop := for_each files b) in * end.
    cbv zeta. unfold bind, call. rewrite read_ok, put_ok.
    match goal with |- context [loop env ?hh] =>
      destruct (IH hh) as (d & -> & Hd) end.
    eexists. split; [reflexivity |].
    unfold uploads in *. simpl. rewrite Hd. reflexivity.
Qed.

End DeployWeb.

(** X23: without the [website/] directory [upload_web_content] returns
    no URL and calls nothing.  With it, when the files can be read and stored,
    it uploads every listed file once, in order, to the web bucket, under its
    path with forward slashes and with the content type of its extension;
    HTML that decodes gets the API endpoint filled in and every other file
    goes unchanged.  A refusal of the bucket policy that mentions
    "AccessDenied" or "BlockPublicPolicy" is passed over and the URL is
    returned all the same; any other refusal of the policy is raised. *)
Theorem deploy_web_upload (REGION SUFFIX : string) (env : Env Deploy.Call)
        (api_endpoint : string) (h : Trace Deploy.Call) :
  let r := Deploy.upload_web_content REGION SUFFIX api_endpoint env h in
  let web_url := ("http://" ++ Deploy.BUCKET_WEB SUFFIX ++ ".s3-website-"
                  ++ REGION ++ ".amazonaws.com")%string in
  (env bool h Deploy.WebDirExists = Ret false ->
   r = (Ok None, [Ev Deploy.WebDirExists (Ret false)]))
  /\ (forall files disk,
         env bool h Deploy.WebDirExists = Ret true ->
         (forall h', env (list string) h' Deploy.ListWebFiles = Ret files) ->
         (forall h' p, env Deploy.FileData h' (Deploy.ReadFile p)
                       = Ret (disk p)) ->
         (forall h' b k body ct,
             env unit h' (Deploy.PutObject b k body ct) = Ret tt) ->
         (forall h' b, env unit h' (Deploy.PutBucketWebsite b) = Ret tt) ->
         (forall h' b e, env unit h' (Deploy.PutPublicAccessBlock b) = Err e ->
                         except_ClientError e = true) ->
         uploads (snd r)
         = map (fun p => upload_of (Deploy.BUCKET_WEB SUFFIX) api_endpoint p
                                   (disk p)) files
         /\ exists answer,
              In (Ev (Deploy.PutBucketPolicy (Deploy.BUCKET_WEB SUFFIX)
                                             (Deploy.bucket_policy SUFFIX))
                     answer) (snd r)
              /\ fst r = after_policy web_url answer).
Proof.
  intros r web_url. split.
  - intros Hno. subst r. unfold Deploy.upload_web_content, bind, call.
    rewrite Hno. reflexivity.
  - intros files disk Hdir Hlist Hread Hput Hsite Hblock.
    assert (Hr : exists d block answer,
               r = (after_policy web_url answer,
                    Ev Deploy.WebDirExists (Ret true)
                    :: Ev Deploy.ListWebFiles (Ret files)
                    :: d
                    ++ [Ev (Deploy.PutBucketWebsite (Deploy.BUCKET_WEB SUFFIX))
                           (Ret tt);
                        Ev (Deploy.PutPublicAccessBlock
                              (Deploy.BUCKET_WEB SUFFIX)) block;
                        Ev (Deploy.PutBucketPolicy
                              (Deploy.BUCKET_WEB SUFFIX)
                              (Deploy.bucket_policy SUFFIX)) answer])
               /\ uploads d
                  = map (fun p => upload_of (Deploy.BUCKET_WEB SUFFIX)
                                            api_endpoint p (disk p)) files).
    { subst r. unfold Deploy.upload_web_content.
      unfold bind at 1, call at 1. rewrite Hdir. cbn [negb].
      unfold bind at 1, call at 1. rewrite Hlist.
      unfold bind at 1.
      match goal with |- context [for_each files ?b env ?hh] =>
        destruct (@upload_loop SUFFIX env api_endpoint disk Hread Hput files hh)
          as (d & E & Hd)
      end.
      cbv zeta in E. cbv zeta. rewrite E.
      exists d. unfold bind at 1, call at 1. rewrite Hsite.
      unfold bind at 1, try_except at 1, call at 1.
      match goal with |- context [env unit ?hh (Deploy.PutPublicAccessBlock ?b)] =>
        destruct (env unit hh (Deploy.PutPublicAccessBlock b))
          as [[] | e] eqn:Eb
      end.
      - exists (Ret tt). unfold bind, try_except, call, ret.
        match goal with |- context [env unit ?hh (Deploy.PutBucketPolicy ?b ?p)] =>
          destruct (env unit hh (Deploy.PutBucketPolicy b p)) as [[] | e] eqn:Ep
        end; [exists (Ret tt) | exists (Err e)]; (split; [| exact Hd]);
          unfold after_policy, policy_refusal_tolerated; simpl;
          [| destruct (except_ClientError e); simpl;
             [destruct (Py.contains "BlockPublicPolicy" (str_of_exn e)
                        || Py.contains "AccessDenied" (str_of_exn e)) |]];
          simpl; rewrite <- ?app_assoc; simpl; reflexivity.
      - exists (Err e). rewrite (Hblock _ _ _ Eb).
        unfold bind, try_except, call, ret.
        match goal with |- context [env unit ?hh (Deploy.PutBucketPolicy ?b ?p)] =>
          destruct (env unit hh (Deploy.PutBucketPolicy b p)) as [[] | e'] eqn:Ep
        end; [exists (Ret tt) | exists (Err e')]; (split; [| exact Hd]);
          unfold after_policy, policy_refusal_tolerated; simpl;
          [| destruct (except_ClientError e'); simpl;
             [destruct (Py.contains "BlockPublicPolicy" (str_of_exn e')
                        || Py.contains "AccessDenied" (str_of_exn e')) |]];
          simpl; rewrite <- ?app_assoc; simpl; reflexivity. }
    destruct Hr as (d & block & answer & -> & Hd). cbn [fst snd]. split.
    + unfold uploads in *. simpl. rewrite flat_map_app, Hd. simpl.
      now rewrite app_nil_r.
    + exists answer. split; [| reflexivity].
      right. right. apply in_or_app. right. simpl. auto.
Qed.

Lemma deploy_web_upload_witness :
  let r := Deploy.upload_web_content "us-east-1" "inventory-main"
             "https://a1b2c3.execute-api.us-east-1.amazonaws.com/prod"
             policy_denied [] in
  fst r = Ok (Some "http://inventory-web-inventory-main.s3-website-us-east-1.amazonaws.com")
  /\ length (uploads (snd r)) = 2.
Proof.
  destruct (proj2 (@deploy_web_upload "us-east-1" "inventory-main" policy_denied
                     "https://a1b2c3.execute-api.us-east-1.amazonaws.com/prod"
                     [])
              ["index.html"; "css/style.css"]
              (fun p => Deploy.mkFileData
                          (if String.eqb p "index.html"
                           then "<script>const API = 'REPLACE_WITH_API_ENDPOINT';</script>"
                           else "body { margin: 0 }")
                          true)
              eq_refl (fun _ => eq_refl) (fun _ _ => eq_refl)
              (fun _ _ _ _ _ => eq_refl) (fun _ _ => eq_refl)
              (fun _ _ _ E => ltac:(discriminate E)))
    as (Hup & answer & Hin & Hfst).
  intro r. subst r. split; [reflexivity |]. rewrite Hup. reflexivity.
Defined.

Section DeployNames.

Import Deploy.

(** The statements at module level settle the suffix; after them comes
    [main]. *)
Lemma script_trace_suffix (REGION : string) (env : Env Call) :
  written (snd (run (script REGION) env)) = []
  \/ exists ACCOUNT_ID prelude,
       written prelude = []
       /\ snd (run (script REGION) env)
          = prelude
            ++ snd (main REGION (chosen_suffix env) ACCOUNT_ID env prelude).
Proof.
  unfold run, script, bind, call, ret, chosen_suffix.
  destruct (env bool [] FileExists) as [[|] | e]; [| | now left].
  - cbn [app].
    destruct (env Deployment [Ev FileExists (Ret true)] ReadRecord)
      as [existing | e]; [| now left].
    cbn [app].
    match goal with |- context [env string ?hh GetCallerIdentity] =>
      destruct (env string hh GetCallerIdentity) as [account | e] end;
      [| now left].
    right. exists account.
    exists [Ev FileExists (Ret true); Ev ReadRecord (Ret existing);
            Ev GetCallerIdentity (Ret account)].
    split; [reflexivity |].
    cbn [app].
    match goal with |- context [main ?r ?s ?a env ?hh] =>
      destruct (main r s a env hh) as [o d] end.
    reflexivity.
  - cbn [app].
    match goal with |- context [env string ?hh GetCallerIdentity] =>
      destruct (env string hh GetCallerIdentity) as [account | e] end;
      [| now left].
    right. exists account.
    exists [Ev FileExists (Ret false); Ev GetCallerIdentity (Ret account)].
    split; [reflexivity |].
    cbn [app].
    match goal with |- context [main ?r ?s ?a env ?hh] =>
      destruct (main r s a env hh) as [o d] end.
    reflexivity.
Qed.

(** X24: the names in a record the deployment writes depend on the
    suffix alone, and the suffix is that of the record found at the start,
    or "inventory-main" when there was none: a second run names the same
    buckets and the same role as the first. *)
Theorem deploy_names_follow_suffix (REGION : string) (env : Env Call)
        (d : Deployment) :
  In d (written (snd (run (script REGION) env))) ->
  suffix d = chosen_suffix env
  /\ region d = REGION
  /\ bucket_uploads d = ("inventory-uploads-" ++ suffix d)%string
  /\ bucket_web d = ("inventory-web-" ++ suffix d)%string
  /\ iam_role d = ("lambda-inventory-role-" ++ suffix d)%string
  /\ table_name d = "Inventory"
  /\ lambda_load d = "load_inventory"
  /\ lambda_api d = "get_inventory_api"
  /\ lambda_notify d = "notify_low_stock".
Proof.
  intros Hin.
  destruct (script_trace_suffix REGION env)
    as [Hnone | (ACCOUNT_ID & prelude & Hpre & Ht)].
  { rewrite Hnone in Hin. contradiction. }
  rewrite Ht, written_app, Hpre in Hin. simpl in Hin.
  destruct (main_written _ _ _ _ _ _ Hin)
    as (c & steps & now & reply & _ & -> & _ & _).
  now repeat split.
Qed.

End DeployNames.

Lemma deploy_names_follow_suffix_witness :
  exists d,
    In d (Deploy.written
            (snd (run (Deploy.script "us-east-1") Deploy.academy)))
    /\ suffix d = "inventory-main"
    /\ bucket_uploads d = "inventory-uploads-inventory-main".
Proof.
  assert (Hin : In (mkDeployment "2025-01-15T10:30:00" "us-east-1"
                      "inventory-main" "inventory-uploads-inventory-main"
                      "inventory-web-inventory-main" "Inventory"
                      "load_inventory" "get_inventory_api" "notify_low_stock"
                      "a1b2c3"
                      "https://a1b2c3.execute-api.us-east-1.amazonaws.com/prod"
                      (Some "http://inventory-web-inventory-main.s3-website-us-east-1.amazonaws.com")
                      "arn:aws:sns:us-east-1:123456789012:low-stock-inventory-main"
                      "lambda-inventory-role-inventory-main")
                   (Deploy.written
                      (snd (run (Deploy.script "us-east-1") Deploy.academy))))
    by (vm_compute; left; reflexivity).
  eexists. split; [exact Hin |].
  destruct (@deploy_names_follow_suffix "us-east-1" Deploy.academy _ Hin)
    as (H1 & _ & H3 & _).
  split; [exact H1 | exact H3].
Defined.

(* ====================================================================== *)
(** * Validation: what ends a run *)
(* ====================================================================== *)

Section ValidateRuns.

Import Validate.

Variable env : Env Call.

Ltac anything :=
  repeat first
    [ apply raises_ret
    | apply raises_call; intros; exact I
    | apply raises_bind; [| intros]
    | apply raises_for_each; intros
    | apply raises_try_except with (Q := fun _ => True);
      [| intros; exact I | intros]
    | match goal with
      | |- raises_only _ _ (if ?b then _ else _) => destruct b
      end ].

Ltac guarded :=
  apply raises_try_except with (Q := fun _ => True);
  [anything | intros e _ Hc; exact Hc | intros; apply raises_ret].

Lemma raises_weaken (A : Type) (P : Exn -> Prop) (m : M Call A) :
  raises_only env (fun _ => False) m -> raises_only env P m.
Proof.
  intros H h. specialize (H h). destruct (fst (m env h)); auto; contradiction.
Qed.

Lemma checks_let_no_client_error_through (config : Deployment) :
  raises_only env (fun e => except_ClientError e = false)
    (check_s3_buckets config ;;
     check_dynamodb config ;;
     check_lambdas config ;;
     check_api_gateway config ;;
     check_sns config ;;
     check_iam config ;;
     test_api_endpoint config).
Proof.
  apply raises_bind;
    [unfold check_s3_buckets; apply raises_for_each; intros; guarded
    | intros _].
  apply raises_bind; [unfold check_dynamodb; guarded | intros _].
  apply raises_bind;
    [unfold check_lambdas; apply raises_for_each; intros; guarded | intros _].
  apply raises_bind; [unfold check_api_gateway; guarded | intros _].
  apply raises_bind; [unfold check_sns; guarded | intros _].
  apply raises_bind; [unfold check_iam; guarded | intros _].
  apply raises_weaken, test_api_endpoint_returns.
Qed.

End ValidateRuns.

(** X25: once the record is read, the validation ends with status 0 or
    with an exception that is not a [ClientError]: no error response of the
    provider ends it, and it never calls [sys.exit].  An exception of another
    kind, such as a failure to connect, is not caught: raised by the first
    [head_bucket], it ends the run, with status 1. *)
Theorem validate_stops_only_on_other_errors (env : Env Validate.Call)
        (config : Deployment) :
  env bool [] Validate.FileExists = Ret true ->
  env Deployment [Ev Validate.FileExists (Ret true)] Validate.ReadRecord
  = Ret config ->
  ends_well_or_unexpectedly (fst (run Validate.main env))
  /\ (forall e,
         env unit [Ev Validate.FileExists (Ret true);
                   Ev Validate.ReadRecord (Ret config)]
             (Validate.HeadBucket (bucket_uploads config)) = Err e ->
         except_ClientError e = false ->
         fst (run Validate.main env) = Raise e
         /\ exit_code (fst (run Validate.main env)) = Some 1%Z).
Proof.
  intros Hfile Hread.
  assert (Hmain :
    fst (run Validate.main env)
    = fst ((Validate.check_s3_buckets config ;;
            Validate.check_dynamodb config ;;
            Validate.check_lambdas config ;;
            Validate.check_api_gateway config ;;
            Validate.check_sns config ;;
            Validate.check_iam config ;;
            Validate.test_api_endpoint config)
             env [Ev Validate.FileExists (Ret true);
                  Ev Validate.ReadRecord (Ret config)])).
  { unfold run, Validate.main, Validate.load_config.
    unfold bind at 1. unfold bind at 1, call at 1. rewrite Hfile. cbn [negb].
    unfold bind at 1, call at 1. cbn [app]. rewrite Hread. unfold ret at 1.
    cbn [app].
    match goal with |- fst (let (o, d') := ?m in _) = _ =>
      now destruct m end. }
  split.
  - rewrite Hmain.
    exact (checks_let_no_client_error_through env config
             [Ev Validate.FileExists (Ret true);
              Ev Validate.ReadRecord (Ret config)]).
  - intros e Hhead Hother.
    assert (Hraise : fst (run Validate.main env) = Raise e).
    { rewrite Hmain.
      rewrite fst_bind. unfold Validate.check_s3_buckets. cbn [for_each].
      rewrite fst_bind, fst_try_except, fst_bind, fst_call, Hhead.
      now rewrite Hother. }
    rewrite Hraise. now split.
Qed.

Lemma validate_stops_only_on_other_errors_witness :
  exit_code (fst (run Validate.main offline)) = Some 1%Z.
Proof.
  exact (proj2 (proj2 (@validate_stops_only_on_other_errors offline
                         Destroy.sample eq_refl eq_refl) _ eq_refl eq_refl)).
Defined.

Section DeployFunctions.

Import Deploy.

(** X26: when [create_function] is refused, [create_lambda] re-raises
    the error and does nothing more, unless the refusal says that the function
    exists: then it polls the state of the function at most twelve times and
    asks for the update of its code with the archive it has just packaged;
    the ARN it returns in that case is the one [get_function] answered
    with. *)
Theorem deploy_lambda_existing_is_updated (env : Env Call)
        (name source_dir role_arn : string) (settings : FunctionSettings)
        (h : Trace Call) (zip : string) (e : Exn) :
  env string h (PackageLambda name source_dir) = Ret zip ->
  env string (h ++ [Ev (PackageLambda name source_dir) (Ret zip)])
      (CreateFunction name role_arn settings zip) = Err e ->
  except_ClientError e = true ->
  let r := create_lambda name source_dir role_arn settings env h in
  let start := [Ev (PackageLambda name source_dir) (Ret zip);
                Ev (CreateFunction name role_arn settings zip) (Err e)] in
  (error_code e <> "ResourceConflictException" -> r = (Raise e, start))
  /\ (error_code e = "ResourceConflictException" ->
      exists polls answer rest,
        snd r = start ++ polls ++ Ev (UpdateFunctionCode name zip) answer :: rest
        /\ length polls <= 12
        /\ forallb (poll_of name) polls = true
        /\ (forall arn,
               fst r = Ok arn ->
               exists info,
                 In (Ev (GetFunction name) (Ret info)) rest
                 /\ FunctionArn info = arn)).
Proof.
  intros Hzip Hcreate Hclient r start.
  destruct r as [o t] eqn:Hr. subst r. unfold create_lambda in Hr.
  set (wait := wait_until_active name 12) in *.
  unfold bind at 1, call at 1 in Hr. rewrite Hzip in Hr.
  unfold try_except at 1, call at 1 in Hr. rewrite Hcreate, Hclient in Hr.
  split.
  - intros Hcode. apply String.eqb_neq in Hcode. rewrite Hcode in Hr.
    unfold raise in Hr. simpl in Hr. injection Hr as <- <-. reflexivity.
  - intros Hcode. rewrite Hcode in Hr. cbn [String.eqb Ascii.eqb Bool.eqb] in Hr.
    unfold bind at 1 in Hr.
    match type of Hr with context [wait env ?hh] =>
      destruct (wait_until_active_returns env name 12 hh) as (W1 & W2 & W3);
      fold wait in W1, W2, W3;
      destruct (wait env hh) as [ow polls]
    end.
    cbn [fst snd] in W1, W2, W3. subst ow.
    run_apart Hr;
      exists polls; do 2 eexists;
      (split; [subst start; simpl; rewrite <- ?app_assoc; simpl; reflexivity |]);
      (split; [exact W2 |]); (split; [exact W3 |]);
      intros arn Harn; try discriminate Harn; injection Harn as <-;
      eexists; (split; [| reflexivity]); simpl; auto 6.
Qed.

Lemma deploy_lambda_existing_is_updated_witness :
  fst (create_lambda "load_inventory" "lambdas/load_inventory" "arn:role"
         (load_settings "us-east-1") second_run [])
  = Ok "arn:aws:lambda:us-east-1:123456789012:function:load_inventory".
Proof.
  destruct (proj2 (@deploy_lambda_existing_is_updated second_run
                     "load_inventory" "lambdas/load_inventory" "arn:role"
                     (load_settings "us-east-1") [] "PK" _
                     eq_refl eq_refl eq_refl) eq_refl)
    as (polls & answer & rest & _).
  reflexivity.
Defined.

(** X27: [add_s3_trigger_to_lambda] goes on when the permission for S3 is
    granted or is there already, and re-raises any other refusal of it; it
    then points the notification of the upload bucket at the ARN that
    [get_function] answers with, and passes over an error response to
    that. *)
Theorem deploy_s3_trigger (SUFFIX : string) (env : Env Call)
        (lambda_name : string) (h : Trace Call) (p : Reply unit) :
  env unit h (AddPermission lambda_name
                ("AllowS3-" ++ BUCKET_UPLOADS SUFFIX)%string "s3.amazonaws.com"
                ("arn:aws:s3:::" ++ BUCKET_UPLOADS SUFFIX)%string) = p ->
  let r := add_s3_trigger_to_lambda SUFFIX lambda_name env h in
  (forall e, p = Err e -> permission_settled p = false -> fst r = Raise e)
  /\ (forall info,
         permission_settled p = true ->
         (forall h', env FunctionInfo h' (GetFunction lambda_name) = Ret info) ->
         deploy_errors env ->
         fst r = Ok tt
         /\ exists answer,
              last (snd r) (Log "")
              = Ev (PutBucketNotificationConfiguration
                      (BUCKET_UPLOADS SUFFIX) (FunctionArn info)) answer).
Proof.
  intros Hp r.
  destruct r as [o t] eqn:Hr. subst r. unfold add_s3_trigger_to_lambda in Hr.
  unfold bind at 1, try_except at 1, call at 1 in Hr. rewrite Hp in Hr.
  unfold tolerate_conflict in Hr.
  split.
  - intros e -> Hno. unfold permission_settled in Hno.
    destruct (except_ClientError e); simpl in Hno.
    + rewrite Hno in Hr. simpl in Hr. injection Hr as <- <-. reflexivity.
    + injection Hr as <- <-. reflexivity.
  - intros info Hyes Hget Herr.
    assert (Hafter : forall hh,
               exists answer,
                 (response <- call (GetFunction lambda_name) ;;
                  try_except
                    (call (PutBucketNotificationConfiguration
                             (BUCKET_UPLOADS SUFFIX) (FunctionArn response)))
                    except_ClientError (fun _ => ret tt)) env hh
                 = (Ok tt,
                    [Ev (GetFunction lambda_name) (Ret info);
                     Ev (PutBucketNotificationConfiguration
                           (BUCKET_UPLOADS SUFFIX) (FunctionArn info)) answer])).
    { intros hh. unfold bind, call, try_except. rewrite Hget.
      match goal with |- context [env unit ?h1 ?c] =>
        destruct (env unit h1 c) as [[] | e] eqn:E end.
      - now exists (Ret tt).
      - rewrite (Herr _ _ _ _ E). now exists (Err e). }
    cbv zeta in Hr.
    destruct p as [[] | e]; unfold permission_settled in Hyes.
    + match type of Hr with context [bind ?m ?k env ?hh] =>
        destruct (Hafter hh) as (answer & E) end.
      cbv iota beta in Hr. rewrite E in Hr. injection Hr as <- <-.
      split; [reflexivity |]. now exists answer.
    + apply andb_prop in Hyes as [Hc Hconf]. rewrite Hc, Hconf in Hr.
      cbn [negb] in Hr. cbv iota beta in Hr. unfold ret at 1 in Hr.
      match type of Hr with context [bind ?m ?k env ?hh] =>
        destruct (Hafter hh) as (answer & E) end.
      rewrite E in Hr. injection Hr as <- <-.
      split; [reflexivity |]. now exists answer.
Qed.

Lemma deploy_s3_trigger_witness :
  fst (add_s3_trigger_to_lambda "inventory-main" "load_inventory"
         second_run []) = Ok tt.
Proof.
  refine (proj1 (proj2 (@deploy_s3_trigger "inventory-main" second_run
                          "load_inventory" [] _ eq_refl)
                   (mkFunctionInfo "Active"
                      "arn:aws:lambda:us-east-1:123456789012:function:load_inventory")
                   eq_refl (fun _ => eq_refl) _)).
  intros R h c e. destruct c; simpl; try discriminate;
    try (destruct (String.eqb _ _); try discriminate);
    now intros [= <-].
Defined.

End DeployFunctions.
